(** * AxisFit posture monitor: clock sync, posture engine, session recorder

    A shallow embedding of the numeric core of the dashboard
    (clock_sync.py, posture_engine.py, session_recorder.py, the recording
    loop of views/athlete/monitor_view.py and the daily rollup of db.py),
    with the properties of its specification stated and proved.

    Numbers.  Python [float] values are modelled by exact rationals [Q]
    (no rounding, no NaN, no infinities), Python [int] values by [Z].
    Equalities between floats are therefore stated with [==] (Qeq). *)

From Stdlib Require Import QArith Qabs Qround Qminmax ZArith List String Ascii Bool Lia Lqa.
Import ListNotations.
Open Scope Q_scope.

(* ===================================================================== *)
(** ** Python primitives used by the sources *)
(* ===================================================================== *)

Module Py.

(** [x < y] on floats. *)
Definition ltb (x y : Q) : bool := negb (Qle_bool y x).

(** [x <= y] on floats. *)
Definition leb (x y : Q) : bool := Qle_bool x y.

(** [max(a, b)]: the first argument unless the second is strictly larger. *)
Definition max (a b : Q) : Q := if ltb a b then b else a.

(** [min(a, b)]: the first argument unless the second is strictly smaller. *)
Definition min (a b : Q) : Q := if ltb b a then b else a.

(** [sum(xs)]: left-to-right accumulation from 0. *)
Definition sum (xs : list Q) : Q := fold_left Qplus xs 0.

(** [float(n)] for an int [n]. *)
Definition float (n : Z) : Q := inject_Z n.

(** [int(x)] for a float [x]: truncation toward zero. *)
Definition int (x : Q) : Z := Z.quot (Qnum x) (Zpos (Qden x)).

(** [round(x)] with one argument: nearest integer, ties to even. *)
Definition round (x : Q) : Z :=
  let f := Qfloor x in
  let r := x - inject_Z f in
  if ltb r (1 # 2) then f
  else if ltb (1 # 2) r then (f + 1)%Z
  else if Z.even f then f else (f + 1)%Z.

(** [len(xs)] as an int. *)
Definition len {A} (xs : list A) : Z := Z.of_nat (List.length xs).

(** [collections.deque(maxlen=n).append(x)]: push on the right, and drop
    from the left whatever exceeds [maxlen]. *)
Definition deque_append {A} (maxlen : nat) (d : list A) (x : A) : list A :=
  let d' := d ++ [x] in
  skipn (List.length d' - maxlen) d'.

(** [xs[-1]]: [None] stands for IndexError. *)
Definition last_item {A} (xs : list A) : option A :=
  match rev xs with
  | [] => None
  | x :: _ => Some x
  end.

(** ASCII view of [str.strip()] and [str.lower()]. *)
Definition is_space (c : ascii) : bool :=
  let n := nat_of_ascii c in
  ((9 <=? n)%nat && (n <=? 13)%nat) || ((28 <=? n)%nat && (n <=? 32)%nat).

Fixpoint lstrip (s : string) : string :=
  match s with
  | EmptyString => EmptyString
  | String c s' => if is_space c then lstrip s' else s
  end.

Fixpoint rstrip (s : string) : string :=
  match s with
  | EmptyString => EmptyString
  | String c s' =>
      match rstrip s' with
      | EmptyString => if is_space c then EmptyString else String c EmptyString
      | r => String c r
      end
  end.

Definition strip (s : string) : string := rstrip (lstrip s).

Definition lower_ascii (c : ascii) : ascii :=
  let n := nat_of_ascii c in
  if ((65 <=? n)%nat && (n <=? 90)%nat) then ascii_of_nat (n + 32) else c.

Fixpoint lower (s : string) : string :=
  match s with
  | EmptyString => EmptyString
  | String c s' => String (lower_ascii c) (lower s')
  end.

(** [s or d] on strings: the empty string is falsy. *)
Definition str_or (s d : string) : string :=
  match s with EmptyString => d | _ => s end.

End Py.

(* ===================================================================== *)
(** ** posture_engine.py *)
(* ===================================================================== *)

Module PostureEngine.

(** [Zone = str], one of "green", "yellow", "red". *)
Definition Zone := string.

Definition _clamp (x lo hi : Q) : Q :=
  if Py.ltb x lo then lo else if Py.ltb hi x then hi else x.

(** The four keyword arguments of [_zone_from_abs]. *)
Record Thresholds := mkThresholds {
  pitch_g : Q;
  pitch_y : Q;
  roll_g : Q;
  roll_y : Q
}.

Definition _zone_from_abs (pitch roll : Q) (th : Thresholds) : Zone :=
  let ap := Qabs pitch in
  let ar := Qabs roll in
  if Py.leb ap (pitch_g th) && Py.leb ar (roll_g th) then "green"%string
  else if Py.leb ap (pitch_y th) && Py.leb ar (roll_y th) then "yellow"%string
  else "red"%string.

(** One entry of [DEFAULT_THRESHOLDS]: the two segments of a mode. *)
Record ModeThresholds := mkModeThresholds {
  thor : Thresholds;
  lum : Thresholds
}.

Definition desk_thresholds : ModeThresholds :=
  {| thor := mkThresholds 8 15 7 12;
     lum := mkThresholds 10 18 7 12 |}.

Definition train_thresholds : ModeThresholds :=
  {| thor := mkThresholds 12 20 10 16;
     lum := mkThresholds 14 24 10 16 |}.

Definition DEFAULT_THRESHOLDS (mode : string) : option ModeThresholds :=
  if String.eqb mode "desk" then Some desk_thresholds
  else if String.eqb mode "train" then Some train_thresholds
  else None.

Record SegmentAngles := mkSegmentAngles {
  pitch : Q;
  roll : Q;
  yaw : Q
}.

Record AnnotatedSample := mkAnnotatedSample {
  ts_ms : Z;
  T_pitch : Q; T_roll : Q; T_yaw : Q;
  L_pitch : Q; L_roll : Q; L_yaw : Q;
  thor_zone : Zone;
  lum_zone : Zone;
  comp_index : Q
}.

(** The engine object: its three settings and the rolling buffer
    [_comp_buf], a deque whose [maxlen] is fixed at construction. *)
Record t := mkEngine {
  sample_rate_hz : Q;
  comp_window_s : Q;
  comp_scale_deg : Q;
  comp_maxlen : nat;
  _comp_buf : list Q
}.

(** [PostureEngine.__init__]. *)
Definition init (rate window scale : Q) : t :=
  {| sample_rate_hz := rate;
     comp_window_s := window;
     comp_scale_deg := scale;
     comp_maxlen := Z.to_nat (Z.max 1 (Py.round (rate * window)));
     _comp_buf := [] |}.

(** The defaults of the constructor: 50 Hz, 10 s, 25 degrees. *)
Definition default : t := init 50 10 25.

Definition reset (e : t) : t :=
  {| sample_rate_hz := sample_rate_hz e;
     comp_window_s := comp_window_s e;
     comp_scale_deg := comp_scale_deg e;
     comp_maxlen := comp_maxlen e;
     _comp_buf := [] |}.

(** [PostureEngine.thresholds]: unknown modes fall back to "desk". *)
Definition thresholds (mode : string) : ModeThresholds :=
  let m := Py.lower (Py.strip (Py.str_or mode "desk")) in
  match DEFAULT_THRESHOLDS m with
  | Some th => th
  | None => desk_thresholds
  end.

(** The raw per-sample compensation value of [annotate]. *)
Definition comp_raw (e : t) (thor_a lum_a : SegmentAngles) : Q :=
  let diff := pitch lum_a - pitch thor_a in
  _clamp (Qabs diff / Py.max (comp_scale_deg e) (1 # 1000000) * 100) 0 100.

(** [PostureEngine.annotate]: the updated engine and the annotated sample. *)
Definition annotate (e : t) (ts : Z) (thor_a lum_a : SegmentAngles)
    (mode : string) : t * AnnotatedSample :=
  let th := thresholds mode in
  let tz := _zone_from_abs (pitch thor_a) (roll thor_a) (thor th) in
  let lz := _zone_from_abs (pitch lum_a) (roll lum_a) (lum th) in
  let buf := Py.deque_append (comp_maxlen e) (_comp_buf e) (comp_raw e thor_a lum_a) in
  let ci := Py.sum buf / Py.float (Z.max (Py.len buf) 1) in
  ({| sample_rate_hz := sample_rate_hz e;
      comp_window_s := comp_window_s e;
      comp_scale_deg := comp_scale_deg e;
      comp_maxlen := comp_maxlen e;
      _comp_buf := buf |},
   {| ts_ms := ts;
      T_pitch := pitch thor_a; T_roll := roll thor_a; T_yaw := yaw thor_a;
      L_pitch := pitch lum_a; L_roll := roll lum_a; L_yaw := yaw lum_a;
      thor_zone := tz; lum_zone := lz;
      comp_index := ci |}).

(** A run of the estimator: the comp_index returned by each call, in order. *)
Fixpoint annotate_all (e : t) (mode : string)
    (inputs : list (Z * SegmentAngles * SegmentAngles)) : t * list AnnotatedSample :=
  match inputs with
  | [] => (e, [])
  | (ts, ta, la) :: rest =>
      let '(e1, s) := annotate e ts ta la mode in
      let '(e2, ss) := annotate_all e1 mode rest in
      (e2, s :: ss)
  end.

Definition compute_risk_index (duration_s thor_red_s lum_red_s comp_avg : Q) : Q :=
  let dur := Py.max duration_s (1 # 1000000) in
  let thor_red_pct := _clamp (thor_red_s / dur) 0 1 in
  let lum_red_pct := _clamp (lum_red_s / dur) 0 1 in
  let comp := _clamp (comp_avg / 100) 0 1 in
  let risk := 100 * ((45 # 100) * lum_red_pct + (35 # 100) * thor_red_pct + (20 # 100) * comp) in
  _clamp risk 0 100.

End PostureEngine.

(* ===================================================================== *)
(** ** Exceptions *)
(* ===================================================================== *)

(** Python exceptions that the modelled code can raise. *)
Inductive PyError : Type :=
| ValueError (msg : string)
| RuntimeError (msg : string)
| IndexError
| ZeroDivisionError.

(** A computation that returns a value or raises. *)
Definition Result (A : Type) : Type := (PyError + A)%type.

Definition ok {A} (x : A) : Result A := inr x.
Definition raise {A} (e : PyError) : Result A := inl e.

Definition bind {A B} (c : Result A) (k : A -> Result B) : Result B :=
  match c with
  | inl e => inl e
  | inr x => k x
  end.

Declare Scope result_scope.
Delimit Scope result_scope with result.
Notation "x <- c ;; k" := (bind c (fun x => k))
  (at level 61, c at next level, right associativity) : result_scope.
Notation "' p <- c ;; k" := (bind c (fun x => let 'p := x in k))
  (at level 61, p pattern, c at next level, right associativity) : result_scope.

(* ===================================================================== *)
(** ** clock_sync.py *)
(* ===================================================================== *)

Module ClockSync.

Definition _clamp (x lo hi : Q) : Q :=
  if Py.ltb x lo then lo else if Py.ltb hi x then hi else x.

Record SyncParams := mkSyncParams {
  a : Q;  (* slope (drift) *)
  b : Q   (* intercept (offset) *)
}.

(** [LinearClockSync]: the window [_pts] is a deque of capacity
    [max_points]. *)
Record LinearClockSync := mkLinearClockSync {
  _pts : list (Q * Q);
  max_points : nat;
  _min_points : Z;
  params : SyncParams
}.

Definition init (max_pts : nat) (min_pts : Z) : LinearClockSync :=
  {| _pts := []; max_points := max_pts; _min_points := min_pts;
     params := mkSyncParams 1 0 |}.

(** The constructor's defaults: a window of 200 pairs, 12 to warm up. *)
Definition default : LinearClockSync := init 200 12.

Definition with_fit (s : LinearClockSync) (pts : list (Q * Q)) (p : SyncParams)
    : LinearClockSync :=
  {| _pts := pts; max_points := max_points s; _min_points := _min_points s;
     params := p |}.

Definition x_mean (pts : list (Q * Q)) : Q :=
  Py.sum (map fst pts) / Py.float (Py.len pts).

Definition y_mean (pts : list (Q * Q)) : Q :=
  Py.sum (map snd pts) / Py.float (Py.len pts).

Definition sxx (pts : list (Q * Q)) : Q :=
  Py.sum (map (fun x => (x - x_mean pts) ^ 2) (map fst pts)).

Definition sxy (pts : list (Q * Q)) : Q :=
  Py.sum (map (fun p => (fst p - x_mean pts) * (snd p - y_mean pts)) pts).

(** [abs(sxx) < 1e-9]. *)
Definition degenerate (pts : list (Q * Q)) : bool :=
  Py.ltb (Qabs (sxx pts)) (1 # 1000000000).

(** [LinearClockSync.update]: appends the pair, refits, stores and
    returns the parameters.  [xs[-1]] on an empty window raises
    IndexError and a zero [n] raises ZeroDivisionError; both need a deque
    of capacity 0. *)
Definition update (s : LinearClockSync) (imu_ts_ms host_recv_ms : Q)
    : Result (LinearClockSync * SyncParams) :=
  let pts := Py.deque_append (max_points s) (_pts s) (imu_ts_ms, host_recv_ms) in
  if (Py.len pts <? _min_points s)%Z then
    match Py.last_item pts with
    | None => raise IndexError
    | Some (last_imu, last_host) =>
        let p := mkSyncParams 1 (last_host - last_imu) in
        ok (with_fit s pts p, p)
    end
  else
    if (Py.len pts =? 0)%Z then raise ZeroDivisionError
    else if degenerate pts then
      let p := mkSyncParams 1 (y_mean pts - x_mean pts) in
      ok (with_fit s pts p, p)
    else
      let a0 := sxy pts / sxx pts in
      let b0 := y_mean pts - a0 * x_mean pts in
      let p := mkSyncParams (_clamp a0 (95 # 100) (105 # 100)) b0 in
      ok (with_fit s pts p, p).

(** A sequence of [update] calls: the final estimator and the parameters
    returned by each call, in order. *)
Fixpoint update_all (s : LinearClockSync) (pairs : list (Q * Q))
    : Result (LinearClockSync * list SyncParams) :=
  match pairs with
  | [] => ok (s, [])
  | (i, h) :: rest =>
      ('(s1, p) <- update s i h ;;
       '(s2, ps) <- update_all s1 rest ;;
       ok (s2, p :: ps))%result
  end.

Definition to_host_ms (s : LinearClockSync) (imu_ts_ms : Q) : Q :=
  a (params s) * imu_ts_ms + b (params s).

(** [DualStreamAligner]: one held sample [(host_ts_ms, imu_ts_ms, payload)]
    per device, or [None]. *)
Record DualStreamAligner (T : Type) := mkDualStreamAligner {
  max_age_ms : Z;
  _last_A : option (Q * Q * T);
  _last_B : option (Q * Q * T)
}.
Arguments mkDualStreamAligner {T}.
Arguments max_age_ms {T}.
Arguments _last_A {T}.
Arguments _last_B {T}.

Definition aligner_init {T} (max_age : Z) : DualStreamAligner T :=
  mkDualStreamAligner max_age None None.

Definition push_A {T} (al : DualStreamAligner T) (host_ts_ms imu_ts_ms : Q)
    (payload : T) : DualStreamAligner T :=
  mkDualStreamAligner (max_age_ms al) (Some (host_ts_ms, imu_ts_ms, payload)) (_last_B al).

Definition push_B {T} (al : DualStreamAligner T) (host_ts_ms imu_ts_ms : Q)
    (payload : T) : DualStreamAligner T :=
  mkDualStreamAligner (max_age_ms al) (_last_A al) (Some (host_ts_ms, imu_ts_ms, payload)).

(** The inner helper [_pick] of [fused_at]. *)
Definition _pick {T} (max_age : Z) (t : Q) (last : option (Q * Q * T))
    : option (T * Q) :=
  match last with
  | None => None
  | Some (ht, it, pl) =>
      if Py.ltb (Py.float max_age) (t - ht) then None else Some (pl, it)
  end.

(** [DualStreamAligner.fused_at]: payloads of A and B and their device
    timestamps passed through [int]. *)
Definition fused_at {T} (al : DualStreamAligner T) (host_ts_ms : Q)
    : option (T * T * Z * Z) :=
  match _pick (max_age_ms al) host_ts_ms (_last_A al),
        _pick (max_age_ms al) host_ts_ms (_last_B al) with
  | Some pa, Some pb => Some (fst pa, fst pb, Py.int (snd pa), Py.int (snd pb))
  | _, _ => None
  end.

End ClockSync.

(* ===================================================================== *)
(** ** db.py: sensor sessions, summaries and the daily rollup *)
(* ===================================================================== *)

(** The SQLite tables are modelled as lists of rows in insertion order.
    Failures of SQLite itself (I/O, locks, constraint violations) are
    outside the model; the checks that db.py makes in Python are inside.
    A [Datetime] is a number of seconds and its calendar day is
    [day_of]; the current time is an explicit argument. *)

Module Db.

Definition Datetime := Z.
Definition Day := Z.

Definition day_of (t : Datetime) : Day := (t / 86400)%Z.

(** sensor_sessions *)
Record SensorSession := mkSensorSession {
  id : Z;
  user_id : Z;
  kind : string;
  mode : string;
  sport : string;
  started_at : Datetime;
  ended_at : option Datetime
}.

(** sensor_samples_raw: the 13-tuples buffered by the recorder. *)
Record RawRow := mkRawRow {
  raw_session_id : Z;
  raw_ts_ms : Z;
  raw_T_pitch : Q; raw_T_roll : Q; raw_T_yaw : Q;
  raw_L_pitch : Q; raw_L_roll : Q; raw_L_yaw : Q;
  raw_thor_zone : string;
  raw_lum_zone : string;
  raw_comp_index : Q;
  raw_T_imu_ts_ms : option Z;
  raw_L_imu_ts_ms : option Z
}.

(** sensor_samples_agg: the 7-tuples of the 1 Hz aggregate. *)
Record AggRow := mkAggRow {
  agg_session_id : Z;
  agg_ts_s : Z;
  agg_T_pitch : Q;
  agg_L_pitch : Q;
  agg_thor_zone : string;
  agg_lum_zone : string;
  agg_comp_index : Q
}.

(** session_summary; every column is written by [upsert_session_summary],
    so no column is NULL. *)
Record SessionSummary := mkSessionSummary {
  session_id : Z;
  duration_s : Q;
  thor_red_s : Q;
  lum_red_s : Q;
  alerts_count : Z;
  comp_avg : Q;
  comp_peak : Q;
  risk_index : Q
}.

(** daily_summary, and the payload dict of [recompute_daily_summary]. *)
Record DailySummary := mkDailySummary {
  d_user_id : Z;
  d_day : Day;
  sessions_count : Z;
  d_duration_s : Q;
  d_thor_red_s : Q;
  d_lum_red_s : Q;
  d_alerts_count : Z;
  d_comp_avg : Q;
  d_comp_peak : Q;
  risk_index_avg : Q;
  risk_index_max : Q
}.

Record t := mkDb {
  next_session_id : Z;            (* AUTOINCREMENT of sensor_sessions *)
  sensor_sessions : list SensorSession;
  sensor_samples_raw : list RawRow;
  sensor_samples_agg : list AggRow;
  session_summary : list SessionSummary;
  daily_summary : list DailySummary
}.

Definition empty : t := mkDb 1 [] [] [] [] [].

Definition valid_kind (k : string) : bool :=
  String.eqb k "monitor" || String.eqb k "routine" || String.eqb k "baseline".

Definition start_sensor_session (db : t) (uid : Z) (knd md sp : string)
    (started : Datetime) : Result (t * Z) :=
  let k := Py.strip knd in
  if negb (valid_kind k) then raise (ValueError "kind invalido (monitor|routine|baseline)")
  else
    let sid := next_session_id db in
    ok (mkDb (sid + 1)
             (sensor_sessions db ++ [mkSensorSession sid uid k md sp started None])
             (sensor_samples_raw db) (sensor_samples_agg db)
             (session_summary db) (daily_summary db),
        sid).

Definition set_ended (sid : Z) (ended : Datetime) (s : SensorSession) : SensorSession :=
  if (id s =? sid)%Z
  then mkSensorSession (id s) (user_id s) (kind s) (mode s) (sport s) (started_at s) (Some ended)
  else s.

Definition end_sensor_session (db : t) (sid : Z) (ended : Datetime) : t :=
  mkDb (next_session_id db) (map (set_ended sid ended) (sensor_sessions db))
       (sensor_samples_raw db) (sensor_samples_agg db)
       (session_summary db) (daily_summary db).

Definition insert_sensor_samples_raw_batch (db : t) (sid : Z) (rows : list RawRow) : t :=
  match rows with
  | [] => db
  | _ => mkDb (next_session_id db) (sensor_sessions db)
              (sensor_samples_raw db ++ rows) (sensor_samples_agg db)
              (session_summary db) (daily_summary db)
  end.

Definition insert_sensor_samples_agg_batch (db : t) (sid : Z) (rows : list AggRow) : t :=
  match rows with
  | [] => db
  | _ => mkDb (next_session_id db) (sensor_sessions db)
              (sensor_samples_raw db) (sensor_samples_agg db ++ rows)
              (session_summary db) (daily_summary db)
  end.

(** INSERT ... ON CONFLICT(session_id) DO UPDATE. *)
Fixpoint upsert_summary_row (row : SessionSummary) (rows : list SessionSummary)
    : list SessionSummary :=
  match rows with
  | [] => [row]
  | r :: rest =>
      if (session_id r =? session_id row)%Z then row :: rest
      else r :: upsert_summary_row row rest
  end.

Definition upsert_session_summary (db : t) (row : SessionSummary) : t :=
  mkDb (next_session_id db) (sensor_sessions db)
       (sensor_samples_raw db) (sensor_samples_agg db)
       (upsert_summary_row row (session_summary db)) (daily_summary db).

(** The FROM/JOIN/WHERE part of the rollup query: the summary rows of the
    sessions of [uid] started on [d] that have ended. *)
Definition completed_session (uid : Z) (d : Day) (s : SensorSession) : bool :=
  (user_id s =? uid)%Z && (day_of (started_at s) =? d)%Z &&
  match ended_at s with Some _ => true | None => false end.

Definition joined_rows (db : t) (uid : Z) (d : Day) : list SessionSummary :=
  flat_map
    (fun s => filter (fun ss => (session_id ss =? id s)%Z) (session_summary db))
    (filter (completed_session uid d) (sensor_sessions db)).

(** SQL aggregates: NULL (here [None]) over no rows. *)
Definition sql_count {A} (rows : list A) : Z := Z.of_nat (List.length rows).

Definition sql_sum (xs : list Q) : option Q :=
  match xs with
  | [] => None
  | _ => Some (fold_left Qplus xs 0)
  end.

Definition sql_sum_int (xs : list Z) : option Z :=
  match xs with
  | [] => None
  | _ => Some (fold_left Z.add xs 0%Z)
  end.

Definition sql_avg (xs : list Q) : option Q :=
  match xs with
  | [] => None
  | _ => Some (fold_left Qplus xs 0 / inject_Z (Z.of_nat (List.length xs)))
  end.

Definition sql_max (xs : list Q) : option Q :=
  match xs with
  | [] => None
  | x :: rest => Some (fold_left (fun m y => if Py.ltb m y then y else m) rest x)
  end.

Definition coalesce {A} (x : option A) (d : A) : A :=
  match x with Some v => v | None => d end.

(** [float(v or 0.0)] and [int(v or 0)]. *)
Definition float_or_zero (v : Q) : Q := if Qeq_bool v 0 then 0 else v.
Definition int_or_zero (v : Z) : Z := if (v =? 0)%Z then 0%Z else v.

(** INSERT ... ON CONFLICT(user_id, day) DO UPDATE. *)
Fixpoint upsert_daily_row (row : DailySummary) (rows : list DailySummary)
    : list DailySummary :=
  match rows with
  | [] => [row]
  | r :: rest =>
      if (d_user_id r =? d_user_id row)%Z && (d_day r =? d_day row)%Z then row :: rest
      else r :: upsert_daily_row row rest
  end.

(** The payload computed by [recompute_daily_summary] from the joined rows. *)
Definition daily_payload (uid : Z) (d : Day) (rows : list SessionSummary) : DailySummary :=
  {| d_user_id := uid;
     d_day := d;
     sessions_count := int_or_zero (sql_count rows);
     d_duration_s := float_or_zero (coalesce (sql_sum (map duration_s rows)) 0);
     d_thor_red_s := float_or_zero (coalesce (sql_sum (map thor_red_s rows)) 0);
     d_lum_red_s := float_or_zero (coalesce (sql_sum (map lum_red_s rows)) 0);
     d_alerts_count := int_or_zero (coalesce (sql_sum_int (map alerts_count rows)) 0%Z);
     d_comp_avg := float_or_zero (coalesce (sql_avg (map comp_avg rows)) 0);
     d_comp_peak := float_or_zero (coalesce (sql_max (map comp_peak rows)) 0);
     risk_index_avg := float_or_zero (coalesce (sql_avg (map risk_index rows)) 0);
     risk_index_max := float_or_zero (coalesce (sql_max (map risk_index rows)) 0) |}.

(** [recompute_daily_summary(user_id, day)]: [day] defaults to today. *)
Definition recompute_daily_summary (db : t) (uid : Z) (day : option Day) (now : Datetime)
    : t * DailySummary :=
  let d := match day with Some d => d | None => day_of now end in
  let payload := daily_payload uid d (joined_rows db uid d) in
  (mkDb (next_session_id db) (sensor_sessions db)
        (sensor_samples_raw db) (sensor_samples_agg db)
        (session_summary db) (upsert_daily_row payload (daily_summary db)),
   payload).

End Db.

(* ===================================================================== *)
(** ** session_recorder.py *)
(* ===================================================================== *)

Module SessionRecorder.

Record RecorderConfig := mkRecorderConfig {
  user_id : Z;
  kind : string;            (* monitor | routine | baseline *)
  mode : string;            (* desk | train *)
  sport : string;           (* gym | crossfit *)
  sample_rate_hz : Q;
  flush_every_s : Q
}.

(** What the recorder acts on besides itself: the database and the host
    clock (milliseconds), which stands still during one call. *)
Record World := mkWorld {
  db : Db.t;
  clock_ms : Z
}.

(** [_now_ms()] and [datetime.now()] (to the second). *)
Definition _now_ms (w : World) : Z := clock_ms w.
Definition datetime_now (w : World) : Db.Datetime := (clock_ms w / 1000)%Z.

Definition with_db (w : World) (d : Db.t) : World := mkWorld d (clock_ms w).

(** One element of the [samples] argument: a dict in which every key may
    be absent. *)
Record SampleDict := mkSampleDict {
  s_ts_ms : option Z;
  s_T_pitch : option Q; s_T_roll : option Q; s_T_yaw : option Q;
  s_L_pitch : option Q; s_L_roll : option Q; s_L_yaw : option Q;
  s_thor_zone : option string;
  s_lum_zone : option string;
  s_comp_index : option Q;
  s_T_imu_ts_ms : option Z;
  s_L_imu_ts_ms : option Z
}.

(** [s.get(key, 0.0)]. *)
Definition get_float (v : option Q) : Q := match v with Some x => x | None => 0 end.

Record t := mkRecorder {
  cfg : RecorderConfig;
  session_id : option Z;
  _engine : PostureEngine.t;
  _raw_rows : list Db.RawRow;
  _last_flush_ms : option Z;
  _n : Z;
  _thor_red : Z;
  _lum_red : Z;
  _alerts : Z;
  _comp_sum : Q;
  _comp_peak : Q;
  _last_thor_zone : option string;
  _last_lum_zone : option string;
  _agg_rows : list Db.AggRow;
  _last_agg_s : option Z
}.

(** [SessionRecorder.__init__]; the engine takes the other defaults of
    [PostureEngine.__init__] (10 s window, 25 degrees). *)
Definition init (c : RecorderConfig) : t :=
  {| cfg := c; session_id := None;
     _engine := PostureEngine.init (sample_rate_hz c) 10 25;
     _raw_rows := []; _last_flush_ms := None;
     _n := 0; _thor_red := 0; _lum_red := 0; _alerts := 0;
     _comp_sum := 0; _comp_peak := 0;
     _last_thor_zone := None; _last_lum_zone := None;
     _agg_rows := []; _last_agg_s := None |}.

Definition start_session (r : t) (w : World) : Result (Z * t * World) :=
  match session_id r with
  | Some sid => ok (sid, r, w)
  | None =>
      ('(db', sid) <- Db.start_sensor_session (db w) (user_id (cfg r)) (kind (cfg r))
                        (mode (cfg r)) (sport (cfg r)) (datetime_now w) ;;
       ok (sid,
           {| cfg := cfg r; session_id := Some sid; _engine := _engine r;
              _raw_rows := _raw_rows r; _last_flush_ms := Some (_now_ms w);
              _n := _n r; _thor_red := _thor_red r; _lum_red := _lum_red r;
              _alerts := _alerts r; _comp_sum := _comp_sum r;
              _comp_peak := _comp_peak r;
              _last_thor_zone := _last_thor_zone r;
              _last_lum_zone := _last_lum_zone r;
              _agg_rows := _agg_rows r; _last_agg_s := _last_agg_s r |},
           with_db w db'))%result
  end.

(** [x == "red"] and [last != "red"] where [last] may be [None]. *)
Definition is_red (z : string) : bool := String.eqb z "red".
Definition last_not_red (z : option string) : bool :=
  match z with Some s => negb (is_red s) | None => true end.

(** The body of the [for s in samples] loop of [append_samples_batch];
    [sid] is [self.session_id], which the loop does not change. *)
Definition record_sample (sid : Z) (now : Z) (r : t) (s : SampleDict) : t :=
  let ts0 := match s_ts_ms s with Some v => v | None => 0%Z end in
  let ts_ms := if (ts0 <=? 0)%Z then now else ts0 in
  let thor := PostureEngine.mkSegmentAngles
                (get_float (s_T_pitch s)) (get_float (s_T_roll s)) (get_float (s_T_yaw s)) in
  let lum := PostureEngine.mkSegmentAngles
                (get_float (s_L_pitch s)) (get_float (s_L_roll s)) (get_float (s_L_yaw s)) in
  let '(eng, thor_zone, lum_zone, comp_index) :=
    match s_thor_zone s, s_lum_zone s, s_comp_index s with
    | Some tz, Some lz, Some ci => (_engine r, tz, lz, ci)
    | _, _, _ =>
        let '(e', ann) := PostureEngine.annotate (_engine r) ts_ms thor lum (mode (cfg r)) in
        (e', PostureEngine.thor_zone ann, PostureEngine.lum_zone ann,
         PostureEngine.comp_index ann)
    end in
  let n1 := (_n r + 1)%Z in
  let thor_red1 := if is_red thor_zone then (_thor_red r + 1)%Z else _thor_red r in
  let lum_red1 := if is_red lum_zone then (_lum_red r + 1)%Z else _lum_red r in
  let alerts1 :=
    if last_not_red (_last_thor_zone r) && is_red thor_zone
    then (_alerts r + 1)%Z else _alerts r in
  let alerts2 :=
    if last_not_red (_last_lum_zone r) && is_red lum_zone
    then (alerts1 + 1)%Z else alerts1 in
  let raw := Db.mkRawRow sid ts_ms
               (PostureEngine.pitch thor) (PostureEngine.roll thor) (PostureEngine.yaw thor)
               (PostureEngine.pitch lum) (PostureEngine.roll lum) (PostureEngine.yaw lum)
               thor_zone lum_zone comp_index (s_T_imu_ts_ms s) (s_L_imu_ts_ms s) in
  let ts_s := (ts_ms / 1000)%Z in
  let new_second :=
    match _last_agg_s r with None => true | Some l => (l <? ts_s)%Z end in
  {| cfg := cfg r; session_id := session_id r; _engine := eng;
     _raw_rows := _raw_rows r ++ [raw];
     _last_flush_ms := _last_flush_ms r;
     _n := n1; _thor_red := thor_red1; _lum_red := lum_red1;
     _alerts := alerts2;
     _comp_sum := _comp_sum r + comp_index;
     _comp_peak := Py.max (_comp_peak r) comp_index;
     _last_thor_zone := Some thor_zone;
     _last_lum_zone := Some lum_zone;
     _agg_rows :=
       if new_second
       then _agg_rows r ++ [Db.mkAggRow sid ts_s (PostureEngine.pitch thor)
                               (PostureEngine.pitch lum) thor_zone lum_zone comp_index]
       else _agg_rows r;
     _last_agg_s := if new_second then Some ts_s else _last_agg_s r |}.

Definition set_buffers (r : t) (raw : list Db.RawRow) (agg : list Db.AggRow)
    (last_flush : option Z) : t :=
  {| cfg := cfg r; session_id := session_id r; _engine := _engine r;
     _raw_rows := raw; _last_flush_ms := last_flush;
     _n := _n r; _thor_red := _thor_red r; _lum_red := _lum_red r;
     _alerts := _alerts r; _comp_sum := _comp_sum r; _comp_peak := _comp_peak r;
     _last_thor_zone := _last_thor_zone r; _last_lum_zone := _last_lum_zone r;
     _agg_rows := agg; _last_agg_s := _last_agg_s r |}.

Definition flush (r : t) (w : World) : t * World :=
  match session_id r with
  | None => (r, w)
  | Some sid =>
      let db1 := Db.insert_sensor_samples_raw_batch (db w) sid (_raw_rows r) in
      let db2 := Db.insert_sensor_samples_agg_batch db1 sid (_agg_rows r) in
      (set_buffers r [] [] (_last_flush_ms r), with_db w db2)
  end.

Definition _maybe_flush (r : t) (w : World) : t * World :=
  match session_id r with
  | None => (r, w)
  | Some _ =>
      let now_ms := _now_ms w in
      let last := match _last_flush_ms r with Some l => l | None => now_ms end in
      let r1 := set_buffers r (_raw_rows r) (_agg_rows r) (Some last) in
      if (now_ms - last <? Py.int (flush_every_s (cfg r) * 1000))%Z then (r1, w)
      else
        let '(r2, w2) := flush r1 w in
        (set_buffers r2 (_raw_rows r2) (_agg_rows r2) (Some now_ms), w2)
  end.

Definition append_samples_batch (r : t) (w : World) (samples : list SampleDict)
    : Result (t * World) :=
  match samples with
  | [] => ok (r, w)
  | _ =>
      ('(sid, r1, w1) <- start_session r w ;;
       let r2 := fold_left (record_sample sid (_now_ms w1)) samples r1 in
       ok (_maybe_flush r2 w1))%result
  end.

(** The dict returned by [stop_session_and_compute_summary]. *)
Record Summary := mkSummary {
  sum_session_id : Z;
  duration_s : Q;
  thor_red_s : Q;
  lum_red_s : Q;
  alerts_count : Z;
  comp_avg : Q;
  comp_peak : Q;
  risk_index : Q;
  daily : Db.DailySummary
}.

Definition stop_session_and_compute_summary (r : t) (w : World)
    : Result (Summary * t * World) :=
  match session_id r with
  | None => raise (RuntimeError "No hay sesion activa")
  | Some sid =>
      let '(r1, w1) := flush r w in
      let db1 := Db.end_sensor_session (db w1) sid (datetime_now w1) in
      let rate := Py.max (sample_rate_hz (cfg r1)) (1 # 1000000) in
      let dur_s := Py.float (_n r1) / rate in
      let thor_s := Py.float (_thor_red r1) / rate in
      let lum_s := Py.float (_lum_red r1) / rate in
      let cavg := _comp_sum r1 / Py.max (Py.float (_n r1)) 1 in
      let cpeak := _comp_peak r1 in
      let alerts := _alerts r1 in
      let risk := PostureEngine.compute_risk_index dur_s thor_s lum_s cavg in
      let db2 := Db.upsert_session_summary db1
                   (Db.mkSessionSummary sid dur_s thor_s lum_s alerts cavg cpeak risk) in
      let '(db3, dly) :=
        Db.recompute_daily_summary db2 (user_id (cfg r1))
          (Some (Db.day_of (datetime_now w1))) (datetime_now w1) in
      ok (mkSummary sid dur_s thor_s lum_s alerts cavg cpeak risk dly,
          {| cfg := cfg r1; session_id := None;
             _engine := PostureEngine.reset (_engine r1);
             _raw_rows := []; _last_flush_ms := None;
             _n := 0; _thor_red := 0; _lum_red := 0; _alerts := 0;
             _comp_sum := 0; _comp_peak := 0;
             _last_thor_zone := None; _last_lum_zone := None;
             _agg_rows := []; _last_agg_s := None |},
          with_db w1 db3)
  end.

End SessionRecorder.

(* ===================================================================== *)
(** ** views/athlete/monitor_view.py: the recording loop *)
(* ===================================================================== *)

Module MonitorView.

(** [_risk_index_v2]; [max(0.0, min(1.0, v))] is the clamp used there. *)
Definition clamp01 (v : Q) : Q := Py.max 0 (Py.min 1 v).

Definition _risk_index_v2 (duration_s thor_red_s lum_red_s comp_avg vas : Q) : Q :=
  let dur := Py.max duration_s (1 # 1000000) in
  let tr := clamp01 (thor_red_s / dur) in
  let lr := clamp01 (lum_red_s / dur) in
  let ca := clamp01 (comp_avg / 100) in
  let vas_n := clamp01 (vas / 10) in
  let r := 100 * ((40 # 100) * tr + (40 # 100) * lr + (18 # 100) * ca + (2 # 100) * vas_n) in
  Py.max 0 (Py.min 100 r).

(** The [thr] dict of [_zone_from_angles]: any of its keys may be missing. *)
Definition ThrDict := list (string * Q).

Fixpoint dict_get (d : ThrDict) (key : string) (default : Q) : Q :=
  match d with
  | [] => default
  | (k, v) :: rest => if String.eqb k key then v else dict_get rest key default
  end.

Definition _zone_from_angles (pitch_deg roll_deg : Q) (thr : ThrDict) : string :=
  let pitch_g := dict_get thr "pitch_g" 8 in
  let pitch_y := dict_get thr "pitch_y" 15 in
  let roll_g := dict_get thr "roll_g" 7 in
  let roll_y := dict_get thr "roll_y" 12 in
  let ap := Qabs pitch_deg in
  let ar := Qabs roll_deg in
  if Py.leb ap pitch_g && Py.leb ar roll_g then "green"%string
  else if Py.leb ap pitch_y && Py.leb ar roll_y then "yellow"%string
  else "red"%string.

Definition _comp_index_simple (T_pitch T_roll L_pitch L_roll : Q) : Q :=
  let v := Qabs (T_pitch - L_pitch) * 6 + Qabs (T_roll - L_roll) * 4 in
  Py.max 0 (Py.min 100 v).

(** A row produced by [_get_samples_since_from_window]. *)
Record Row := mkRow {
  ts_ms : Z;
  T_pitch : Q; T_roll : Q; T_yaw : Q;
  L_pitch : Q; L_roll : Q; L_yaw : Q;
  thor_zone : string;
  lum_zone : string;
  comp_index : Q;
  T_imu_ts_ms : Z;
  L_imu_ts_ms : Z
}.

(** The keys of [stats["cooldown"]], one per alert kind. *)
Inductive AlertKey := thor | lum | comp.

(** [stats["cooldown"]]: the timestamp of the last firing per kind. *)
Record Cooldown := mkCooldown {
  cd_thor : Z;
  cd_lum : Z;
  cd_comp : Z
}.

Definition cd_get (c : Cooldown) (k : AlertKey) : Z :=
  match k with thor => cd_thor c | lum => cd_lum c | comp => cd_comp c end.

Definition cd_set (c : Cooldown) (k : AlertKey) (v : Z) : Cooldown :=
  match k with
  | thor => mkCooldown v (cd_lum c) (cd_comp c)
  | lum => mkCooldown (cd_thor c) v (cd_comp c)
  | comp => mkCooldown (cd_thor c) (cd_lum c) v
  end.

(** The accumulator part of the [_STATS_MAIN] entry of a session. *)
Record Stats := mkStats {
  last_ts_ms : Z;
  prev_ts_ms : option Z;
  first_ts_ms : option Z;
  thor_red_s : Q;
  lum_red_s : Q;
  comp_sum : Q;
  comp_peak : Q;
  samples : Z;
  alerts_count : Z;
  thor_red_streak_s : Q;
  lum_red_streak_s : Q;
  comp_high_streak_s : Q;
  cooldown : Cooldown;
  live_alerts : list string;
  last_thor_zone : string;
  last_lum_zone : string;
  last_comp : Q
}.

(** The entry created when recording starts. *)
Definition stats_init : Stats :=
  {| last_ts_ms := 0; prev_ts_ms := None; first_ts_ms := None;
     thor_red_s := 0; lum_red_s := 0; comp_sum := 0; comp_peak := 0;
     samples := 0; alerts_count := 0;
     thor_red_streak_s := 0; lum_red_streak_s := 0; comp_high_streak_s := 0;
     cooldown := mkCooldown 0 0 0;
     live_alerts := [];
     last_thor_zone := "green"; last_lum_zone := "green"; last_comp := 0 |}.

Definition cooldown_ms : Z := 5000.

(** [la[-5:]]. *)
Definition last5 {A} (l : list A) : list A := skipn (List.length l - 5) l.

(** The closure [push_alert(key, text)] at time [now_ms].  Besides the
    new stats it returns the alert it emitted, if any: the kind and the
    timestamp of the text appended to [live_alerts]. *)
Definition push_alert (key : AlertKey) (text : string) (now_ms : Z) (st : Stats)
    : Stats * list (AlertKey * Z) :=
  let last_fire := cd_get (cooldown st) key in
  if (now_ms - last_fire <? cooldown_ms)%Z then (st, [])
  else
    ({| last_ts_ms := last_ts_ms st; prev_ts_ms := prev_ts_ms st;
        first_ts_ms := first_ts_ms st;
        thor_red_s := thor_red_s st; lum_red_s := lum_red_s st;
        comp_sum := comp_sum st; comp_peak := comp_peak st;
        samples := samples st;
        alerts_count := (alerts_count st + 1)%Z;
        thor_red_streak_s := thor_red_streak_s st;
        lum_red_streak_s := lum_red_streak_s st;
        comp_high_streak_s := comp_high_streak_s st;
        cooldown := cd_set (cooldown st) key now_ms;
        live_alerts := last5 (live_alerts st ++ [text]);
        last_thor_zone := last_thor_zone st; last_lum_zone := last_lum_zone st;
        last_comp := last_comp st |},
     [(key, now_ms)]).

(** [dt_s]: the nominal period 0.02 s for the first sample and whenever
    the timestamp does not advance. *)
Definition dt_s_of (prev : option Z) (ts : Z) : Q :=
  match prev with
  | None => 2 # 100
  | Some p =>
      let d := Py.max 0 (Py.float (ts - p) / 1000) in
      if Py.leb d 0 then 2 # 100 else d
  end.

Definition is_red (z : string) : bool := String.eqb z "red".

(** The accumulation part of the [for r in new_rows] body: everything
    before the alerts. *)
Definition accumulate (st : Stats) (r : Row) : Stats :=
  let dt_s := dt_s_of (prev_ts_ms st) (ts_ms r) in
  let comp_i := comp_index r in
  {| last_ts_ms := last_ts_ms st;
     prev_ts_ms := Some (ts_ms r);
     first_ts_ms := first_ts_ms st;
     thor_red_s := if is_red (thor_zone r) then thor_red_s st + dt_s else thor_red_s st;
     lum_red_s := if is_red (lum_zone r) then lum_red_s st + dt_s else lum_red_s st;
     comp_sum := comp_sum st + comp_i;
     comp_peak := Py.max (comp_peak st) comp_i;
     samples := (samples st + 1)%Z;
     alerts_count := alerts_count st;
     thor_red_streak_s :=
       if is_red (thor_zone r) then thor_red_streak_s st + dt_s else 0;
     lum_red_streak_s :=
       if is_red (lum_zone r) then lum_red_streak_s st + dt_s else 0;
     comp_high_streak_s :=
       if Py.leb 60 comp_i then comp_high_streak_s st + dt_s else 0;
     cooldown := cooldown st;
     live_alerts := live_alerts st;
     last_thor_zone := thor_zone r;
     last_lum_zone := lum_zone r;
     last_comp := comp_i |}.

(** The streak that guards the call of [push_alert] for a kind, and its
    threshold in seconds. *)
Definition streak_of (st : Stats) (k : AlertKey) : Q :=
  match k with
  | thor => thor_red_streak_s st
  | lum => lum_red_streak_s st
  | comp => comp_high_streak_s st
  end.

Definition streak_threshold (k : AlertKey) : Q :=
  match k with thor => 3 | lum => 3 | comp => 2 end.

Definition alert_text (k : AlertKey) : string :=
  match k with
  | thor => "Toracica en rojo >= 3s"
  | lum => "Lumbar en rojo >= 3s"
  | comp => "Compensacion alta >= 2s"
  end.

(** [if stats[streak] >= threshold: push_alert(key, text)]. *)
Definition maybe_alert (k : AlertKey) (now_ms : Z) (st : Stats)
    : Stats * list (AlertKey * Z) :=
  if Py.leb (streak_threshold k) (streak_of st k)
  then push_alert k (alert_text k) now_ms st
  else (st, []).

(** The whole body of the [for r in new_rows] loop. *)
Definition process_row (st : Stats) (r : Row) : Stats * list (AlertKey * Z) :=
  let st0 := accumulate st r in
  let now_ms := ts_ms r in
  let '(st1, e1) := maybe_alert thor now_ms st0 in
  let '(st2, e2) := maybe_alert lum now_ms st1 in
  let '(st3, e3) := maybe_alert comp now_ms st2 in
  (st3, e1 ++ e2 ++ e3).

Fixpoint process_rows (st : Stats) (rows : list Row) : Stats * list (AlertKey * Z) :=
  match rows with
  | [] => (st, [])
  | r :: rest =>
      let '(st1, e1) := process_row st r in
      let '(st2, e2) := process_rows st1 rest in
      (st2, e1 ++ e2)
  end.

Definition set_cursor (st : Stats) (first : option Z) (last : Z) : Stats :=
  {| last_ts_ms := last; prev_ts_ms := prev_ts_ms st; first_ts_ms := first;
     thor_red_s := thor_red_s st; lum_red_s := lum_red_s st;
     comp_sum := comp_sum st; comp_peak := comp_peak st;
     samples := samples st; alerts_count := alerts_count st;
     thor_red_streak_s := thor_red_streak_s st;
     lum_red_streak_s := lum_red_streak_s st;
     comp_high_streak_s := comp_high_streak_s st;
     cooldown := cooldown st; live_alerts := live_alerts st;
     last_thor_zone := last_thor_zone st; last_lum_zone := last_lum_zone st;
     last_comp := last_comp st |}.

(** One timer tick of [update_realtime] on the rows [new_rows] that the
    window wrapper returned: the wrapper has moved [last_ts_ms] to the
    last row, the tick sets [first_ts_ms] once and runs the loop. *)
Definition tick (st : Stats) (new_rows : list Row) : Stats * list (AlertKey * Z) :=
  match new_rows with
  | [] => (st, [])
  | r0 :: _ =>
      let last := match Py.last_item new_rows with Some r => ts_ms r | None => last_ts_ms st end in
      let first := match first_ts_ms st with None => Some (ts_ms r0) | Some f => Some f end in
      process_rows (set_cursor st first last) new_rows
  end.

(** The figures of the stop handler: duration from the first and last
    host timestamps, red seconds from the accumulated [dt_s]. *)
Record StopFigures := mkStopFigures {
  stop_duration_s : Q;
  stop_thor_red_s : Q;
  stop_lum_red_s : Q;
  stop_comp_avg : Q;
  stop_comp_peak : Q;
  stop_alerts_count : Z;
  stop_risk : Q
}.

Definition stop_figures (st : Stats) : StopFigures :=
  let duration_s :=
    match first_ts_ms st with
    | Some f => if (f <=? last_ts_ms st)%Z then Py.float (last_ts_ms st - f) / 1000 else 0
    | None => 0
    end in
  let comp_avg := if (0 <? samples st)%Z then comp_sum st / Py.float (samples st) else 0 in
  {| stop_duration_s := duration_s;
     stop_thor_red_s := thor_red_s st;
     stop_lum_red_s := lum_red_s st;
     stop_comp_avg := comp_avg;
     stop_comp_peak := comp_peak st;
     stop_alerts_count := alerts_count st;
     stop_risk := _risk_index_v2 duration_s (thor_red_s st) (lum_red_s st) comp_avg 0 |}.

End MonitorView.

(* ===================================================================== *)
(** ** The specification's formulas, written from its words *)
(* ===================================================================== *)

Module Spec.

(** [clamp(x, lo, hi)] of the specification. *)
Definition clamp (x lo hi : Q) : Q := Qmax lo (Qmin hi x).

(** Section 4.6: [risk = 100 * clamp(0.45 * lum_red_fraction +
    0.35 * thor_red_fraction + 0.20 * comp_fraction, 0, 1)], each
    fraction being red-seconds / duration or comp_avg / 100, clamped. *)
Definition risk (duration_s thor_red_s lum_red_s comp_avg : Q) : Q :=
  let lum_red_fraction := clamp (lum_red_s / duration_s) 0 1 in
  let thor_red_fraction := clamp (thor_red_s / duration_s) 0 1 in
  let comp_fraction := clamp (comp_avg / 100) 0 1 in
  100 * clamp ((45 # 100) * lum_red_fraction + (35 # 100) * thor_red_fraction
               + (20 # 100) * comp_fraction) 0 1.

(** Section 4.7: count, sum, mean and max over the sessions of a day. *)
Fixpoint total (xs : list Q) : Q :=
  match xs with
  | [] => 0
  | x :: rest => x + total rest
  end.

Fixpoint total_int (xs : list Z) : Z :=
  match xs with
  | [] => 0%Z
  | x :: rest => (x + total_int rest)%Z
  end.

Definition mean (xs : list Q) : Q := total xs / inject_Z (Z.of_nat (List.length xs)).

(** [m] is the maximum of [xs]: a member that bounds every member. *)
Definition is_max (m : Q) (xs : list Q) : Prop :=
  (exists x, In x xs /\ x == m) /\ (forall x, In x xs -> x <= m).

End Spec.

(* ===================================================================== *)
(** ** Vocabulary of the properties and example scenarios *)
(* ===================================================================== *)

(** The [thr] dict that carries the four fields of a threshold set. *)
Definition thr_dict_of (th : PostureEngine.Thresholds) : MonitorView.ThrDict :=
  [("pitch_g"%string, PostureEngine.pitch_g th);
   ("pitch_y"%string, PostureEngine.pitch_y th);
   ("roll_g"%string, PostureEngine.roll_g th);
   ("roll_y"%string, PostureEngine.roll_y th)].

(** A held sample that cannot be fused at time [t]: none at all, or one
    older than [max_age] milliseconds. *)
Definition unusable {T} (max_age : Z) (t : Q) (last : option (Q * Q * T)) : Prop :=
  last = None \/
  exists ht it pl, last = Some (ht, it, pl) /\ Py.float max_age < t - ht.

(** The range of the compensation index. *)
Definition in_0_100 (x : Q) : Prop := 0 <= x <= 100.

(** The drift bound on the slope of a fit. *)
Definition slope_ok (p : ClockSync.SyncParams) : Prop :=
  (95 # 100) <= ClockSync.a p <= (105 # 100).

(** What one call of [update] does, branch by branch. *)
Definition update_outcome (s : ClockSync.LinearClockSync) (imu host : Q)
    (s' : ClockSync.LinearClockSync) (p : ClockSync.SyncParams) : Prop :=
  let pts := Py.deque_append (ClockSync.max_points s) (ClockSync._pts s) (imu, host) in
  ClockSync._pts s' = pts
  /\ ClockSync.params s' = p
  /\ ClockSync.max_points s' = ClockSync.max_points s
  /\ ClockSync._min_points s' = ClockSync._min_points s
  /\ slope_ok p
  /\ ((Py.len pts < ClockSync._min_points s)%Z ->
      ClockSync.a p = 1 /\ ClockSync.b p = host - imu)
  /\ ((ClockSync._min_points s <= Py.len pts)%Z ->
      Qabs (ClockSync.sxx pts) < (1 # 1000000000) ->
      ClockSync.a p = 1 /\ ClockSync.b p = ClockSync.y_mean pts - ClockSync.x_mean pts)
  /\ ((ClockSync._min_points s <= Py.len pts)%Z ->
      (1 # 1000000000) <= Qabs (ClockSync.sxx pts) ->
      ClockSync.a p
        = ClockSync._clamp (ClockSync.sxy pts / ClockSync.sxx pts) (95 # 100) (105 # 100)
      /\ ClockSync.b p
        = ClockSync.y_mean pts
          - (ClockSync.sxy pts / ClockSync.sxx pts) * ClockSync.x_mean pts).

(** Two sessions of user 7 on one day, ended, with risk index 40 and 80
    (and a third one still open, which the rollup leaves out). *)
Definition two_sessions_db : Db.t :=
  let t0 := 1700000000%Z in
  match Db.start_sensor_session Db.empty 7 "monitor" "desk" "gym" t0 with
  | inl _ => Db.empty
  | inr (db1, s1) =>
      match Db.start_sensor_session db1 7 "monitor" "desk" "gym" (t0 + 600)%Z with
      | inl _ => Db.empty
      | inr (db2, s2) =>
          match Db.start_sensor_session db2 7 "routine" "train" "gym" (t0 + 900)%Z with
          | inl _ => Db.empty
          | inr (db3, s3) =>
              let db4 := Db.upsert_session_summary db3
                           (Db.mkSessionSummary s1 60 6 3 2 10 30 40) in
              let db5 := Db.upsert_session_summary db4
                           (Db.mkSessionSummary s2 120 12 9 4 20 50 80) in
              let db6 := Db.upsert_session_summary db5
                           (Db.mkSessionSummary s3 30 0 0 0 5 5 99) in
              Db.end_sensor_session (Db.end_sensor_session db6 s1 (t0 + 60)%Z) s2 (t0 + 720)%Z
          end
      end
  end.

(** A monitor recording of user 7 at 50 Hz, flushed every 2 s. *)
Definition demo_cfg : SessionRecorder.RecorderConfig :=
  SessionRecorder.mkRecorderConfig 7 "monitor" "desk" "gym" 50 2.

(** An empty database and a host clock. *)
Definition demo_world : SessionRecorder.World :=
  SessionRecorder.mkWorld Db.empty 1700000000000.

(** The recorder of [demo_cfg] after [start_session]. *)
Definition demo_started : SessionRecorder.t * SessionRecorder.World :=
  match SessionRecorder.start_session (SessionRecorder.init demo_cfg) demo_world with
  | inr (_, r, w) => (r, w)
  | inl _ => (SessionRecorder.init demo_cfg, demo_world)
  end.

(** The zones that [append_samples_batch] gives a sample: those it
    carries, or those of the engine when one of thor_zone, lum_zone and
    comp_index is missing. *)
Definition zones_of (c : SessionRecorder.RecorderConfig) (s : SessionRecorder.SampleDict)
    : string * string :=
  match SessionRecorder.s_thor_zone s, SessionRecorder.s_lum_zone s,
        SessionRecorder.s_comp_index s with
  | Some tz, Some lz, Some _ => (tz, lz)
  | _, _, _ =>
      let th := PostureEngine.thresholds (SessionRecorder.mode c) in
      (PostureEngine._zone_from_abs
         (SessionRecorder.get_float (SessionRecorder.s_T_pitch s))
         (SessionRecorder.get_float (SessionRecorder.s_T_roll s)) (PostureEngine.thor th),
       PostureEngine._zone_from_abs
         (SessionRecorder.get_float (SessionRecorder.s_L_pitch s))
         (SessionRecorder.get_float (SessionRecorder.s_L_roll s)) (PostureEngine.lum th))
  end.

(** Whether the recorder counts a sample as thoracic-red, lumbar-red. *)
Definition thor_is_red (c : SessionRecorder.RecorderConfig) (s : SessionRecorder.SampleDict)
    : bool :=
  SessionRecorder.is_red (fst (zones_of c s)).

Definition lum_is_red (c : SessionRecorder.RecorderConfig) (s : SessionRecorder.SampleDict)
    : bool :=
  SessionRecorder.is_red (snd (zones_of c s)).

(** Number of samples of a list that satisfy a test, as an int. *)
Definition count {A} (f : A -> bool) (l : list A) : Z := Z.of_nat (List.length (filter f l)).

(** The configuration, the session and the counters of a recorder: what
    flushing leaves alone. *)
Definition counters (r : SessionRecorder.t) :=
  (SessionRecorder.cfg r, SessionRecorder.session_id r, SessionRecorder._n r,
   SessionRecorder._thor_red r, SessionRecorder._lum_red r, SessionRecorder._alerts r).

(** A sample that carries its own zones and compensation index. *)
Definition sample_at (ts : Z) (tz lz : string) (ci : Q) : SessionRecorder.SampleDict :=
  SessionRecorder.mkSampleDict (Some ts) (Some 0) (Some 0) (Some 0) (Some 0) (Some 0) (Some 0)
    (Some tz) (Some lz) (Some ci) None None.

(** A recording: successive calls of [append_samples_batch], each with the
    host clock at the time of the call. *)
Fixpoint append_all (r : SessionRecorder.t) (w : SessionRecorder.World)
    (calls : list (Z * list SessionRecorder.SampleDict))
    : Result (SessionRecorder.t * SessionRecorder.World) :=
  match calls with
  | [] => ok (r, w)
  | (clk, samples) :: rest =>
      ('(r1, w1) <- SessionRecorder.append_samples_batch r
                      (SessionRecorder.mkWorld (SessionRecorder.db w) clk) samples ;;
       append_all r1 w1 rest)%result
  end.

(** All the samples of a recording, in arrival order. *)
Definition all_samples (calls : list (Z * list SessionRecorder.SampleDict))
    : list SessionRecorder.SampleDict :=
  List.concat (map snd calls).

(** Three samples at 50 Hz, one of them thoracic-red. *)
Definition demo_calls : list (Z * list SessionRecorder.SampleDict) :=
  [(1700000000020%Z,
    [sample_at 1700000000020 "red" "green" 0; sample_at 1700000000040 "green" "green" 0]);
   (1700000000060%Z, [sample_at 1700000000060 "yellow" "green" 0])].

(** A row of the monitor view's window wrapper. *)
Definition row_at (ts : Z) (tz lz : string) (ci : Q) : MonitorView.Row :=
  MonitorView.mkRow ts 0 0 0 0 0 0 tz lz ci ts ts.

(** A recorder whose configured rate is below the floor of 1e-6 Hz. *)
Definition slow_cfg : SessionRecorder.RecorderConfig :=
  SessionRecorder.mkRecorderConfig 7 "monitor" "desk" "gym" (1 # 2000000) 2.

(** Replaying a list of emitted alerts on the cooldown table. *)
Definition apply_log (cd : MonitorView.Cooldown) (log : list (MonitorView.AlertKey * Z))
    : MonitorView.Cooldown :=
  fold_left (fun c e => MonitorView.cd_set c (fst e) (snd e)) log cd.

(** Every alert of the list comes at least [cooldown_ms] after the last
    firing of its kind, starting from the table [cd]. *)
Fixpoint well_spaced (cd : MonitorView.Cooldown) (log : list (MonitorView.AlertKey * Z))
    : Prop :=
  match log with
  | [] => True
  | (k, t) :: rest =>
      (MonitorView.cd_get cd k + MonitorView.cooldown_ms <= t)%Z
      /\ well_spaced (MonitorView.cd_set cd k t) rest
  end.

(** What a piece of the recording loop that emitted [log] did to the
    alert state. *)
Definition log_inv (st st' : MonitorView.Stats) (log : list (MonitorView.AlertKey * Z)) : Prop :=
  well_spaced (MonitorView.cooldown st) log
  /\ MonitorView.cooldown st' = apply_log (MonitorView.cooldown st) log
  /\ MonitorView.alerts_count st'
     = (MonitorView.alerts_count st + Z.of_nat (List.length log))%Z.

(** The condition under which the loop emits an alert of kind [k] at time
    [now]: the streak has reached the threshold and the cooldown is over. *)
Definition fires (st : MonitorView.Stats) (k : MonitorView.AlertKey) (now : Z) : Prop :=
  MonitorView.streak_threshold k <= MonitorView.streak_of st k
  /\ (MonitorView.cd_get (MonitorView.cooldown st) k + MonitorView.cooldown_ms <= now)%Z.

(** Two alerts of one kind, the second at least 5000 ms after the first. *)
Definition apart (e1 e2 : MonitorView.AlertKey * Z) : Prop :=
  fst e1 = fst e2 -> (snd e1 + 5000 <= snd e2)%Z.

(** A red thoracic stream: [n] samples 20 ms apart from time [t0]. *)
Fixpoint red_stream (t0 : Z) (n : nat) : list MonitorView.Row :=
  match n with
  | O => []
  | S m => row_at t0 "red" "green" 0 :: red_stream (t0 + 20) m
  end.

(** A thoracic zone that alternates between red and green every 20 ms. *)
Definition flicker : list SessionRecorder.SampleDict :=
  [sample_at 1700000000020 "red" "green" 0; sample_at 1700000000040 "green" "green" 0;
   sample_at 1700000000060 "red" "green" 0; sample_at 1700000000080 "green" "green" 0;
   sample_at 1700000000100 "red" "green" 0; sample_at 1700000000120 "green" "green" 0;
   sample_at 1700000000140 "red" "green" 0; sample_at 1700000000160 "green" "green" 0].

(** The same stream as rows of the monitor view. *)
Definition flicker_rows : list MonitorView.Row :=
  [row_at 1700000000020 "red" "green" 0; row_at 1700000000040 "green" "green" 0;
   row_at 1700000000060 "red" "green" 0; row_at 1700000000080 "green" "green" 0;
   row_at 1700000000100 "red" "green" 0; row_at 1700000000120 "green" "green" 0;
   row_at 1700000000140 "red" "green" 0; row_at 1700000000160 "green" "green" 0].

(* ===================================================================== *)
(** ** Further vocabulary: posture engine *)
(* ===================================================================== *)

(** Severity of a zone: green < yellow < red. *)
Definition zone_rank (z : string) : Z :=
  if String.eqb z "green" then 0%Z
  else if String.eqb z "yellow" then 1%Z
  else 2%Z.

(** A threshold set whose green bounds are positive and below the yellow
    bounds. *)
Definition thresholds_valid (th : PostureEngine.Thresholds) : Prop :=
  0 < PostureEngine.pitch_g th /\ PostureEngine.pitch_g th <= PostureEngine.pitch_y th
  /\ 0 < PostureEngine.roll_g th /\ PostureEngine.roll_g th <= PostureEngine.roll_y th.

(** The raw compensation values of a run of [annotate], oldest first. *)
Definition raw_values (e : PostureEngine.t)
    (inputs : list (Z * PostureEngine.SegmentAngles * PostureEngine.SegmentAngles)) : list Q :=
  map (fun i => PostureEngine.comp_raw e (snd (fst i)) (snd i)) inputs.

(** The last [n] elements of a list. *)
Definition last_n {A} (n : nat) (l : list A) : list A := skipn (List.length l - n) l.

(* ===================================================================== *)
(** ** Further vocabulary: clock sync and aligner *)
(* ===================================================================== *)


(** The two devices of the aligner, and a push on one of them:
    (host_ts_ms, imu_ts_ms, payload). *)
Inductive Device := dev_A | dev_B.

Definition Push (T : Type) : Type := (Device * (Q * Q * T))%type.

(** A sequence of [push_A] / [push_B] calls, oldest first. *)
Definition push_all {T} (al : ClockSync.DualStreamAligner T) (pushes : list (Push T))
    : ClockSync.DualStreamAligner T :=
  fold_left
    (fun acc p =>
       match p with
       | (dev_A, (h, i, pl)) => ClockSync.push_A acc h i pl
       | (dev_B, (h, i, pl)) => ClockSync.push_B acc h i pl
       end)
    pushes al.

Definition is_dev (d : Device) {T} (p : Push T) : bool :=
  match d, fst p with
  | dev_A, dev_A | dev_B, dev_B => true
  | _, _ => false
  end.

(** The most recent push on a device, if any. *)
Definition last_push {T} (d : Device) (pushes : list (Push T)) : option (Q * Q * T) :=
  match rev (filter (is_dev d) pushes) with
  | [] => None
  | p :: _ => Some (snd p)
  end.

(* ===================================================================== *)
(** ** db.py: reading the daily rollup *)
(* ===================================================================== *)

Module DbQueries.

(** [get_daily_summary(user_id, day)]: the first row of daily_summary with
    that key, or None; [day] defaults to today. *)
Definition get_daily_summary (db : Db.t) (uid : Z) (day : option Db.Day) (now : Db.Datetime)
    : option Db.DailySummary :=
  let d := match day with Some d => d | None => Db.day_of now end in
  find (fun r => (Db.d_user_id r =? uid)%Z && (Db.d_day r =? d)%Z) (Db.daily_summary db).

End DbQueries.

(* ===================================================================== *)
(** ** Further vocabulary: storage *)
(* ===================================================================== *)

(** The summary row stored for a session, if any. *)
Definition summary_of (db : Db.t) (sid : Z) : option Db.SessionSummary :=
  find (fun r => (Db.session_id r =? sid)%Z) (Db.session_summary db).

(** AUTOINCREMENT: every session id in the table is below the next id. *)
Definition ids_below (db : Db.t) : Prop :=
  Forall (fun s => (Db.id s < Db.next_session_id db)%Z) (Db.sensor_sessions db).

(** The payload of a day without completed sessions. *)
Definition zero_payload (uid : Z) (d : Db.Day) : Db.DailySummary :=
  Db.mkDailySummary uid d 0 0 0 0 0 0 0 0 0.


(** A whole recording with the SessionRecorder class: [start_session] on
    a new recorder, the calls of [append_samples_batch], and
    [stop_session_and_compute_summary] with the host clock at
    [clock_stop]. *)
Definition record_session (c : SessionRecorder.RecorderConfig) (w : SessionRecorder.World)
    (calls : list (Z * list SessionRecorder.SampleDict)) (clock_stop : Z)
    : Result (SessionRecorder.Summary * SessionRecorder.t * SessionRecorder.World) :=
  match SessionRecorder.start_session (SessionRecorder.init c) w with
  | inl e => raise e
  | inr (_, r1, w1) =>
      match append_all r1 w1 calls with
      | inl e => raise e
      | inr (r2, w2) =>
          SessionRecorder.stop_session_and_compute_summary r2
            (SessionRecorder.mkWorld (SessionRecorder.db w2) clock_stop)
      end
  end.

(** The raw rows already written together with those still buffered, and
    the same for the 1 Hz aggregate. *)
Definition raw_ledger (r : SessionRecorder.t) (w : SessionRecorder.World) : list Db.RawRow :=
  Db.sensor_samples_raw (SessionRecorder.db w) ++ SessionRecorder._raw_rows r.

Definition agg_ledger (r : SessionRecorder.t) (w : SessionRecorder.World) : list Db.AggRow :=
  Db.sensor_samples_agg (SessionRecorder.db w) ++ SessionRecorder._agg_rows r.

(** What a recorder and its storage hold apart from the split between
    written and buffered rows and the time of the last flush. *)
Definition logical (r : SessionRecorder.t) (w : SessionRecorder.World) :=
  (counters r, SessionRecorder._engine r,
   SessionRecorder._comp_sum r, SessionRecorder._comp_peak r,
   SessionRecorder._last_thor_zone r, SessionRecorder._last_lum_zone r,
   SessionRecorder._last_agg_s r,
   raw_ledger r w, agg_ledger r w,
   Db.next_session_id (SessionRecorder.db w), Db.sensor_sessions (SessionRecorder.db w),
   Db.session_summary (SessionRecorder.db w), Db.daily_summary (SessionRecorder.db w)).

(** The host timestamp that [append_samples_batch] stores for a sample:
    its own when positive, the clock of the call otherwise. *)
Definition ts_of (now : Z) (s : SessionRecorder.SampleDict) : Z :=
  match SessionRecorder.s_ts_ms s with
  | Some ts => if (ts <=? 0)%Z then now else ts
  | None => now
  end.

(** A raw row that stores sample [s] for session [sid]. *)
Definition row_of_sample (c : SessionRecorder.RecorderConfig) (sid : Z)
    (row : Db.RawRow) (s : SessionRecorder.SampleDict) : Prop :=
  Db.raw_session_id row = sid
  /\ (Db.raw_thor_zone row, Db.raw_lum_zone row) = zones_of c s
  /\ Db.raw_T_pitch row = SessionRecorder.get_float (SessionRecorder.s_T_pitch s)
  /\ Db.raw_T_roll row = SessionRecorder.get_float (SessionRecorder.s_T_roll s)
  /\ Db.raw_T_yaw row = SessionRecorder.get_float (SessionRecorder.s_T_yaw s)
  /\ Db.raw_L_pitch row = SessionRecorder.get_float (SessionRecorder.s_L_pitch s)
  /\ Db.raw_L_roll row = SessionRecorder.get_float (SessionRecorder.s_L_roll s)
  /\ Db.raw_L_yaw row = SessionRecorder.get_float (SessionRecorder.s_L_yaw s)
  /\ Db.raw_T_imu_ts_ms row = SessionRecorder.s_T_imu_ts_ms s
  /\ Db.raw_L_imu_ts_ms row = SessionRecorder.s_L_imu_ts_ms s
  /\ (forall ts, SessionRecorder.s_ts_ms s = Some ts -> (0 < ts)%Z -> Db.raw_ts_ms row = ts).

(** The counters of a recorder are consistent: red samples are among the
    samples, every alert is a red sample, a red sample leaves at least one
    alert, and the peak bounds every compensation index added. *)
Definition recorder_inv (r : SessionRecorder.t) : Prop :=
  (0 <= SessionRecorder._thor_red r <= SessionRecorder._n r)%Z
  /\ (0 <= SessionRecorder._lum_red r <= SessionRecorder._n r)%Z
  /\ (0 <= SessionRecorder._alerts r
      <= SessionRecorder._thor_red r + SessionRecorder._lum_red r)%Z
  /\ ((0 < SessionRecorder._thor_red r + SessionRecorder._lum_red r)%Z ->
      (0 < SessionRecorder._alerts r)%Z)
  /\ (SessionRecorder.last_not_red (SessionRecorder._last_thor_zone r) = false ->
      (0 < SessionRecorder._thor_red r)%Z)
  /\ (SessionRecorder.last_not_red (SessionRecorder._last_lum_zone r) = false ->
      (0 < SessionRecorder._lum_red r)%Z)
  /\ 0 <= SessionRecorder._comp_peak r
  /\ SessionRecorder._comp_sum r
     <= Py.float (SessionRecorder._n r) * SessionRecorder._comp_peak r.

(** Strictly increasing integers: every element is below all later ones. *)
Fixpoint increasing (l : list Z) : Prop :=
  match l with
  | [] => True
  | x :: rest => Forall (Z.lt x) rest /\ increasing rest
  end.

(** The aggregate rows [aggs] written for one session: strictly increasing
    seconds, none after the recorder's last aggregated second, and none
    only as long as no sample has come. *)
Definition agg_inv (sid : Z) (r : SessionRecorder.t) (aggs : list Db.AggRow) : Prop :=
  increasing (map Db.agg_ts_s aggs)
  /\ Forall (fun a => Db.agg_session_id a = sid) aggs
  /\ (Z.of_nat (List.length aggs) <= SessionRecorder._n r)%Z
  /\ match SessionRecorder._last_agg_s r with
     | None => aggs = [] /\ SessionRecorder._n r = 0%Z
     | Some l => Forall (fun a => (Db.agg_ts_s a <= l)%Z) aggs /\ aggs <> []
     end.

(** The settings of the engine that [SessionRecorder.__init__] builds. *)
Definition engine_of (c : SessionRecorder.RecorderConfig) (e : PostureEngine.t) : Prop :=
  PostureEngine.reset e = PostureEngine.init (SessionRecorder.sample_rate_hz c) 10 25.

(** The state of a recorder of configuration [c] during session [sid],
    after the samples [samples], on a storage that was [base] when the
    session had just been started: only the two sample tables have grown. *)
Definition session_inv (c : SessionRecorder.RecorderConfig) (sid : Z) (base : Db.t)
    (samples : list SessionRecorder.SampleDict)
    (r : SessionRecorder.t) (w : SessionRecorder.World) : Prop :=
  SessionRecorder.session_id r = Some sid
  /\ SessionRecorder.cfg r = c
  /\ SessionRecorder._n r = Z.of_nat (List.length samples)
  /\ SessionRecorder._thor_red r = count (thor_is_red c) samples
  /\ SessionRecorder._lum_red r = count (lum_is_red c) samples
  /\ recorder_inv r
  /\ engine_of c (SessionRecorder._engine r)
  /\ (exists rows, raw_ledger r w = Db.sensor_samples_raw base ++ rows
                   /\ Forall2 (row_of_sample c sid) rows samples)
  /\ (exists aggs, agg_ledger r w = Db.sensor_samples_agg base ++ aggs /\ agg_inv sid r aggs)
  /\ Db.next_session_id (SessionRecorder.db w) = Db.next_session_id base
  /\ Db.sensor_sessions (SessionRecorder.db w) = Db.sensor_sessions base
  /\ Db.session_summary (SessionRecorder.db w) = Db.session_summary base
  /\ Db.daily_summary (SessionRecorder.db w) = Db.daily_summary base.

(* ===================================================================== *)
(** ** Further vocabulary: the recording loop of the monitor view *)
(* ===================================================================== *)

(** The texts appended to [live_alerts] for a list of emitted alerts. *)
Definition texts_of (log : list (MonitorView.AlertKey * Z)) : list string :=
  map (fun e => MonitorView.alert_text (fst e)) log.

(** Successive timer ticks, each with the rows its window wrapper
    returned; the alerts of all ticks in order. *)
Fixpoint run_ticks (st : MonitorView.Stats) (batches : list (list MonitorView.Row))
    : MonitorView.Stats * list (MonitorView.AlertKey * Z) :=
  match batches with
  | [] => (st, [])
  | b :: rest =>
      let '(st1, e1) := MonitorView.tick st b in
      let '(st2, e2) := run_ticks st1 rest in
      (st2, e1 ++ e2)
  end.

(** The accumulation loop alone, without the alerts. *)
Definition accumulate_all (st : MonitorView.Stats) (rows : list MonitorView.Row)
    : MonitorView.Stats :=
  fold_left MonitorView.accumulate rows st.

(** What the loop measures: everything in the stats entry except the
    cursor, the alert count, the cooldown table and the alert texts. *)
Definition measures (st : MonitorView.Stats) :=
  (MonitorView.prev_ts_ms st,
   MonitorView.thor_red_s st, MonitorView.lum_red_s st,
   MonitorView.comp_sum st, MonitorView.comp_peak st, MonitorView.samples st,
   MonitorView.thor_red_streak_s st, MonitorView.lum_red_streak_s st,
   MonitorView.comp_high_streak_s st,
   MonitorView.last_thor_zone st, MonitorView.last_lum_zone st, MonitorView.last_comp st).





(** The timestamp of the last row, or [p] when there is none. *)
Definition last_ts_of (p : Z) (rows : list MonitorView.Row) : Z :=
  match Py.last_item rows with Some r => MonitorView.ts_ms r | None => p end.

(* ===================================================================== *)
(** ** views/athlete/monitor_view.py: helpers of the view *)
(* ===================================================================== *)

Module MonitorHelpers.

(** One turn of the [for i, on in enumerate(mask)] loop of
    [_segments_from_mask] at time [t[i]]: the segments closed so far and
    the start of the open one. *)
Definition seg_step (acc : list (Q * Q) * option Q) (x : Q * bool)
    : list (Q * Q) * option Q :=
  let '(segs, start) := acc in
  let '(ti, on) := x in
  let start1 :=
    if on then match start with None => Some ti | Some _ => start end else start in
  if negb on then
    match start1 with
    | Some s => (segs ++ [(s, ti)], None)
    | None => (segs, start1)
    end
  else (segs, start1).

Definition _segments_from_mask (t : list Q) (mask : list bool) : list (Q * Q) :=
  match t, mask with
  | [], _ => []
  | _, [] => []
  | _, _ =>
      if negb (List.length t =? List.length mask)%nat then []
      else
        let '(segs, start) := fold_left seg_step (combine t mask) ([], None) in
        match start, Py.last_item t with
        | Some s, Some e => segs ++ [(s, e)]
        | _, _ => segs
        end
  end.


(** [(x or "").strip().lower()]; [None] and the empty string are falsy. *)
Definition norm (x : option string) : string :=
  Py.lower (Py.strip (match x with Some s => s | None => EmptyString end)).

Definition _map_mode_ui_to_db (mode_ui : option string) : string :=
  if String.eqb (norm mode_ui) "office" then "desk"%string else "train"%string.

Definition _map_sport_ui_to_db (sport_ui : option string) : string :=
  let s := norm sport_ui in
  if String.eqb s "gym" || String.eqb s "crossfit" then s
  else if String.eqb s "strength" then "crossfit"%string
  else "gym"%string.

(** The [win] dict: the time axis in seconds and the three angle series,
    any of which may be shorter than the time axis. *)
Record Window := mkWindow {
  win_t : list Q;
  win_pitch : list Q;
  win_roll : list Q;
  win_yaw : list Q
}.

(** The entries of the stats dict that [_get_samples_since_from_window]
    reads and writes; a threshold dict is empty when absent. *)
Record Cursor := mkCursor {
  last_t_s : option Q;
  base_epoch_ms : option Z;
  thr_active_thor : MonitorView.ThrDict;
  thr_active_lum : MonitorView.ThrDict;
  cur_last_ts_ms : Z
}.

(** [d or default] on dicts: the empty dict is falsy. *)
Definition dict_or (d default : MonitorView.ThrDict) : MonitorView.ThrDict :=
  match d with [] => default | _ => d end.

(** The [for i in range(len(t))] search with its [else]: the first index
    whose time is after [last], or [len(t)]. *)
Fixpoint first_after (last : Q) (t : list Q) : nat :=
  match t with
  | [] => O
  | x :: rest => if Py.ltb last x then O else S (first_after last rest)
  end.

(** The row built for index [i]. *)
Definition row_of_index (win : Window) (stats : Cursor) (base_epoch : Z) (i : nat)
    : MonitorView.Row :=
  let ti := nth i (win_t win) 0 in
  let ts := (base_epoch + Py.int (ti * 1000))%Z in
  let Tp := nth i (win_pitch win) 0 in
  let Tr := nth i (win_roll win) 0 in
  let Ty := nth i (win_yaw win) 0 in
  let Lp := Tp * (85 # 100) in
  let Lr := Tr * (90 # 100) in
  let Ly := Ty * (95 # 100) in
  let thr_thor := dict_or (thr_active_thor stats)
                    (thr_dict_of (PostureEngine.thor PostureEngine.desk_thresholds)) in
  let thr_lum := dict_or (thr_active_lum stats)
                   (thr_dict_of (PostureEngine.lum PostureEngine.desk_thresholds)) in
  MonitorView.mkRow ts Tp Tr Ty Lp Lr Ly
    (MonitorView._zone_from_angles Tp Tr thr_thor)
    (MonitorView._zone_from_angles Lp Lr thr_lum)
    (MonitorView._comp_index_simple Tp Tr Lp Lr)
    ts ts.

(** [_get_samples_since_from_window(win, stats)] at host time [now_ms]:
    the new rows and the stats with its cursors moved. *)
Definition _get_samples_since_from_window (win : Window) (stats : Cursor) (now_ms : Z)
    : list MonitorView.Row * Cursor :=
  match Py.last_item (win_t win) with
  | None => ([], stats)
  | Some t_last =>
      let base_epoch :=
        match base_epoch_ms stats with
        | Some b => b
        | None => (now_ms - Py.int (t_last * 1000))%Z
        end in
      let start_i :=
        match last_t_s stats with
        | None => O
        | Some l => first_after l (win_t win)
        end in
      let rows := map (row_of_index win stats base_epoch)
                      (seq start_i (List.length (win_t win) - start_i)) in
      let last_ts :=
        match Py.last_item rows with
        | Some r => MonitorView.ts_ms r
        | None => cur_last_ts_ms stats
        end in
      (rows,
       mkCursor (Some t_last) (Some base_epoch)
         (thr_active_thor stats) (thr_active_lum stats) last_ts)
  end.

End MonitorHelpers.

(** A time axis that never goes back. *)
Fixpoint nondecreasing (l : list Q) : Prop :=
  match l with
  | [] => True
  | x :: rest => Forall (fun y => x <= y) rest /\ nondecreasing rest
  end.

Definition t_last (t : list Q) : Q :=
  match Py.last_item t with Some e => e | None => 0 end.

(** A new cursor without thresholds of its own. *)
Definition cursor_init : MonitorHelpers.Cursor :=
  MonitorHelpers.mkCursor None None [] [] 0.

(* ===================================================================== *)
(** ** db.py: daily summaries of a week *)
(* ===================================================================== *)

Module DbRange.

(** [date.weekday()] on a day counted from 1970-01-01, a Thursday:
    Monday is 0 and Sunday is 6. *)
Definition weekday (d : Db.Day) : Z := ((d + 3) mod 7)%Z.

(** [get_week_range_monday_sunday(day)] for a given day. *)
Definition get_week_range_monday_sunday (d : Db.Day) : Db.Day * Db.Day :=
  let monday := (d - weekday d)%Z in
  let sunday := (monday + 6)%Z in
  (monday, sunday).

(** A dict of the list returned by [get_daily_summaries_range]; the
    [updated_at] column, which the storage model does not keep, is left
    out. *)
Record RangeRow := mkRangeRow {
  rr_day : Db.Day;
  rr_thor_red_s : Q;
  rr_lum_red_s : Q;
  rr_comp_avg : Q;
  rr_comp_peak : Q;
  rr_alerts_count : Z;
  rr_risk_index_max : Q;
  rr_sessions_count : Z
}.

(** ORDER BY day ASC, as an insertion into an ordered list. *)
Fixpoint insert_by_day (r : Db.DailySummary) (l : list Db.DailySummary)
    : list Db.DailySummary :=
  match l with
  | [] => [r]
  | x :: rest =>
      if (Db.d_day r <? Db.d_day x)%Z then r :: x :: rest
      else x :: insert_by_day r rest
  end.

Definition order_by_day (l : list Db.DailySummary) : list Db.DailySummary :=
  fold_right insert_by_day [] l.

(** [get_daily_summaries_range(user_id, start_day, end_day)] for an int
    [user_id]. *)
Definition get_daily_summaries_range (db : Db.t) (uid : Z) (start_day end_day : Db.Day)
    : list RangeRow :=
  let rows :=
    order_by_day
      (filter (fun r => (Db.d_user_id r =? uid)%Z
                        && (start_day <=? Db.d_day r)%Z && (Db.d_day r <=? end_day)%Z)
              (Db.daily_summary db)) in
  map (fun r =>
         mkRangeRow (Db.d_day r)
           (Db.float_or_zero (Db.d_thor_red_s r)) (Db.float_or_zero (Db.d_lum_red_s r))
           (Db.float_or_zero (Db.d_comp_avg r)) (Db.float_or_zero (Db.d_comp_peak r))
           (Db.int_or_zero (Db.d_alerts_count r))
           (Db.float_or_zero (Db.risk_index_max r))
           (Db.int_or_zero (Db.sessions_count r)))
      rows.

Definition get_daily_summaries_week (db : Db.t) (uid : Z) (d : Db.Day) : list RangeRow :=
  let '(start_day, end_day) := get_week_range_monday_sunday d in
  get_daily_summaries_range db uid start_day end_day.

End DbRange.

(** Days in ascending order. *)
Fixpoint ascending (l : list Z) : Prop :=
  match l with
  | [] => True
  | x :: rest => Forall (Z.le x) rest /\ ascending rest
  end.

(* ===================================================================== *)
(** ** Comparisons, clamps and sums *)
(* ===================================================================== *)

Lemma ltb_true (x y : Q) : Py.ltb x y = true <-> x < y.
Proof.
  unfold Py.ltb. rewrite negb_true_iff.
  split; intro H.
  - apply Qnot_le_lt. intro Hle. apply Qle_bool_iff in Hle. congruence.
  - destruct (Qle_bool y x) eqn:E; [|reflexivity].
    apply Qle_bool_iff in E. exfalso. apply (Qlt_not_le _ _ H E).
Qed.

Lemma ltb_false (x y : Q) : Py.ltb x y = false <-> y <= x.
Proof.
  unfold Py.ltb. rewrite negb_false_iff. apply Qle_bool_iff.
Qed.

Lemma leb_true (x y : Q) : Py.leb x y = true <-> x <= y.
Proof. apply Qle_bool_iff. Qed.

Lemma leb_false (x y : Q) : Py.leb x y = false <-> y < x.
Proof.
  unfold Py.leb. split; intro H.
  - apply Qnot_le_lt. intro Hle. apply Qle_bool_iff in Hle. congruence.
  - destruct (Qle_bool x y) eqn:E; [|reflexivity].
    apply Qle_bool_iff in E. exfalso. apply (Qlt_not_le _ _ H E).
Qed.

(** Case analysis on a float comparison, leaving the order fact in context. *)
Ltac case_ltb x y :=
  let E := fresh "E" in
  destruct (Py.ltb x y) eqn:E;
  [apply ltb_true in E | apply ltb_false in E].

Ltac case_leb x y :=
  let E := fresh "E" in
  destruct (Py.leb x y) eqn:E;
  [apply leb_true in E | apply leb_false in E].

Lemma py_max_ge_r (x y : Q) : y <= Py.max x y.
Proof. unfold Py.max. case_ltb x y; lra. Qed.

Lemma py_max_left (x y : Q) : y <= x -> Py.max x y = x.
Proof. intro H. unfold Py.max. case_ltb x y; [lra | reflexivity]. Qed.

Lemma py_max_pos (x : Q) : 0 < Py.max x (1 # 1000000).
Proof. pose proof (py_max_ge_r x (1 # 1000000)). lra. Qed.

Lemma pe_clamp_bounds (x lo hi : Q) :
  lo <= hi -> lo <= PostureEngine._clamp x lo hi <= hi.
Proof.
  intro H. unfold PostureEngine._clamp.
  case_ltb x lo; [lra|]. case_ltb hi x; lra.
Qed.

Lemma pe_clamp_spec (x lo hi : Q) :
  lo <= hi -> PostureEngine._clamp x lo hi == Spec.clamp x lo hi.
Proof.
  intro H. unfold PostureEngine._clamp, Spec.clamp.
  case_ltb x lo.
  - rewrite Q.max_l; [reflexivity|].
    apply Qle_trans with x; [apply Q.le_min_r | lra].
  - case_ltb hi x.
    + rewrite Q.min_l by lra. rewrite Q.max_r by lra. reflexivity.
    + rewrite Q.min_r by lra. rewrite Q.max_r by lra. reflexivity.
Qed.

Lemma fold_left_Qplus_acc (xs : list Q) (acc : Q) :
  fold_left Qplus xs acc == acc + fold_left Qplus xs 0.
Proof.
  revert acc. induction xs as [|x xs IH]; intro acc; simpl.
  - lra.
  - rewrite (IH (acc + x)), (IH (0 + x)). lra.
Qed.

Lemma py_sum_cons (x : Q) (xs : list Q) : Py.sum (x :: xs) == x + Py.sum xs.
Proof.
  unfold Py.sum. simpl. rewrite fold_left_Qplus_acc. lra.
Qed.

Lemma py_sum_total (xs : list Q) : Py.sum xs == Spec.total xs.
Proof.
  induction xs as [|x xs IH].
  - reflexivity.
  - rewrite py_sum_cons, IH. reflexivity.
Qed.

Lemma total_bounds (xs : list Q) (lo hi : Q) :
  Forall (fun x => lo <= x <= hi) xs ->
  lo * inject_Z (Z.of_nat (List.length xs)) <= Spec.total xs
  <= hi * inject_Z (Z.of_nat (List.length xs)).
Proof.
  induction 1 as [|x xs Hx _ IH].
  - cbn [Spec.total List.length Z.of_nat]. change (inject_Z 0) with 0. lra.
  - cbn [Spec.total List.length]. rewrite Nat2Z.inj_succ. unfold Z.succ.
    rewrite inject_Z_plus. change (inject_Z 1) with 1.
    rewrite !Qmult_plus_distr_r, !Qmult_1_r.
    set (n := inject_Z (Z.of_nat (List.length xs))) in *.
    set (a := lo * n) in *. set (c := hi * n) in *. lra.
Qed.

Lemma spec_clamp_id (x lo hi : Q) : lo <= x <= hi -> Spec.clamp x lo hi == x.
Proof.
  intros [H1 H2]. unfold Spec.clamp.
  rewrite Q.min_r by assumption. rewrite Q.max_r by assumption. reflexivity.
Qed.

Lemma pe_clamp_id (x lo hi : Q) : lo <= x <= hi -> PostureEngine._clamp x lo hi = x.
Proof.
  intros [H1 H2]. unfold PostureEngine._clamp.
  case_ltb x lo; [lra|]. case_ltb hi x; [lra|reflexivity].
Qed.

(** The mode is stripped and lower-cased before the table lookup, and an
    unknown mode falls back to the desk table. *)
Example thresholds_mode_lookup :
  Py.strip "  monitor " = "monitor"%string
  /\ PostureEngine.thresholds " TRAIN " = PostureEngine.train_thresholds
  /\ PostureEngine.thresholds "" = PostureEngine.desk_thresholds
  /\ PostureEngine.thresholds "gym" = PostureEngine.desk_thresholds.
Proof. repeat split; reflexivity. Qed.

(** [int] truncates toward zero and [round] rounds halves to even. *)
Example int_and_round :
  Py.int (-3 # 2) = (-1)%Z /\ Py.int (7 # 2) = 3%Z
  /\ Py.round (5 # 2) = 2%Z /\ Py.round (7 # 2) = 4%Z /\ Py.round (-1 # 2) = 0%Z
  /\ PostureEngine.comp_maxlen PostureEngine.default = 500%nat.
Proof. repeat split; reflexivity. Qed.

(* ===================================================================== *)
(** ** Risk index (posture_engine.compute_risk_index) *)
(* ===================================================================== *)

(** The code's formula with the duration it divides by made explicit. *)
Lemma compute_risk_index_spec_at (d t l c : Q) :
  PostureEngine.compute_risk_index d t l c
  == Spec.risk (Py.max d (1 # 1000000)) t l c.
Proof.
  unfold PostureEngine.compute_risk_index, Spec.risk.
  set (dur := Py.max d (1 # 1000000)).
  pose proof (pe_clamp_bounds (t / dur) 0 1 ltac:(lra)) as Ht.
  pose proof (pe_clamp_bounds (l / dur) 0 1 ltac:(lra)) as Hl.
  pose proof (pe_clamp_bounds (c / 100) 0 1 ltac:(lra)) as Hc.
  pose proof (pe_clamp_spec (t / dur) 0 1 ltac:(lra)) as Et.
  pose proof (pe_clamp_spec (l / dur) 0 1 ltac:(lra)) as El.
  pose proof (pe_clamp_spec (c / 100) 0 1 ltac:(lra)) as Ec.
  set (tp := PostureEngine._clamp (t / dur) 0 1) in *.
  set (lp := PostureEngine._clamp (l / dur) 0 1) in *.
  set (cp := PostureEngine._clamp (c / 100) 0 1) in *.
  rewrite spec_clamp_id by (rewrite <- Et, <- El, <- Ec; lra).
  rewrite <- Et, <- El, <- Ec.
  rewrite pe_clamp_id by lra. reflexivity.
Qed.

Lemma compute_risk_index_range (d t l c : Q) :
  0 <= PostureEngine.compute_risk_index d t l c <= 100.
Proof.
  unfold PostureEngine.compute_risk_index. apply pe_clamp_bounds. lra.
Qed.

(** The monitor view's variant of the risk index and its simple
    compensation index stay in [0,100] as well. *)
Lemma clamp_max_min_range (lo hi v : Q) :
  lo <= hi -> lo <= Py.max lo (Py.min hi v) <= hi.
Proof.
  intro H. unfold Py.max, Py.min.
  case_ltb v hi; case_ltb lo v; try case_ltb lo hi; lra.
Qed.


Lemma comp_index_simple_range (tp tr lp lr : Q) :
  0 <= MonitorView._comp_index_simple tp tr lp lr <= 100.
Proof. unfold MonitorView._comp_index_simple. apply clamp_max_min_range. lra. Qed.

(** C1, as amended: for every duration_s, thor_red_s, lum_red_s and
    comp_avg, [compute_risk_index] returns 100 times the clamp to [0,1] of
    0.45*lum_red_fraction + 0.35*thor_red_fraction + 0.20*comp_fraction,
    where the two red fractions are red-seconds divided by
    max(duration_s, 1e-6) and comp_fraction is comp_avg/100, each clamped
    to [0,1]; the result always lies in [0,100]; and the division is by
    duration_s itself whenever duration_s >= 1e-6. *)
Theorem C1_compute_risk_index_formula (duration_s thor_red_s lum_red_s comp_avg : Q) :
  PostureEngine.compute_risk_index duration_s thor_red_s lum_red_s comp_avg
    == Spec.risk (Py.max duration_s (1 # 1000000)) thor_red_s lum_red_s comp_avg
  /\ 0 <= PostureEngine.compute_risk_index duration_s thor_red_s lum_red_s comp_avg <= 100
  /\ ((1 # 1000000) <= duration_s ->
      PostureEngine.compute_risk_index duration_s thor_red_s lum_red_s comp_avg
        == Spec.risk duration_s thor_red_s lum_red_s comp_avg).
Proof.
  split; [apply compute_risk_index_spec_at|].
  split; [apply compute_risk_index_range|].
  intro H. rewrite compute_risk_index_spec_at.
  rewrite (py_max_left duration_s (1 # 1000000) H). reflexivity.
Qed.

(** A session of 10 s with 10 s of thoracic red and nothing else scores 35. *)
Lemma C1_compute_risk_index_formula_witness :
  (1 # 1000000) <= 10 /\
  PostureEngine.compute_risk_index 10 10 0 0 == Spec.risk 10 10 0 0.
Proof.
  split.
  - unfold Qle; simpl; lia.
  - apply (C1_compute_risk_index_formula 10 10 0 0). unfold Qle; simpl; lia.
Defined.

Example compute_risk_index_end_to_end :
  PostureEngine.compute_risk_index 10 10 0 0 == 35.
Proof. reflexivity. Qed.

(** C1 as stated fails below the floor on the duration: with
    duration_s = lum_red_s = 0.0000005 the lumbar fraction of the claim is
    1 (risk 45) while the code divides by 0.000001 (fraction 1/2, risk 22.5). *)
Lemma C1_counterexample :
  PostureEngine.compute_risk_index (1 # 2000000) 0 (1 # 2000000) 0 == 45 # 2
  /\ Spec.risk (1 # 2000000) 0 (1 # 2000000) 0 == 45
  /\ ~ (PostureEngine.compute_risk_index (1 # 2000000) 0 (1 # 2000000) 0
        == Spec.risk (1 # 2000000) 0 (1 # 2000000) 0).
Proof.
  split; [reflexivity|]. split; [reflexivity|].
  intro H. vm_compute in H. discriminate H.
Qed.

(* ===================================================================== *)
(** ** Posture classifier (_zone_from_abs, _zone_from_angles) *)
(* ===================================================================== *)

Lemma zone_from_angles_eq (pitch roll : Q) (th : PostureEngine.Thresholds) :
  MonitorView._zone_from_angles pitch roll (thr_dict_of th)
  = PostureEngine._zone_from_abs pitch roll th.
Proof. reflexivity. Qed.

(** C5: for every pitch and roll and every threshold set with
    pitch_g <= pitch_y and roll_g <= roll_y, the classifier returns green
    if abs(pitch) <= pitch_g and abs(roll) <= roll_g, otherwise yellow if
    abs(pitch) <= pitch_y and abs(roll) <= roll_y, otherwise red (so red
    exactly when the yellow bounds fail); classify(0, 0) is green whenever
    the green bounds are non-negative; the monitor view's classifier
    agrees on the same four thresholds. *)
Theorem C5_zone_classification (pitch roll : Q) (th : PostureEngine.Thresholds) :
  PostureEngine.pitch_g th <= PostureEngine.pitch_y th ->
  PostureEngine.roll_g th <= PostureEngine.roll_y th ->
  let in_green :=
    Qabs pitch <= PostureEngine.pitch_g th /\ Qabs roll <= PostureEngine.roll_g th in
  let in_yellow :=
    Qabs pitch <= PostureEngine.pitch_y th /\ Qabs roll <= PostureEngine.roll_y th in
  let zone := PostureEngine._zone_from_abs pitch roll th in
  (in_green -> zone = "green"%string)
  /\ (~ in_green -> in_yellow -> zone = "yellow"%string)
  /\ (~ in_green -> ~ in_yellow -> zone = "red"%string)
  /\ (zone = "red"%string <-> ~ in_yellow)
  /\ (0 <= PostureEngine.pitch_g th -> 0 <= PostureEngine.roll_g th ->
      PostureEngine._zone_from_abs 0 0 th = "green"%string)
  /\ MonitorView._zone_from_angles pitch roll (thr_dict_of th) = zone.
Proof.
  intros Hp Hr in_green in_yellow zone.
  subst in_green in_yellow zone. unfold PostureEngine._zone_from_abs.
  change (Qabs 0) with 0.
  repeat split.
  - intros [H1 H2].
    apply leb_true in H1. apply leb_true in H2. rewrite H1, H2. reflexivity.
  - intros Hng [H1 H2].
    case_leb (Qabs pitch) (PostureEngine.pitch_g th);
      case_leb (Qabs roll) (PostureEngine.roll_g th); cbn [andb];
      try (exfalso; apply Hng; split; assumption);
      apply leb_true in H1; apply leb_true in H2; rewrite H1, H2; reflexivity.
  - intros Hng Hny.
    case_leb (Qabs pitch) (PostureEngine.pitch_g th);
      case_leb (Qabs roll) (PostureEngine.roll_g th); cbn [andb];
      try (exfalso; apply Hng; split; assumption);
      case_leb (Qabs pitch) (PostureEngine.pitch_y th);
      case_leb (Qabs roll) (PostureEngine.roll_y th); cbn [andb];
      try reflexivity; exfalso; apply Hny; split; assumption.
  - case_leb (Qabs pitch) (PostureEngine.pitch_g th);
      case_leb (Qabs roll) (PostureEngine.roll_g th); cbn [andb];
      try discriminate;
      case_leb (Qabs pitch) (PostureEngine.pitch_y th);
      case_leb (Qabs roll) (PostureEngine.roll_y th); cbn [andb];
      try discriminate; intros _ [H1 H2]; lra.
  - intros Hny.
    case_leb (Qabs pitch) (PostureEngine.pitch_g th);
      case_leb (Qabs roll) (PostureEngine.roll_g th); cbn [andb];
      try (exfalso; apply Hny; split; lra);
      case_leb (Qabs pitch) (PostureEngine.pitch_y th);
      case_leb (Qabs roll) (PostureEngine.roll_y th); cbn [andb];
      try reflexivity; exfalso; apply Hny; split; assumption.
  - intros H1 H2.
    apply leb_true in H1. apply leb_true in H2. rewrite H1, H2. reflexivity.
Qed.

(** The desk thresholds of the thoracic segment at pitch 9, roll 0: yellow. *)
Lemma C5_zone_classification_witness :
  PostureEngine._zone_from_abs 9 0 (PostureEngine.thor PostureEngine.desk_thresholds)
  = "yellow"%string.
Proof.
  assert (Hp : 8 <= 15) by (unfold Qle; simpl; lia).
  assert (Hr : 7 <= 12) by (unfold Qle; simpl; lia).
  destruct (C5_zone_classification 9 0
              (PostureEngine.thor PostureEngine.desk_thresholds) Hp Hr)
    as (_ & Hyellow & _).
  apply Hyellow.
  - intros [H _]. unfold Qle in H; simpl in H; lia.
  - split; unfold Qle; simpl; lia.
Defined.

(* ===================================================================== *)
(** ** Dual-stream aligner (DualStreamAligner.fused_at) *)
(* ===================================================================== *)

Lemma pick_none_iff {T} (max_age : Z) (t : Q) (last : option (Q * Q * T)) :
  ClockSync._pick max_age t last = None <-> unusable max_age t last.
Proof.
  unfold ClockSync._pick, unusable.
  destruct last as [[[ht it] pl]|].
  - case_ltb (Py.float max_age) (t - ht); split.
    + intros _. right. exists ht, it, pl. split; [reflexivity | assumption].
    + reflexivity.
    + discriminate.
    + intros [H | (ht' & it' & pl' & H & Hlt)]; [discriminate|].
      injection H as <- <- <-. lra.
  - split; [intros _; left; reflexivity | reflexivity].
Qed.

Lemma pick_fresh {T} (max_age : Z) (t ht it : Q) (pl : T) :
  t - ht <= Py.float max_age ->
  ClockSync._pick max_age t (Some (ht, it, pl)) = Some (pl, it).
Proof.
  intro H. unfold ClockSync._pick.
  case_ltb (Py.float max_age) (t - ht); [lra | reflexivity].
Qed.

(** [int] leaves a whole number of milliseconds as it is. *)
Lemma int_of_whole (z : Z) : Py.int (Py.float z) = z.
Proof. unfold Py.int, Py.float. cbn [inject_Z Qnum Qden]. apply Z.quot_1_r. Qed.

(** C4: for every state of the aligner and every query time t,
    [fused_at] returns None if and only if some device's last sample is
    missing or has t - stored_host_ts > max_age_ms; otherwise it returns
    both stored payloads with both device timestamps (passed through
    [int], which leaves whole milliseconds unchanged), however far apart
    the two pushes were, as long as each is within the age bound. *)
Theorem C4_fused_at_none_iff {T : Type} (al : ClockSync.DualStreamAligner T) (t : Q) :
  (ClockSync.fused_at al t = None <->
     unusable (ClockSync.max_age_ms al) t (ClockSync._last_A al) \/
     unusable (ClockSync.max_age_ms al) t (ClockSync._last_B al))
  /\ (forall hA iA pA hB iB pB,
        t - hA <= Py.float (ClockSync.max_age_ms al) ->
        t - hB <= Py.float (ClockSync.max_age_ms al) ->
        (ClockSync._last_A al = Some (hA, iA, pA) ->
         ClockSync._last_B al = Some (hB, iB, pB) ->
         ClockSync.fused_at al t = Some (pA, pB, Py.int iA, Py.int iB))
        /\ ClockSync.fused_at
             (ClockSync.push_B (ClockSync.push_A al hA iA pA) hB iB pB) t
           = Some (pA, pB, Py.int iA, Py.int iB)
        /\ ClockSync.fused_at
             (ClockSync.push_A (ClockSync.push_B al hB iB pB) hA iA pA) t
           = Some (pA, pB, Py.int iA, Py.int iB))
  /\ (forall hA zA pA hB zB pB,
        t - hA <= Py.float (ClockSync.max_age_ms al) ->
        t - hB <= Py.float (ClockSync.max_age_ms al) ->
        ClockSync.fused_at
          (ClockSync.push_B (ClockSync.push_A al hA (Py.float zA) pA) hB (Py.float zB) pB) t
        = Some (pA, pB, zA, zB)).
Proof.
  split.
  - unfold ClockSync.fused_at.
    rewrite <- !pick_none_iff.
    destruct (ClockSync._pick (ClockSync.max_age_ms al) t (ClockSync._last_A al)) as [pa|];
      destruct (ClockSync._pick (ClockSync.max_age_ms al) t (ClockSync._last_B al)) as [pb|];
      split; intro H; try reflexivity; try discriminate; auto.
    destruct H; discriminate.
  - split.
    + intros hA iA pA hB iB pB HA HB.
      unfold ClockSync.fused_at, ClockSync.push_A, ClockSync.push_B.
      cbn [ClockSync._last_A ClockSync._last_B ClockSync.max_age_ms].
      repeat split.
      * intros -> ->. rewrite !pick_fresh by assumption. reflexivity.
      * rewrite !pick_fresh by assumption. reflexivity.
      * rewrite !pick_fresh by assumption. reflexivity.
    + intros hA zA pA hB zB pB HA HB.
      unfold ClockSync.fused_at, ClockSync.push_A, ClockSync.push_B.
      cbn [ClockSync._last_A ClockSync._last_B ClockSync.max_age_ms].
      rewrite !pick_fresh by assumption. cbn [fst snd].
      rewrite !int_of_whole. reflexivity.
Qed.

(** A pushed at host time 1000 and B at 1200 are both fused at 1250 with
    the default age bound of 250 ms. *)
Lemma C4_fused_at_none_iff_witness :
  ClockSync.fused_at
    (ClockSync.push_B (ClockSync.push_A (ClockSync.aligner_init 250) 1000 (9007 # 10) "a"%string)
                      1200 (11003 # 10) "b"%string)
    1250
  = Some ("a"%string, "b"%string, 900%Z, 1100%Z).
Proof.
  apply (proj1 (proj2 (C4_fused_at_none_iff (ClockSync.aligner_init 250) 1250))
               1000 (9007 # 10) "a"%string 1200 (11003 # 10) "b"%string).
  - unfold Qle; simpl; lia.
  - unfold Qle; simpl; lia.
Defined.

(* ===================================================================== *)
(** ** Compensation estimator (PostureEngine.annotate) *)
(* ===================================================================== *)

Lemma Forall_skipn {A} (P : A -> Prop) (k : nat) (l : list A) :
  Forall P l -> Forall P (skipn k l).
Proof.
  intro H. rewrite <- (firstn_skipn k l) in H.
  apply Forall_app in H. apply H.
Qed.

Lemma deque_append_Forall {A} (P : A -> Prop) (m : nat) (d : list A) (x : A) :
  Forall P d -> P x -> Forall P (Py.deque_append m d x).
Proof.
  intros Hd Hx. unfold Py.deque_append. apply Forall_skipn.
  apply Forall_app. split; [assumption | constructor; [assumption | constructor]].
Qed.

Lemma deque_append_last {A} (m : nat) (d : list A) (x : A) :
  (1 <= m)%nat -> Py.last_item (Py.deque_append m d x) = Some x.
Proof.
  intro Hm. unfold Py.deque_append, Py.last_item.
  rewrite length_app. cbn [List.length].
  rewrite skipn_app.
  replace (List.length d + 1 - m - List.length d)%nat with 0%nat by lia.
  cbn [skipn]. rewrite rev_app_distr. reflexivity.
Qed.

Lemma comp_raw_range (e : PostureEngine.t) (ta la : PostureEngine.SegmentAngles) :
  in_0_100 (PostureEngine.comp_raw e ta la).
Proof. unfold in_0_100, PostureEngine.comp_raw. apply pe_clamp_bounds. lra. Qed.

Lemma comp_raw_equal_pitch (e : PostureEngine.t) (ta la : PostureEngine.SegmentAngles) :
  PostureEngine.pitch la == PostureEngine.pitch ta ->
  PostureEngine.comp_raw e ta la == 0.
Proof.
  intro H. unfold PostureEngine.comp_raw.
  assert (Hd : PostureEngine.pitch la - PostureEngine.pitch ta == 0) by lra.
  assert (Hz : Qabs (PostureEngine.pitch la - PostureEngine.pitch ta)
               / Py.max (PostureEngine.comp_scale_deg e) (1 # 1000000) * 100 == 0).
  { rewrite Hd. reflexivity. }
  rewrite pe_clamp_id; [exact Hz | lra].
Qed.

(** The mean that [annotate] returns stays within the bounds of the window. *)
Lemma window_mean_range (buf : list Q) :
  Forall in_0_100 buf ->
  in_0_100 (Py.sum buf / Py.float (Z.max (Py.len buf) 1)).
Proof.
  intro H. unfold in_0_100.
  pose proof (total_bounds buf 0 100 H) as [Hlo Hhi].
  rewrite py_sum_total. unfold Py.len, Py.float.
  destruct buf as [|x buf].
  - cbn. unfold Qdiv, Qle; simpl; lia.
  - set (n := List.length (x :: buf)) in *.
    assert (Hn : (1 <= Z.of_nat n)%Z) by (subst n; cbn [List.length]; lia).
    rewrite Z.max_l by lia.
    assert (Hpos : 0 < inject_Z (Z.of_nat n)).
    { change 0 with (inject_Z 0). rewrite <- Zlt_Qlt. lia. }
    split.
    + apply Qle_shift_div_l; [assumption|]. lra.
    + apply Qle_shift_div_r; [assumption|]. lra.
Qed.

Lemma annotate_keeps_range (e : PostureEngine.t) (ts : Z)
    (ta la : PostureEngine.SegmentAngles) (mode : string) :
  Forall in_0_100 (PostureEngine._comp_buf e) ->
  Forall in_0_100 (PostureEngine._comp_buf (fst (PostureEngine.annotate e ts ta la mode)))
  /\ in_0_100 (PostureEngine.comp_index (snd (PostureEngine.annotate e ts ta la mode))).
Proof.
  intro H. unfold PostureEngine.annotate. cbn [fst snd PostureEngine._comp_buf
    PostureEngine.comp_index].
  assert (Hb : Forall in_0_100
            (Py.deque_append (PostureEngine.comp_maxlen e) (PostureEngine._comp_buf e)
               (PostureEngine.comp_raw e ta la))).
  { apply deque_append_Forall; [assumption | apply comp_raw_range]. }
  split; [assumption | apply window_mean_range; assumption].
Qed.

Lemma annotate_all_range (inputs : list (Z * PostureEngine.SegmentAngles * PostureEngine.SegmentAngles))
    (e : PostureEngine.t) (mode : string) :
  Forall in_0_100 (PostureEngine._comp_buf e) ->
  Forall (fun s => in_0_100 (PostureEngine.comp_index s))
         (snd (PostureEngine.annotate_all e mode inputs)).
Proof.
  revert e. induction inputs as [|[[ts ta] la] rest IH]; intros e He.
  - constructor.
  - cbn [PostureEngine.annotate_all].
    destruct (annotate_keeps_range e ts ta la mode He) as [Hbuf Hci].
    destruct (PostureEngine.annotate e ts ta la mode) as [e1 s] eqn:E1.
    cbn [fst snd] in Hbuf, Hci.
    specialize (IH e1 Hbuf).
    destruct (PostureEngine.annotate_all e1 mode rest) as [e2 ss].
    cbn [snd] in *. constructor; assumption.
Qed.

Lemma init_maxlen_pos (rate window scale : Q) :
  (1 <= PostureEngine.comp_maxlen (PostureEngine.init rate window scale))%nat.
Proof. cbn [PostureEngine.init PostureEngine.comp_maxlen]. lia. Qed.

Lemma annotate_all_maxlen (inputs : list (Z * PostureEngine.SegmentAngles * PostureEngine.SegmentAngles))
    (e : PostureEngine.t) (mode : string) :
  PostureEngine.comp_maxlen (fst (PostureEngine.annotate_all e mode inputs))
  = PostureEngine.comp_maxlen e.
Proof.
  revert e. induction inputs as [|[[ts ta] la] rest IH]; intro e.
  - reflexivity.
  - cbn [PostureEngine.annotate_all].
    destruct (PostureEngine.annotate e ts ta la mode) as [e1 s] eqn:E1.
    specialize (IH e1).
    destruct (PostureEngine.annotate_all e1 mode rest) as [e2 ss].
    cbn [fst] in *. rewrite IH.
    unfold PostureEngine.annotate in E1. injection E1 as <- _. reflexivity.
Qed.

(** C9: for every sequence of angle pairs fed to the estimator of a newly
    built (or reset) engine, every returned comp_index lies in [0,100];
    and at any later point an update whose lumbar pitch equals the
    thoracic pitch appends a raw value equal to 0 to the rolling window. *)
Theorem C9_comp_index_range (rate window scale : Q) (mode : string)
    (inputs : list (Z * PostureEngine.SegmentAngles * PostureEngine.SegmentAngles)) :
  let e0 := PostureEngine.init rate window scale in
  Forall (fun s => 0 <= PostureEngine.comp_index s <= 100)
         (snd (PostureEngine.annotate_all e0 mode inputs))
  /\ Forall (fun s => 0 <= PostureEngine.comp_index s <= 100)
         (snd (PostureEngine.annotate_all (PostureEngine.reset e0) mode inputs))
  /\ (forall ts ta la,
        PostureEngine.pitch la == PostureEngine.pitch ta ->
        let e := fst (PostureEngine.annotate_all e0 mode inputs) in
        PostureEngine.comp_raw e ta la == 0
        /\ exists v,
             Py.last_item
               (PostureEngine._comp_buf (fst (PostureEngine.annotate e ts ta la mode)))
             = Some v /\ v == 0).
Proof.
  intro e0. split; [|split].
  - apply (annotate_all_range inputs e0 mode). constructor.
  - apply (annotate_all_range inputs (PostureEngine.reset e0) mode). constructor.
  - intros ts ta la Hp e.
    split; [apply comp_raw_equal_pitch; assumption|].
    exists (PostureEngine.comp_raw e ta la).
    split; [|apply comp_raw_equal_pitch; assumption].
    unfold PostureEngine.annotate. cbn [fst PostureEngine._comp_buf].
    apply deque_append_last.
    subst e. rewrite annotate_all_maxlen. apply init_maxlen_pos.
Qed.

(** Two equal pitches after one unequal pair, on the default engine. *)
Lemma C9_comp_index_range_witness :
  exists v,
    Py.last_item
      (PostureEngine._comp_buf
         (fst (PostureEngine.annotate
                 (fst (PostureEngine.annotate_all PostureEngine.default "desk"
                         [(1000%Z, PostureEngine.mkSegmentAngles 5 0 0,
                                   PostureEngine.mkSegmentAngles 30 0 0)]))
                 1020 (PostureEngine.mkSegmentAngles 7 1 0)
                 (PostureEngine.mkSegmentAngles 7 2 0) "desk")))
    = Some v /\ v == 0.
Proof.
  apply (proj2 (proj2 (C9_comp_index_range 50 10 25 "desk"
           [(1000%Z, PostureEngine.mkSegmentAngles 5 0 0,
                     PostureEngine.mkSegmentAngles 30 0 0)]))
         1020%Z (PostureEngine.mkSegmentAngles 7 1 0)
         (PostureEngine.mkSegmentAngles 7 2 0)).
  reflexivity.
Defined.

Example comp_index_run :
  Forall2 Qeq
    (map PostureEngine.comp_index
       (snd (PostureEngine.annotate_all PostureEngine.default "desk"
               [(1000%Z, PostureEngine.mkSegmentAngles 5 0 0, PostureEngine.mkSegmentAngles 30 0 0);
                (1020%Z, PostureEngine.mkSegmentAngles 7 1 0, PostureEngine.mkSegmentAngles 7 2 0)])))
    [100; 50].
Proof. repeat (constructor; [reflexivity|]). constructor. Qed.

(* ===================================================================== *)
(** ** Clock-sync estimator (LinearClockSync.update) *)
(* ===================================================================== *)

Lemma cs_clamp_bounds (x lo hi : Q) :
  lo <= hi -> lo <= ClockSync._clamp x lo hi <= hi.
Proof.
  intro H. unfold ClockSync._clamp.
  case_ltb x lo; [lra|]. case_ltb hi x; lra.
Qed.

Lemma slope_ok_one (i : Q) : slope_ok (ClockSync.mkSyncParams 1 i).
Proof. unfold slope_ok; cbn. split; unfold Qle; simpl; lia. Qed.

Lemma last_item_some_len {A} (l : list A) (x : A) :
  Py.last_item l = Some x -> (Py.len l =? 0)%Z = false.
Proof.
  unfold Py.last_item, Py.len. intro H. apply Z.eqb_neq.
  destruct l as [|y l]; [discriminate H | cbn [List.length]; lia].
Qed.

Lemma update_ok (s : ClockSync.LinearClockSync) (imu host : Q) :
  (1 <= ClockSync.max_points s)%nat ->
  exists s' p,
    ClockSync.update s imu host = ok (s', p) /\ update_outcome s imu host s' p.
Proof.
  intro Hm. unfold ClockSync.update, update_outcome.
  set (pts := Py.deque_append (ClockSync.max_points s) (ClockSync._pts s) (imu, host)).
  pose proof (deque_append_last (ClockSync.max_points s) (ClockSync._pts s) (imu, host) Hm)
    as Hlast.
  fold pts in Hlast. rewrite Hlast.
  rewrite (last_item_some_len pts _ Hlast).
  destruct (Py.len pts <? ClockSync._min_points s)%Z eqn:Ewarm.
  - apply Z.ltb_lt in Ewarm.
    eexists _, _. split; [reflexivity|].
    cbn [ClockSync.with_fit ClockSync._pts ClockSync.params ClockSync.max_points
         ClockSync._min_points ClockSync.a ClockSync.b].
    repeat split; try apply slope_ok_one; intros; lia.
  - apply Z.ltb_ge in Ewarm.
    unfold ClockSync.degenerate.
    case_ltb (Qabs (ClockSync.sxx pts)) (1 # 1000000000).
    + eexists _, _. split; [reflexivity|].
      cbn [ClockSync.with_fit ClockSync._pts ClockSync.params ClockSync.max_points
           ClockSync._min_points ClockSync.a ClockSync.b].
      repeat split; try apply slope_ok_one; intros; try lia; lra.
    + eexists _, _. split; [reflexivity|].
      cbn [ClockSync.with_fit ClockSync._pts ClockSync.params ClockSync.max_points
           ClockSync._min_points ClockSync.a ClockSync.b].
      repeat split; try (apply cs_clamp_bounds; unfold Qle; simpl; lia);
        intros; try lia; lra.
Qed.

Lemma update_all_ok (pairs : list (Q * Q)) (s : ClockSync.LinearClockSync) :
  (1 <= ClockSync.max_points s)%nat ->
  slope_ok (ClockSync.params s) ->
  exists s' ps,
    ClockSync.update_all s pairs = ok (s', ps)
    /\ List.length ps = List.length pairs
    /\ Forall slope_ok ps
    /\ ClockSync.max_points s' = ClockSync.max_points s
    /\ ClockSync._min_points s' = ClockSync._min_points s
    /\ slope_ok (ClockSync.params s').
Proof.
  revert s. induction pairs as [|[i h] rest IH]; intros s Hm Hs.
  - exists s, []. cbn. repeat split; try apply Hs. constructor.
  - destruct (update_ok s i h Hm) as (s1 & p & Hu & Ho).
    destruct Ho as (_ & Hp & Hmax & Hmin & Hslope & _).
    destruct (IH s1 ltac:(lia) ltac:(rewrite Hp; exact Hslope))
      as (s2 & ps & Hall & Hlen & Hf & Hmax2 & Hmin2 & Hlast).
    exists s2, (p :: ps).
    cbn [ClockSync.update_all]. rewrite Hu. cbn [bind ok].
    rewrite Hall. cbn [bind ok].
    repeat split; try apply Hlast.
    + cbn [List.length]. lia.
    + constructor; assumption.
    + congruence.
    + congruence.
Qed.

(** With slope 1 and intercept 0 the mapping to host time is the identity. *)
Lemma to_host_ms_unit (s : ClockSync.LinearClockSync) (x : Q) :
  ClockSync.a (ClockSync.params s) == 1 ->
  ClockSync.b (ClockSync.params s) == 0 ->
  ClockSync.to_host_ms s x == x.
Proof. intros Ha Hb. unfold ClockSync.to_host_ms. rewrite Ha, Hb. ring. Qed.

Lemma update_slope (s s' : ClockSync.LinearClockSync) (imu host : Q) (p : ClockSync.SyncParams) :
  ClockSync.update s imu host = ok (s', p) ->
  slope_ok p /\ ClockSync.params s' = p.
Proof.
  unfold ClockSync.update.
  set (pts := Py.deque_append (ClockSync.max_points s) (ClockSync._pts s) (imu, host)).
  destruct (Py.len pts <? ClockSync._min_points s)%Z.
  - destruct (Py.last_item pts) as [[li lh]|]; [|discriminate].
    intro H. injection H as <- <-. split; [apply slope_ok_one | reflexivity].
  - destruct (Py.len pts =? 0)%Z; [discriminate|].
    destruct (ClockSync.degenerate pts).
    + intro H. injection H as <- <-. split; [apply slope_ok_one | reflexivity].
    + intro H. injection H as <- <-. split; [|reflexivity].
      unfold slope_ok. cbn [ClockSync.a]. apply cs_clamp_bounds. unfold Qle; simpl; lia.
Qed.

Lemma update_all_slopes (pairs : list (Q * Q)) (s s' : ClockSync.LinearClockSync)
    (ps : list ClockSync.SyncParams) :
  slope_ok (ClockSync.params s) ->
  ClockSync.update_all s pairs = ok (s', ps) ->
  Forall slope_ok ps /\ slope_ok (ClockSync.params s').
Proof.
  revert s s' ps. induction pairs as [|[i h] rest IH]; intros s s' ps Hs.
  - cbn. intro H. injection H as <- <-. split; [constructor | exact Hs].
  - cbn [ClockSync.update_all].
    destruct (ClockSync.update s i h) as [e | [s1 p]] eqn:Hu; [discriminate|].
    cbn [bind]. destruct (update_slope _ _ _ _ _ Hu) as [Hp Hp1].
    destruct (ClockSync.update_all s1 rest) as [e | [s2 ps2]] eqn:Hall; [discriminate|].
    cbn [bind ok]. intro H. injection H as <- <-.
    destruct (IH s1 s2 ps2 ltac:(rewrite Hp1; exact Hp) Hall) as [Hf Hlast].
    split; [constructor; assumption | exact Hlast].
Qed.

(** C6: for every sequence of [update] calls on a new estimator, the
    slope of the parameters that each call returns, and of those stored at
    the end, lies in [0.95, 1.05]; with a window of at least one pair
    every call succeeds.  The slope is exactly 1.0 during warm-up (fewer
    than min_points pairs) and in the degenerate case (abs(sxx) < 1e-9),
    and the least-squares slope sxy/sxx clamped to [0.95, 1.05] otherwise.
    The intercept is never clamped: it is last_host - last_imu,
    y_mean - x_mean, or y_mean minus the unclamped slope times x_mean, and
    takes every value. *)
Theorem C6_slope_bounds (max_pts : nat) (min_pts : Z) (pairs : list (Q * Q)) :
  (forall s ps,
     ClockSync.update_all (ClockSync.init max_pts min_pts) pairs = ok (s, ps) ->
     Forall slope_ok ps /\ slope_ok (ClockSync.params s))
  /\ ((1 <= max_pts)%nat ->
      exists s ps,
        ClockSync.update_all (ClockSync.init max_pts min_pts) pairs = ok (s, ps)
        /\ List.length ps = List.length pairs
        /\ (forall imu host, exists s' p,
              ClockSync.update s imu host = ok (s', p) /\ update_outcome s imu host s' p)
        /\ (forall B : Q, exists s' p,
              ClockSync.update (ClockSync.init max_pts 12) 0 B = ok (s', p)
              /\ ClockSync.b p == B)).
Proof.
  split.
  - intros s ps H.
    apply (update_all_slopes pairs (ClockSync.init max_pts min_pts) s ps (slope_ok_one 0) H).
  - intro Hm.
    destruct (update_all_ok pairs (ClockSync.init max_pts min_pts) Hm (slope_ok_one 0))
      as (s & ps & Hall & Hlen & Hf & Hmax & Hmin & Hlast).
    exists s, ps. split; [exact Hall|]. split; [exact Hlen|]. split.
    + intros imu host. apply update_ok. rewrite Hmax. exact Hm.
    + intro B.
      destruct (update_ok (ClockSync.init max_pts 12) 0 B Hm) as (s' & p & Hu & Ho).
      exists s', p. split; [assumption|].
      destruct Ho as (_ & _ & _ & _ & _ & Hwarm & _).
      destruct Hwarm as [_ Hb].
      * cbn [ClockSync.init ClockSync._pts ClockSync.max_points ClockSync._min_points].
        unfold Py.len, Py.deque_append. cbn [app List.length].
        rewrite length_skipn. cbn [List.length]. lia.
      * rewrite Hb. lra.
Qed.

(** The default estimator warms up on its first pairs. *)
Lemma C6_slope_bounds_witness :
  exists s ps,
    ClockSync.update_all ClockSync.default [(0, 100); (10, 111)] = ok (s, ps)
    /\ List.length ps = 2%nat
    /\ Forall slope_ok ps.
Proof.
  destruct (C6_slope_bounds 200 12 [(0, 100); (10, 111)]) as [Hpart Htotal].
  destruct Htotal as (s & ps & H1 & H2 & _); [lia|].
  exists s, ps. split; [exact H1|]. split; [exact H2|].
  apply (Hpart s ps H1).
Defined.

(** A fit whose raw slope is 2: the slope is clamped to 1.05, while the
    intercept 10 - 2 * 5 = 0 comes from the raw slope. *)
Example update_clamps_slope_only :
  exists s ps p1 p2,
    ClockSync.update_all (ClockSync.init 200 2) [(0, 0); (10, 20)] = ok (s, ps)
    /\ ps = [p1; p2]
    /\ ClockSync.a p1 == 1 /\ ClockSync.b p1 == 0
    /\ ClockSync.a p2 == 105 # 100 /\ ClockSync.b p2 == 0.
Proof.
  do 4 eexists. split; [vm_compute; reflexivity|].
  split; [reflexivity|]. repeat split; reflexivity.
Qed.

(* ===================================================================== *)
(** ** Daily summary (db.recompute_daily_summary) *)
(* ===================================================================== *)

Lemma float_or_zero_eq (v : Q) : Db.float_or_zero v == v.
Proof.
  unfold Db.float_or_zero. destruct (Qeq_bool v 0) eqn:E; [|reflexivity].
  apply Qeq_bool_iff in E. symmetry. exact E.
Qed.

Lemma int_or_zero_eq (v : Z) : Db.int_or_zero v = v.
Proof.
  unfold Db.int_or_zero. destruct (v =? 0)%Z eqn:E; [|reflexivity].
  apply Z.eqb_eq in E. symmetry. exact E.
Qed.

Lemma sql_sum_total (xs : list Q) :
  Db.coalesce (Db.sql_sum xs) 0 == Spec.total xs.
Proof.
  destruct xs as [|x xs]; [reflexivity|].
  cbn [Db.sql_sum Db.coalesce]. apply (py_sum_total (x :: xs)).
Qed.

Lemma fold_left_Zadd_acc (xs : list Z) (acc : Z) :
  fold_left Z.add xs acc = (acc + Spec.total_int xs)%Z.
Proof.
  revert acc. induction xs as [|x xs IH]; intro acc; cbn [fold_left Spec.total_int].
  - lia.
  - rewrite IH. lia.
Qed.

Lemma sql_sum_int_total (xs : list Z) :
  Db.coalesce (Db.sql_sum_int xs) 0%Z = Spec.total_int xs.
Proof.
  destruct xs as [|x xs]; [reflexivity|].
  cbn [Db.sql_sum_int Db.coalesce]. rewrite fold_left_Zadd_acc. lia.
Qed.

Lemma sql_avg_mean (xs : list Q) :
  xs <> [] -> Db.coalesce (Db.sql_avg xs) 0 == Spec.mean xs.
Proof.
  intro H. destruct xs as [|x xs]; [congruence|].
  cbn [Db.sql_avg Db.coalesce]. unfold Spec.mean.
  pose proof (py_sum_total (x :: xs)) as Hs. unfold Py.sum in Hs.
  rewrite Hs. reflexivity.
Qed.

Lemma fold_max_spec (rest : list Q) (x : Q) :
  let m := fold_left (fun m y => if Py.ltb m y then y else m) rest x in
  In m (x :: rest) /\ forall y, In y (x :: rest) -> y <= m.
Proof.
  revert x. induction rest as [|z rest IH]; intro x; cbn [fold_left].
  - split; [left; reflexivity|]. intros y [<- | []]. lra.
  - specialize (IH (if Py.ltb x z then z else x)). cbv zeta in IH.
    destruct IH as [Hin Hub].
    set (m := fold_left _ rest _) in *.
    case_ltb x z.
    + split.
      * destruct Hin as [<- | Hin]; [right; left; reflexivity | right; right; exact Hin].
      * intros y [<- | [<- | Hy]].
        -- pose proof (Hub z (or_introl eq_refl)). lra.
        -- apply Hub. left; reflexivity.
        -- apply Hub. right; exact Hy.
    + split.
      * destruct Hin as [<- | Hin]; [left; reflexivity | right; right; exact Hin].
      * intros y [<- | [<- | Hy]].
        -- apply Hub. left; reflexivity.
        -- pose proof (Hub x (or_introl eq_refl)). lra.
        -- apply Hub. right; exact Hy.
Qed.

Lemma sql_max_is_max (xs : list Q) :
  xs <> [] -> Spec.is_max (Db.coalesce (Db.sql_max xs) 0) xs.
Proof.
  intro H. destruct xs as [|x rest]; [congruence|].
  cbn [Db.sql_max Db.coalesce].
  destruct (fold_max_spec rest x) as [Hin Hub].
  split; [|exact Hub].
  eexists. split; [exact Hin | reflexivity].
Qed.

Lemma is_max_compat (m m' : Q) (xs : list Q) :
  m == m' -> Spec.is_max m xs -> Spec.is_max m' xs.
Proof.
  intros E [[x [Hin Hx]] Hub]. split.
  - exists x. split; [exact Hin | rewrite Hx; exact E].
  - intros y Hy. rewrite <- E. apply Hub. exact Hy.
Qed.

(** Which summary rows the rollup query reads. *)
Lemma joined_rows_spec (db : Db.t) (uid : Z) (d : Db.Day) (ss : Db.SessionSummary) :
  In ss (Db.joined_rows db uid d) <->
  exists s,
    In s (Db.sensor_sessions db)
    /\ Db.user_id s = uid
    /\ Db.day_of (Db.started_at s) = d
    /\ Db.ended_at s <> None
    /\ In ss (Db.session_summary db)
    /\ Db.session_id ss = Db.id s.
Proof.
  unfold Db.joined_rows. rewrite in_flat_map. split.
  - intros (s & Hs & Hss).
    apply filter_In in Hs. destruct Hs as [Hs Hc].
    apply filter_In in Hss. destruct Hss as [Hss Hid].
    unfold Db.completed_session in Hc.
    apply andb_true_iff in Hc. destruct Hc as [Hc He].
    apply andb_true_iff in Hc. destruct Hc as [Hu Hd].
    exists s. repeat split; try assumption.
    + apply Z.eqb_eq; assumption.
    + apply Z.eqb_eq; assumption.
    + destruct (Db.ended_at s); [discriminate | discriminate He].
    + apply Z.eqb_eq; assumption.
  - intros (s & Hs & Hu & Hd & He & Hss & Hid).
    exists s. split.
    + apply filter_In. split; [assumption|].
      unfold Db.completed_session.
      rewrite (proj2 (Z.eqb_eq _ _) Hu), (proj2 (Z.eqb_eq _ _) Hd).
      destruct (Db.ended_at s); [reflexivity | congruence].
    + apply filter_In. split; [assumption | apply Z.eqb_eq; assumption].
Qed.

(** C8: for every non-empty set of completed session summaries of one
    (user_id, day), the daily summary recomputation produces
    sessions_count equal to the number of sessions, duration_s,
    thor_red_s, lum_red_s and alerts_count equal to the per-session sums,
    comp_avg and risk_index_avg equal to the unweighted means of the
    per-session comp_avg and risk_index, and comp_peak and risk_index_max
    equal to their maxima; the payload is what the call returns. *)
Theorem C8_daily_summary_aggregates (db : Db.t) (uid : Z) (d : Db.Day) (now : Db.Datetime) :
  let rows := Db.joined_rows db uid d in
  let p := snd (Db.recompute_daily_summary db uid (Some d) now) in
  rows <> [] ->
  Db.d_user_id p = uid /\ Db.d_day p = d
  /\ Db.sessions_count p = Z.of_nat (List.length rows)
  /\ Db.d_duration_s p == Spec.total (map Db.duration_s rows)
  /\ Db.d_thor_red_s p == Spec.total (map Db.thor_red_s rows)
  /\ Db.d_lum_red_s p == Spec.total (map Db.lum_red_s rows)
  /\ Db.d_alerts_count p = Spec.total_int (map Db.alerts_count rows)
  /\ Db.d_comp_avg p == Spec.mean (map Db.comp_avg rows)
  /\ Db.risk_index_avg p == Spec.mean (map Db.risk_index rows)
  /\ Spec.is_max (Db.d_comp_peak p) (map Db.comp_peak rows)
  /\ Spec.is_max (Db.risk_index_max p) (map Db.risk_index rows).
Proof.
  intros rows p Hne. subst p.
  unfold Db.recompute_daily_summary. cbn [snd]. fold rows.
  unfold Db.daily_payload.
  cbn [Db.d_user_id Db.d_day Db.sessions_count Db.d_duration_s Db.d_thor_red_s
       Db.d_lum_red_s Db.d_alerts_count Db.d_comp_avg Db.d_comp_peak
       Db.risk_index_avg Db.risk_index_max].
  assert (Hmap : forall {B} (f : Db.SessionSummary -> B), map f rows <> []).
  { intros B f E. apply map_eq_nil in E. contradiction. }
  repeat split.
  - apply int_or_zero_eq.
  - rewrite float_or_zero_eq. apply sql_sum_total.
  - rewrite float_or_zero_eq. apply sql_sum_total.
  - rewrite float_or_zero_eq. apply sql_sum_total.
  - rewrite int_or_zero_eq. apply sql_sum_int_total.
  - rewrite float_or_zero_eq. apply sql_avg_mean. apply Hmap.
  - rewrite float_or_zero_eq. apply sql_avg_mean. apply Hmap.
  - apply (proj1 (is_max_compat _ _ _ (Qeq_sym _ _ (float_or_zero_eq _))
                    (sql_max_is_max _ (Hmap _ Db.comp_peak)))).
  - apply (proj2 (is_max_compat _ _ _ (Qeq_sym _ _ (float_or_zero_eq _))
                    (sql_max_is_max _ (Hmap _ Db.comp_peak)))).
  - apply (proj1 (is_max_compat _ _ _ (Qeq_sym _ _ (float_or_zero_eq _))
                    (sql_max_is_max _ (Hmap _ Db.risk_index)))).
  - apply (proj2 (is_max_compat _ _ _ (Qeq_sym _ _ (float_or_zero_eq _))
                    (sql_max_is_max _ (Hmap _ Db.risk_index)))).
Qed.

Example two_sessions_rows :
  map Db.session_id (Db.joined_rows two_sessions_db 7 (Db.day_of 1700000000%Z)) = [1%Z; 2%Z].
Proof. reflexivity. Qed.

Lemma C8_daily_summary_aggregates_witness :
  let p := snd (Db.recompute_daily_summary two_sessions_db 7
                  (Some (Db.day_of 1700000000%Z)) 1700003600%Z) in
  Db.sessions_count p = 2%Z
  /\ Db.risk_index_avg p == Spec.mean [40; 80]
  /\ Spec.is_max (Db.risk_index_max p) [40; 80].
Proof.
  intro p.
  destruct (C8_daily_summary_aggregates two_sessions_db 7 (Db.day_of 1700000000%Z) 1700003600%Z)
    as (_ & _ & Hc & _ & _ & _ & _ & _ & Havg & _ & Hmax).
  - vm_compute. discriminate.
  - split; [exact Hc | split; [exact Havg | exact Hmax]].
Defined.

(** The example of the specification: risk_index 40 and 80 give
    risk_index_avg 60.0 and risk_index_max 80.0. *)
Example daily_summary_40_80 :
  let p := snd (Db.recompute_daily_summary two_sessions_db 7
                  (Some (Db.day_of 1700000000%Z)) 1700003600%Z) in
  Db.sessions_count p = 2%Z
  /\ Db.d_duration_s p == 180
  /\ Db.d_alerts_count p = 6%Z
  /\ Db.d_comp_avg p == 15
  /\ Db.d_comp_peak p == 50
  /\ Db.risk_index_avg p == 60
  /\ Db.risk_index_max p == 80.
Proof. cbv zeta. repeat split; reflexivity. Qed.

(* ===================================================================== *)
(** ** Session recorder (session_recorder.SessionRecorder) *)
(* ===================================================================== *)

Lemma start_session_active (r : SessionRecorder.t) (w : SessionRecorder.World) (sid : Z) :
  SessionRecorder.session_id r = Some sid ->
  SessionRecorder.start_session r w = ok (sid, r, w).
Proof. intro H. unfold SessionRecorder.start_session. rewrite H. reflexivity. Qed.

Lemma start_session_result (r r1 : SessionRecorder.t) (w w1 : SessionRecorder.World) (sid : Z) :
  SessionRecorder.start_session r w = ok (sid, r1, w1) ->
  SessionRecorder.session_id r1 = Some sid
  /\ SessionRecorder.cfg r1 = SessionRecorder.cfg r
  /\ SessionRecorder._n r1 = SessionRecorder._n r
  /\ SessionRecorder._thor_red r1 = SessionRecorder._thor_red r
  /\ SessionRecorder._lum_red r1 = SessionRecorder._lum_red r
  /\ SessionRecorder._alerts r1 = SessionRecorder._alerts r
  /\ (List.length (Db.sensor_sessions (SessionRecorder.db w1))
      <= List.length (Db.sensor_sessions (SessionRecorder.db w)) + 1)%nat
  /\ (SessionRecorder.session_id r = None ->
      sid = Db.next_session_id (SessionRecorder.db w)
      /\ List.length (Db.sensor_sessions (SessionRecorder.db w1))
         = (List.length (Db.sensor_sessions (SessionRecorder.db w)) + 1)%nat).
Proof.
  unfold SessionRecorder.start_session.
  destruct (SessionRecorder.session_id r) as [sid0|] eqn:E.
  - intro H. injection H as <- <- <-.
    repeat split; try assumption; try lia; discriminate.
  - unfold Db.start_sensor_session.
    destruct (negb (Db.valid_kind (Py.strip (SessionRecorder.kind (SessionRecorder.cfg r)))));
      [discriminate|].
    cbn [bind ok]. intro H. injection H as <- <- <-.
    cbn [SessionRecorder.session_id SessionRecorder.cfg SessionRecorder._n
         SessionRecorder._thor_red SessionRecorder._lum_red SessionRecorder._alerts
         SessionRecorder.with_db SessionRecorder.db Db.sensor_sessions].
    rewrite length_app. cbn [List.length].
    repeat split; lia.
Qed.

Lemma start_session_idle_ok (r : SessionRecorder.t) (w : SessionRecorder.World) :
  SessionRecorder.session_id r = None ->
  Db.valid_kind (Py.strip (SessionRecorder.kind (SessionRecorder.cfg r))) = true ->
  exists r1 w1,
    SessionRecorder.start_session r w
    = ok (Db.next_session_id (SessionRecorder.db w), r1, w1).
Proof.
  intros Hs Hk. unfold SessionRecorder.start_session, Db.start_sensor_session.
  rewrite Hs, Hk. cbn [negb bind ok]. eexists _, _. reflexivity.
Qed.

(** C10: [start_session] is idempotent while a session is active: if
    session_id is already set, the call returns the same identifier and
    leaves the recorder and the storage as they were; so of two
    consecutive calls the second returns the identifier of the first,
    changes nothing, and at most one session row is created. *)
Theorem C10_start_session_idempotent (r : SessionRecorder.t) (w : SessionRecorder.World)
    (sid : Z) :
  SessionRecorder.session_id r = Some sid ->
  SessionRecorder.start_session r w = ok (sid, r, w)
  /\ (forall r0 w0 sid1 r1 w1 clock2,
        SessionRecorder.start_session r0 w0 = ok (sid1, r1, w1) ->
        let w2 := SessionRecorder.mkWorld (SessionRecorder.db w1) clock2 in
        SessionRecorder.start_session r1 w2 = ok (sid1, r1, w2)
        /\ (List.length (Db.sensor_sessions (SessionRecorder.db w2))
            <= List.length (Db.sensor_sessions (SessionRecorder.db w0)) + 1)%nat).
Proof.
  intro H. split; [apply start_session_active; exact H|].
  intros r0 w0 sid1 r1 w1 clock2 H1 w2.
  destruct (start_session_result _ _ _ _ _ H1) as (Hsid & _ & _ & _ & _ & _ & Hlen & _).
  split; [apply start_session_active; exact Hsid | exact Hlen].
Qed.

Lemma C10_start_session_idempotent_witness :
  SessionRecorder.start_session (fst demo_started) (snd demo_started)
  = ok (1%Z, fst demo_started, snd demo_started).
Proof.
  apply (C10_start_session_idempotent (fst demo_started) (snd demo_started) 1).
  reflexivity.
Defined.

Example start_twice_one_session :
  List.length (Db.sensor_sessions (SessionRecorder.db (snd demo_started))) = 1%nat
  /\ SessionRecorder.start_session (fst demo_started)
       (SessionRecorder.mkWorld (SessionRecorder.db (snd demo_started)) 1700000005000)
     = ok (1%Z, fst demo_started,
           SessionRecorder.mkWorld (SessionRecorder.db (snd demo_started)) 1700000005000).
Proof. split; reflexivity. Qed.

Lemma count_cons {A} (f : A -> bool) (x : A) (l : list A) :
  count f (x :: l) = ((if f x then 1 else 0) + count f l)%Z.
Proof.
  unfold count. cbn [filter]. destruct (f x); cbn [List.length]; lia.
Qed.

Lemma count_split {A} (f : A -> bool) (l : list A) :
  (count f l + count (fun x => negb (f x)) l)%Z = Z.of_nat (List.length l).
Proof.
  induction l as [|x l IH].
  - reflexivity.
  - rewrite !count_cons. cbn [List.length]. destruct (f x); cbn [negb]; lia.
Qed.

Lemma record_sample_counters (sid now : Z) (r : SessionRecorder.t) (s : SessionRecorder.SampleDict) :
  let r' := SessionRecorder.record_sample sid now r s in
  SessionRecorder.cfg r' = SessionRecorder.cfg r
  /\ SessionRecorder.session_id r' = SessionRecorder.session_id r
  /\ SessionRecorder._n r' = (SessionRecorder._n r + 1)%Z
  /\ SessionRecorder._thor_red r'
     = (SessionRecorder._thor_red r + if thor_is_red (SessionRecorder.cfg r) s then 1 else 0)%Z
  /\ SessionRecorder._lum_red r'
     = (SessionRecorder._lum_red r + if lum_is_red (SessionRecorder.cfg r) s then 1 else 0)%Z
  /\ SessionRecorder._last_thor_zone r' = Some (fst (zones_of (SessionRecorder.cfg r) s))
  /\ SessionRecorder._last_lum_zone r' = Some (snd (zones_of (SessionRecorder.cfg r) s))
  /\ SessionRecorder._alerts r'
     = (SessionRecorder._alerts r
        + (if SessionRecorder.last_not_red (SessionRecorder._last_thor_zone r)
              && thor_is_red (SessionRecorder.cfg r) s then 1 else 0)
        + (if SessionRecorder.last_not_red (SessionRecorder._last_lum_zone r)
              && lum_is_red (SessionRecorder.cfg r) s then 1 else 0))%Z.
Proof.
  unfold SessionRecorder.record_sample, thor_is_red, lum_is_red, zones_of.
  destruct (SessionRecorder.s_thor_zone s) as [tz|];
    destruct (SessionRecorder.s_lum_zone s) as [lz|];
    destruct (SessionRecorder.s_comp_index s) as [ci|];
    unfold PostureEngine.annotate;
    cbn [fst snd PostureEngine.thor_zone PostureEngine.lum_zone PostureEngine.comp_index
         PostureEngine.pitch PostureEngine.roll
         SessionRecorder.cfg SessionRecorder.session_id SessionRecorder._n
         SessionRecorder._thor_red SessionRecorder._lum_red SessionRecorder._alerts
         SessionRecorder._last_thor_zone SessionRecorder._last_lum_zone];
    repeat split;
    repeat match goal with
           | |- context [if ?b then _ else _] => destruct b
           end; lia.
Qed.

Lemma record_samples_counters (samples : list SessionRecorder.SampleDict)
    (sid now : Z) (r : SessionRecorder.t) :
  let r' := fold_left (SessionRecorder.record_sample sid now) samples r in
  SessionRecorder.cfg r' = SessionRecorder.cfg r
  /\ SessionRecorder.session_id r' = SessionRecorder.session_id r
  /\ SessionRecorder._n r' = (SessionRecorder._n r + Z.of_nat (List.length samples))%Z
  /\ SessionRecorder._thor_red r'
     = (SessionRecorder._thor_red r + count (thor_is_red (SessionRecorder.cfg r)) samples)%Z
  /\ SessionRecorder._lum_red r'
     = (SessionRecorder._lum_red r + count (lum_is_red (SessionRecorder.cfg r)) samples)%Z.
Proof.
  revert r. induction samples as [|s rest IH]; intro r; cbn [fold_left].
  - unfold count. cbn. repeat split; lia.
  - destruct (record_sample_counters sid now r s) as (Hc & Hs & Hn & Ht & Hl & _).
    destruct (IH (SessionRecorder.record_sample sid now r s)) as (Hc' & Hs' & Hn' & Ht' & Hl').
    cbv zeta. rewrite Hc', Hs', Hn', Ht', Hl', Hc, Hs, Hn, Ht, Hl, !count_cons.
    cbn [List.length]. repeat split; lia.
Qed.

Lemma flush_counters (r : SessionRecorder.t) (w : SessionRecorder.World) :
  counters (fst (SessionRecorder.flush r w)) = counters r
  /\ SessionRecorder._comp_sum (fst (SessionRecorder.flush r w)) = SessionRecorder._comp_sum r
  /\ SessionRecorder._comp_peak (fst (SessionRecorder.flush r w)) = SessionRecorder._comp_peak r
  /\ Db.sensor_sessions (SessionRecorder.db (snd (SessionRecorder.flush r w)))
     = Db.sensor_sessions (SessionRecorder.db w).
Proof.
  unfold SessionRecorder.flush.
  destruct (SessionRecorder.session_id r) as [sid|] eqn:E; cbn [fst snd].
  - unfold counters. cbn. rewrite E.
    unfold Db.insert_sensor_samples_raw_batch, Db.insert_sensor_samples_agg_batch.
    destruct (SessionRecorder._raw_rows r); destruct (SessionRecorder._agg_rows r);
      repeat split; reflexivity.
  - repeat split; reflexivity.
Qed.

Lemma maybe_flush_counters (r : SessionRecorder.t) (w : SessionRecorder.World) :
  counters (fst (SessionRecorder._maybe_flush r w)) = counters r
  /\ Db.sensor_sessions (SessionRecorder.db (snd (SessionRecorder._maybe_flush r w)))
     = Db.sensor_sessions (SessionRecorder.db w).
Proof.
  unfold SessionRecorder._maybe_flush.
  destruct (SessionRecorder.session_id r) as [sid|] eqn:E; [|split; reflexivity].
  match goal with |- context [if ?b then _ else _] => destruct b end.
  - split; [|reflexivity]. unfold counters. cbn. rewrite E. reflexivity.
  - match goal with
    | |- context [SessionRecorder.flush ?r1 w] =>
        pose proof (flush_counters r1 w) as (Hc & _ & _ & Hd);
        destruct (SessionRecorder.flush r1 w) as [r2 w2]
    end.
    cbn [fst snd] in *. split; [|exact Hd].
    unfold counters in *. cbn in *. congruence.
Qed.

Lemma append_idle_nonempty (r : SessionRecorder.t) (w : SessionRecorder.World)
    (s : SessionRecorder.SampleDict) (rest : list SessionRecorder.SampleDict) :
  SessionRecorder.session_id r = None ->
  Db.valid_kind (Py.strip (SessionRecorder.kind (SessionRecorder.cfg r))) = true ->
  exists r' w',
    SessionRecorder.append_samples_batch r w (s :: rest) = ok (r', w')
    /\ SessionRecorder.session_id r' = Some (Db.next_session_id (SessionRecorder.db w))
    /\ SessionRecorder._n r' = (SessionRecorder._n r + Z.of_nat (List.length (s :: rest)))%Z
    /\ List.length (Db.sensor_sessions (SessionRecorder.db w'))
       = (List.length (Db.sensor_sessions (SessionRecorder.db w)) + 1)%nat.
Proof.
  intros Hs Hk.
  destruct (start_session_idle_ok r w Hs Hk) as (r1 & w1 & Hstart).
  destruct (start_session_result _ _ _ _ _ Hstart) as (Hsid & Hcfg & Hn & _ & _ & _ & _ & Hnew).
  destruct (Hnew Hs) as [_ Hlen].
  unfold SessionRecorder.append_samples_batch. rewrite Hstart. cbn [bind ok].
  set (r2 := fold_left _ (s :: rest) r1).
  destruct (record_samples_counters (s :: rest)
              (Db.next_session_id (SessionRecorder.db w)) (SessionRecorder._now_ms w1) r1)
    as (_ & Hs2 & Hn2 & _).
  fold r2 in Hs2, Hn2.
  destruct (maybe_flush_counters r2 w1) as [Hc Hd].
  destruct (SessionRecorder._maybe_flush r2 w1) as [r3 w3]. cbn [fst snd] in *.
  exists r3, w3. split; [reflexivity|].
  unfold counters in Hc. injection Hc as _ Hs3 Hn3 _ _ _.
  repeat split; congruence.
Qed.

(** C7, as amended: when [stop_session_and_compute_summary] is called
    while no session is active, RuntimeError is raised before anything is
    touched.  [append_samples_batch] signals nothing of the kind: with an
    empty batch it returns at once and changes nothing; with a non-empty
    batch it starts a session itself through the storage collaborator
    (raising only what that start raises) and then records the samples. *)
Theorem C7_not_recording (r : SessionRecorder.t) (w : SessionRecorder.World) :
  SessionRecorder.session_id r = None ->
  SessionRecorder.stop_session_and_compute_summary r w
    = raise (RuntimeError "No hay sesion activa")
  /\ SessionRecorder.append_samples_batch r w [] = ok (r, w)
  /\ forall s rest,
       (Db.valid_kind (Py.strip (SessionRecorder.kind (SessionRecorder.cfg r))) = false ->
        SessionRecorder.append_samples_batch r w (s :: rest)
          = raise (ValueError "kind invalido (monitor|routine|baseline)"))
       /\ (Db.valid_kind (Py.strip (SessionRecorder.kind (SessionRecorder.cfg r))) = true ->
           exists r' w',
             SessionRecorder.append_samples_batch r w (s :: rest) = ok (r', w')
             /\ SessionRecorder.session_id r' = Some (Db.next_session_id (SessionRecorder.db w))
             /\ SessionRecorder._n r'
                = (SessionRecorder._n r + Z.of_nat (List.length (s :: rest)))%Z
             /\ List.length (Db.sensor_sessions (SessionRecorder.db w'))
                = (List.length (Db.sensor_sessions (SessionRecorder.db w)) + 1)%nat).
Proof.
  intro Hs. split; [|split].
  - unfold SessionRecorder.stop_session_and_compute_summary. rewrite Hs. reflexivity.
  - reflexivity.
  - intros s rest. split.
    + intro Hk.
      unfold SessionRecorder.append_samples_batch, SessionRecorder.start_session,
        Db.start_sensor_session.
      rewrite Hs, Hk. reflexivity.
    + intro Hk. apply append_idle_nonempty; assumption.
Qed.

Lemma C7_not_recording_witness :
  SessionRecorder.stop_session_and_compute_summary (SessionRecorder.init demo_cfg) demo_world
    = raise (RuntimeError "No hay sesion activa")
  /\ exists r' w',
       SessionRecorder.append_samples_batch (SessionRecorder.init demo_cfg) demo_world
         [sample_at 1700000000020 "green" "green" 0] = ok (r', w')
       /\ SessionRecorder.session_id r' = Some 1%Z.
Proof.
  destruct (C7_not_recording (SessionRecorder.init demo_cfg) demo_world eq_refl)
    as (Hstop & _ & Happ).
  split; [exact Hstop|].
  destruct (Happ (sample_at 1700000000020 "green" "green" 0) []) as [_ Hok].
  destruct (Hok eq_refl) as (r' & w' & H1 & H2 & _).
  exists r', w'. split; assumption.
Defined.

(** C7 as stated fails for append: on an idle recorder a batch of one
    sample raises nothing, allocates session 1 in the storage and counts
    the sample, so the recorder and the storage are no longer what they
    were. *)
Lemma C7_counterexample :
  SessionRecorder.session_id (SessionRecorder.init demo_cfg) = None
  /\ (forall e,
        SessionRecorder.append_samples_batch (SessionRecorder.init demo_cfg) demo_world
          [sample_at 1700000000020 "green" "green" 0] <> raise e)
  /\ exists r' w',
       SessionRecorder.append_samples_batch (SessionRecorder.init demo_cfg) demo_world
         [sample_at 1700000000020 "green" "green" 0] = ok (r', w')
       /\ SessionRecorder.session_id r' = Some 1%Z
       /\ SessionRecorder._n r' = 1%Z
       /\ List.length (SessionRecorder._raw_rows r') = 1%nat
       /\ Db.sensor_sessions (SessionRecorder.db demo_world) = []
       /\ map Db.id (Db.sensor_sessions (SessionRecorder.db w')) = [1%Z]
       /\ r' <> SessionRecorder.init demo_cfg
       /\ SessionRecorder.db w' <> SessionRecorder.db demo_world.
Proof.
  split; [reflexivity|]. split.
  - intros e H. vm_compute in H. discriminate H.
  - eexists _, _. split; [vm_compute; reflexivity|].
    repeat split; try reflexivity.
    + intro H. apply (f_equal SessionRecorder._n) in H. vm_compute in H. discriminate H.
    + intro H. apply (f_equal Db.next_session_id) in H. vm_compute in H. discriminate H.
Qed.

Lemma count_app {A} (f : A -> bool) (l1 l2 : list A) :
  count f (l1 ++ l2) = (count f l1 + count f l2)%Z.
Proof. unfold count. rewrite filter_app, length_app. lia. Qed.

Lemma append_active (r : SessionRecorder.t) (w : SessionRecorder.World)
    (samples : list SessionRecorder.SampleDict) (sid : Z) :
  SessionRecorder.session_id r = Some sid ->
  exists r' w',
    SessionRecorder.append_samples_batch r w samples = ok (r', w')
    /\ SessionRecorder.session_id r' = Some sid
    /\ SessionRecorder.cfg r' = SessionRecorder.cfg r
    /\ SessionRecorder._n r' = (SessionRecorder._n r + Z.of_nat (List.length samples))%Z
    /\ SessionRecorder._thor_red r'
       = (SessionRecorder._thor_red r + count (thor_is_red (SessionRecorder.cfg r)) samples)%Z
    /\ SessionRecorder._lum_red r'
       = (SessionRecorder._lum_red r + count (lum_is_red (SessionRecorder.cfg r)) samples)%Z.
Proof.
  intro Hs. destruct samples as [|s rest].
  - exists r, w. unfold count. cbn. repeat split; try assumption; lia.
  - unfold SessionRecorder.append_samples_batch.
    rewrite (start_session_active r w sid Hs). cbn [bind ok].
    set (r2 := fold_left _ (s :: rest) r).
    destruct (record_samples_counters (s :: rest) sid (SessionRecorder._now_ms w) r)
      as (Hc2 & Hs2 & Hn2 & Ht2 & Hl2).
    fold r2 in Hc2, Hs2, Hn2, Ht2, Hl2.
    destruct (maybe_flush_counters r2 w) as [Hc _].
    destruct (SessionRecorder._maybe_flush r2 w) as [r3 w3]. cbn [fst snd] in *.
    exists r3, w3. split; [reflexivity|].
    unfold counters in Hc. injection Hc as Hc3 Hs3 Hn3 Ht3 Hl3 _.
    repeat split; congruence.
Qed.

Lemma append_all_active (calls : list (Z * list SessionRecorder.SampleDict))
    (r : SessionRecorder.t) (w : SessionRecorder.World) (sid : Z) :
  SessionRecorder.session_id r = Some sid ->
  exists r' w',
    append_all r w calls = ok (r', w')
    /\ SessionRecorder.session_id r' = Some sid
    /\ SessionRecorder.cfg r' = SessionRecorder.cfg r
    /\ SessionRecorder._n r'
       = (SessionRecorder._n r + Z.of_nat (List.length (all_samples calls)))%Z
    /\ SessionRecorder._thor_red r'
       = (SessionRecorder._thor_red r
          + count (thor_is_red (SessionRecorder.cfg r)) (all_samples calls))%Z
    /\ SessionRecorder._lum_red r'
       = (SessionRecorder._lum_red r
          + count (lum_is_red (SessionRecorder.cfg r)) (all_samples calls))%Z.
Proof.
  revert r w. induction calls as [|[clk samples] rest IH]; intros r w Hs.
  - exists r, w. unfold count. cbn. repeat split; try assumption; lia.
  - destruct (append_active r (SessionRecorder.mkWorld (SessionRecorder.db w) clk) samples sid Hs)
      as (r1 & w1 & Ha & Hs1 & Hc1 & Hn1 & Ht1 & Hl1).
    destruct (IH r1 w1 Hs1) as (r2 & w2 & Hall & Hs2 & Hc2 & Hn2 & Ht2 & Hl2).
    exists r2, w2. cbn [append_all]. rewrite Ha. cbn [bind ok].
    split; [exact Hall|].
    unfold all_samples in *. cbn [map List.concat snd].
    rewrite length_app, !count_app.
    rewrite Hc1 in *.
    repeat split; try congruence; lia.
Qed.

Lemma stop_active (r : SessionRecorder.t) (w : SessionRecorder.World) (sid : Z) :
  SessionRecorder.session_id r = Some sid ->
  let rate := Py.max (SessionRecorder.sample_rate_hz (SessionRecorder.cfg r)) (1 # 1000000) in
  exists summ r' w',
    SessionRecorder.stop_session_and_compute_summary r w = ok (summ, r', w')
    /\ SessionRecorder.session_id r' = None
    /\ SessionRecorder.sum_session_id summ = sid
    /\ SessionRecorder.duration_s summ = Py.float (SessionRecorder._n r) / rate
    /\ SessionRecorder.thor_red_s summ = Py.float (SessionRecorder._thor_red r) / rate
    /\ SessionRecorder.lum_red_s summ = Py.float (SessionRecorder._lum_red r) / rate
    /\ SessionRecorder.alerts_count summ = SessionRecorder._alerts r.
Proof.
  intros Hs rate. unfold SessionRecorder.stop_session_and_compute_summary. rewrite Hs.
  destruct (flush_counters r w) as (Hc & _ & _ & _).
  destruct (SessionRecorder.flush r w) as [r1 w1]. cbn [fst snd] in Hc.
  unfold counters in Hc. injection Hc as Hc1 _ Hn1 Ht1 Hl1 Ha1.
  unfold Db.recompute_daily_summary.
  eexists _, _, _. split; [reflexivity|].
  cbn [SessionRecorder.session_id SessionRecorder.sum_session_id SessionRecorder.duration_s
       SessionRecorder.thor_red_s SessionRecorder.lum_red_s SessionRecorder.alerts_count].
  subst rate. rewrite Hc1, Hn1, Ht1, Hl1, Ha1. repeat split; reflexivity.
Qed.

Lemma div_same_add (x y r : Q) : 0 < r -> x / r + y / r == (x + y) / r.
Proof. intro H. field. lra. Qed.

(** C3, as amended: for every recording made with the SessionRecorder
    class, with n samples appended in any number of batches, stopping the
    session computes duration_s = n / max(sample_rate_hz, 1e-6), which is
    n / sample_rate_hz whenever sample_rate_hz >= 1e-6, from the sample
    count and not from timestamps; thor_red_s and lum_red_s are the red
    sample counters over the same rate, so for each segment red seconds
    plus non-red seconds equals duration_s exactly.  The stop handler of
    the monitor view is different: its duration is
    (last_ts_ms - first_ts_ms) / 1000, from host timestamps. *)
Theorem C3_duration_from_sample_count (c : SessionRecorder.RecorderConfig)
    (w : SessionRecorder.World) (calls : list (Z * list SessionRecorder.SampleDict))
    (clock_stop : Z) :
  Db.valid_kind (Py.strip (SessionRecorder.kind c)) = true ->
  let samples := all_samples calls in
  let n := Z.of_nat (List.length samples) in
  let rate := Py.max (SessionRecorder.sample_rate_hz c) (1 # 1000000) in
  (exists sid r1 w1 r2 w2 summ r3 w3,
     SessionRecorder.start_session (SessionRecorder.init c) w = ok (sid, r1, w1)
     /\ append_all r1 w1 calls = ok (r2, w2)
     /\ SessionRecorder.stop_session_and_compute_summary r2
          (SessionRecorder.mkWorld (SessionRecorder.db w2) clock_stop) = ok (summ, r3, w3)
     /\ SessionRecorder.session_id r3 = None
     /\ SessionRecorder.duration_s summ == Py.float n / rate
     /\ SessionRecorder.thor_red_s summ == Py.float (count (thor_is_red c) samples) / rate
     /\ SessionRecorder.lum_red_s summ == Py.float (count (lum_is_red c) samples) / rate
     /\ SessionRecorder.thor_red_s summ
        + Py.float (count (fun s => negb (thor_is_red c s)) samples) / rate
        == SessionRecorder.duration_s summ
     /\ SessionRecorder.lum_red_s summ
        + Py.float (count (fun s => negb (lum_is_red c s)) samples) / rate
        == SessionRecorder.duration_s summ
     /\ ((1 # 1000000) <= SessionRecorder.sample_rate_hz c ->
         SessionRecorder.duration_s summ == Py.float n / SessionRecorder.sample_rate_hz c))
  /\ (forall st first,
        MonitorView.first_ts_ms st = Some first ->
        (first <= MonitorView.last_ts_ms st)%Z ->
        MonitorView.stop_duration_s (MonitorView.stop_figures st)
        = Py.float (MonitorView.last_ts_ms st - first) / 1000).
Proof.
  intros Hk samples n rate. split.
  - destruct (start_session_idle_ok (SessionRecorder.init c) w eq_refl Hk) as (r1 & w1 & Hstart).
    destruct (start_session_result _ _ _ _ _ Hstart)
      as (Hsid & Hcfg & Hn1 & Ht1 & Hl1 & _).
    destruct (append_all_active calls r1 w1 _ Hsid)
      as (r2 & w2 & Hall & Hs2 & Hc2 & Hn2 & Ht2 & Hl2).
    destruct (stop_active r2 (SessionRecorder.mkWorld (SessionRecorder.db w2) clock_stop) _ Hs2)
      as (summ & r3 & w3 & Hstop & Hs3 & _ & Hd & Ht & Hl & _).
    exists (Db.next_session_id (SessionRecorder.db w)), r1, w1, r2, w2, summ, r3, w3.
    split; [exact Hstart|]. split; [exact Hall|]. split; [exact Hstop|].
    split; [exact Hs3|].
    rewrite Hc2, Hcfg in *. cbn [SessionRecorder.init SessionRecorder.cfg
      SessionRecorder._n SessionRecorder._thor_red SessionRecorder._lum_red] in *.
    fold samples in Hn2, Ht2, Hl2. fold rate in Hd, Ht, Hl.
    rewrite Hn1 in Hn2. rewrite Ht1 in Ht2. rewrite Hl1 in Hl2.
    rewrite Z.add_0_l in Hn2, Ht2, Hl2.
    rewrite Hd, Ht, Hl, Hn2, Ht2, Hl2. fold n.
    assert (Hrate : 0 < rate) by apply py_max_pos.
    assert (Hsplit : forall f : SessionRecorder.SampleDict -> bool,
               Py.float (count f samples) / rate
               + Py.float (count (fun s => negb (f s)) samples) / rate
               == Py.float n / rate).
    { intro f. rewrite div_same_add by assumption. unfold Py.float.
      rewrite <- inject_Z_plus, count_split. reflexivity. }
    repeat split; try reflexivity; try apply Hsplit.
    intro Hr. subst rate. rewrite (py_max_left _ _ Hr). reflexivity.
  - intros st first Hf Hle. unfold MonitorView.stop_figures.
    cbn [MonitorView.stop_duration_s]. rewrite Hf.
    rewrite (proj2 (Z.leb_le _ _) Hle). reflexivity.
Qed.

Lemma C3_duration_from_sample_count_witness :
  exists sid r1 w1 r2 w2 summ r3 w3,
    SessionRecorder.start_session (SessionRecorder.init demo_cfg) demo_world = ok (sid, r1, w1)
    /\ append_all r1 w1 demo_calls = ok (r2, w2)
    /\ SessionRecorder.stop_session_and_compute_summary r2
         (SessionRecorder.mkWorld (SessionRecorder.db w2) 1700000000080) = ok (summ, r3, w3)
    /\ SessionRecorder.duration_s summ == Py.float 3 / 50.
Proof.
  destruct (C3_duration_from_sample_count demo_cfg demo_world demo_calls 1700000000080 eq_refl)
    as [(sid & r1 & w1 & r2 & w2 & summ & r3 & w3 & H1 & H2 & H3 & _ & _ & _ & _ & _ & _ & H4) _].
  exists sid, r1, w1, r2, w2, summ, r3, w3.
  repeat split; try assumption.
  apply H4. unfold Qle; simpl; lia.
Defined.

Example stop_summary_demo :
  exists r2 w2 summ r3 w3,
    append_all (fst demo_started) (snd demo_started) demo_calls = ok (r2, w2)
    /\ SessionRecorder.stop_session_and_compute_summary r2
         (SessionRecorder.mkWorld (SessionRecorder.db w2) 1700000000080) = ok (summ, r3, w3)
    /\ SessionRecorder.duration_s summ == 3 # 50
    /\ SessionRecorder.thor_red_s summ == 1 # 50
    /\ SessionRecorder.lum_red_s summ == 0
    /\ SessionRecorder.alerts_count summ = 1%Z
    /\ SessionRecorder.risk_index summ == 35 # 3
    /\ Db.sessions_count (SessionRecorder.daily summ) = 1%Z
    /\ List.length (Db.sensor_samples_raw (SessionRecorder.db w3)) = 3%nat.
Proof.
  do 5 eexists. split; [vm_compute; reflexivity|].
  split; [vm_compute; reflexivity|].
  repeat split; reflexivity.
Qed.

(** C3 as stated fails in two ways.  In SessionRecorder the rate is
    floored: at sample_rate_hz = 0.0000005 one sample gives
    duration_s = 1000000, not n / sample_rate_hz = 2000000.  In the monitor
    view the duration comes from host timestamps: two red samples 2000 ms
    apart give a duration of 2 s and 2.02 s of thoracic red, and two
    samples 20 ms apart give 0.02 s, with the same sample count. *)
Lemma C3_counterexample :
  (exists sid r1 w1 r2 w2 summ r3 w3,
     SessionRecorder.start_session (SessionRecorder.init slow_cfg) demo_world = ok (sid, r1, w1)
     /\ append_all r1 w1 [(1700000000020%Z, [sample_at 1700000000020 "red" "green" 0])]
        = ok (r2, w2)
     /\ SessionRecorder.stop_session_and_compute_summary r2 w2 = ok (summ, r3, w3)
     /\ SessionRecorder.duration_s summ == 1000000
     /\ ~ SessionRecorder.duration_s summ
          == Py.float 1 / SessionRecorder.sample_rate_hz slow_cfg)
  /\ (let far := fst (MonitorView.tick MonitorView.stats_init
                        [row_at 1000 "red" "green" 0; row_at 3000 "red" "green" 0]) in
      let near := fst (MonitorView.tick MonitorView.stats_init
                         [row_at 1000 "red" "green" 0; row_at 1020 "red" "green" 0]) in
      MonitorView.samples far = 2%Z /\ MonitorView.samples near = 2%Z
      /\ MonitorView.stop_duration_s (MonitorView.stop_figures far) == 2
      /\ MonitorView.stop_duration_s (MonitorView.stop_figures near) == 2 # 100
      /\ MonitorView.stop_thor_red_s (MonitorView.stop_figures far) == 202 # 100
      /\ ~ MonitorView.stop_thor_red_s (MonitorView.stop_figures far)
           <= MonitorView.stop_duration_s (MonitorView.stop_figures far)).
Proof.
  split.
  - do 8 eexists. split; [vm_compute; reflexivity|].
    split; [vm_compute; reflexivity|].
    split; [vm_compute; reflexivity|].
    split; [reflexivity|].
    intro H. vm_compute in H. discriminate H.
  - cbv zeta. repeat split; try reflexivity.
    intro H. vm_compute in H. apply H. reflexivity.
Qed.

(* ===================================================================== *)
(** ** Alerts: streaks and cooldown (monitor view), transitions (recorder) *)
(* ===================================================================== *)

Lemma cd_get_set_same (cd : MonitorView.Cooldown) (k : MonitorView.AlertKey) (v : Z) :
  MonitorView.cd_get (MonitorView.cd_set cd k v) k = v.
Proof. destruct k; reflexivity. Qed.

Lemma cd_get_set_other (cd : MonitorView.Cooldown) (k k' : MonitorView.AlertKey) (v : Z) :
  k' <> k -> MonitorView.cd_get (MonitorView.cd_set cd k v) k' = MonitorView.cd_get cd k'.
Proof. destruct k, k'; intro H; try reflexivity; congruence. Qed.

Lemma AlertKey_eq_dec (k1 k2 : MonitorView.AlertKey) : {k1 = k2} + {k1 <> k2}.
Proof. decide equality. Qed.

Lemma well_spaced_app (l1 l2 : list (MonitorView.AlertKey * Z)) (cd : MonitorView.Cooldown) :
  well_spaced cd l1 -> well_spaced (apply_log cd l1) l2 -> well_spaced cd (l1 ++ l2).
Proof.
  revert cd. induction l1 as [|[k t] l1 IH]; intros cd H1 H2.
  - exact H2.
  - cbn [app well_spaced] in *. destruct H1 as [Hk H1].
    split; [exact Hk | apply IH; assumption].
Qed.

Lemma apply_log_app (l1 l2 : list (MonitorView.AlertKey * Z)) (cd : MonitorView.Cooldown) :
  apply_log cd (l1 ++ l2) = apply_log (apply_log cd l1) l2.
Proof. unfold apply_log. apply fold_left_app. Qed.

Lemma log_inv_refl (st : MonitorView.Stats) : log_inv st st [].
Proof. unfold log_inv. cbn. repeat split. lia. Qed.

Lemma log_inv_trans (st st1 st2 : MonitorView.Stats) (l1 l2 : list (MonitorView.AlertKey * Z)) :
  log_inv st st1 l1 -> log_inv st1 st2 l2 -> log_inv st st2 (l1 ++ l2).
Proof.
  intros (Hw1 & Hc1 & Ha1) (Hw2 & Hc2 & Ha2). unfold log_inv.
  rewrite Hc1 in Hw2, Hc2. repeat split.
  - apply well_spaced_app; assumption.
  - rewrite apply_log_app. exact Hc2.
  - rewrite length_app. lia.
Qed.

(** The lower bound that [well_spaced] gives every alert of the list. *)
Lemma well_spaced_lower (log : list (MonitorView.AlertKey * Z)) (cd : MonitorView.Cooldown) :
  well_spaced cd log ->
  forall k t, In (k, t) log -> (MonitorView.cd_get cd k + 5000 <= t)%Z.
Proof.
  revert cd. induction log as [|[k0 t0] rest IH]; intros cd Hw k t Hin.
  - destruct Hin.
  - cbn [well_spaced] in Hw. destruct Hw as [H0 Hrest].
    unfold MonitorView.cooldown_ms in H0.
    destruct Hin as [E | Hin].
    + injection E as <- <-. exact H0.
    + specialize (IH _ Hrest k t Hin).
      destruct (AlertKey_eq_dec k k0) as [-> | Hne].
      * rewrite cd_get_set_same in IH. lia.
      * rewrite cd_get_set_other in IH by assumption. exact IH.
Qed.

Lemma well_spaced_pairs (log : list (MonitorView.AlertKey * Z)) (cd : MonitorView.Cooldown) :
  well_spaced cd log -> ForallOrdPairs apart log.
Proof.
  revert cd. induction log as [|[k0 t0] rest IH]; intros cd Hw.
  - constructor.
  - cbn [well_spaced] in Hw. destruct Hw as [_ Hrest].
    constructor; [|apply (IH _ Hrest)].
    apply Forall_forall. intros [k t] Hin. unfold apart. cbn [fst snd]. intros <-.
    pose proof (well_spaced_lower rest _ Hrest k0 t Hin) as H.
    rewrite cd_get_set_same in H. exact H.
Qed.

Lemma push_alert_cases (k : MonitorView.AlertKey) (text : string) (now : Z)
    (st : MonitorView.Stats) :
  ((now - MonitorView.cd_get (MonitorView.cooldown st) k < MonitorView.cooldown_ms)%Z
   /\ MonitorView.push_alert k text now st = (st, []))
  \/ ((MonitorView.cd_get (MonitorView.cooldown st) k + MonitorView.cooldown_ms <= now)%Z
      /\ exists st',
           MonitorView.push_alert k text now st = (st', [(k, now)])
           /\ MonitorView.cooldown st' = MonitorView.cd_set (MonitorView.cooldown st) k now
           /\ MonitorView.alerts_count st' = (MonitorView.alerts_count st + 1)%Z
           /\ (forall k', MonitorView.streak_of st' k' = MonitorView.streak_of st k')).
Proof.
  unfold MonitorView.push_alert.
  destruct (now - MonitorView.cd_get (MonitorView.cooldown st) k <? MonitorView.cooldown_ms)%Z
    eqn:E.
  - left. apply Z.ltb_lt in E. split; [exact E | reflexivity].
  - right. apply Z.ltb_ge in E. split; [lia|].
    eexists. split; [reflexivity|]. cbn. repeat split.
Qed.

(** One guarded call of [push_alert]: it emits exactly when [fires] holds,
    and touches neither the streaks nor the other kinds' cooldown. *)
Lemma maybe_alert_spec (k : MonitorView.AlertKey) (now : Z) (st : MonitorView.Stats) :
  let st' := fst (MonitorView.maybe_alert k now st) in
  let log := snd (MonitorView.maybe_alert k now st) in
  log_inv st st' log
  /\ (fires st k now -> log = [(k, now)])
  /\ (~ fires st k now -> log = [] /\ st' = st)
  /\ (forall k', MonitorView.streak_of st' k' = MonitorView.streak_of st k')
  /\ (forall k', k' <> k ->
        MonitorView.cd_get (MonitorView.cooldown st') k'
        = MonitorView.cd_get (MonitorView.cooldown st) k').
Proof.
  unfold MonitorView.maybe_alert, fires.
  case_leb (MonitorView.streak_threshold k) (MonitorView.streak_of st k).
  - destruct (push_alert_cases k (MonitorView.alert_text k) now st)
      as [[Hlt ->] | [Hge (st' & -> & Hcd & Hac & Hst)]]; cbn [fst snd].
    + split; [apply log_inv_refl|].
      split; [intros [_ H]; lia|].
      split; [intros _; split; reflexivity|].
      split; [intros k'; reflexivity | intros k' _; reflexivity].
    + split.
      { unfold log_inv. cbn [well_spaced apply_log fold_left fst snd List.length].
        split; [split; [exact Hge | exact I]|]. split; [exact Hcd | rewrite Hac; lia]. }
      split; [intros _; reflexivity|].
      split; [intro Hn; exfalso; apply Hn; split; assumption|].
      split; [exact Hst|].
      intros k' Hne. rewrite Hcd. apply cd_get_set_other. exact Hne.
  - cbn [fst snd]. split; [apply log_inv_refl|].
    split; [intros [H _]; lra|].
    split; [intros _; split; reflexivity|].
    split; [intros k'; reflexivity | intros k' _; reflexivity].
Qed.

Lemma fires_transfer (st st' : MonitorView.Stats) (k : MonitorView.AlertKey) (now : Z) :
  MonitorView.streak_of st' k = MonitorView.streak_of st k ->
  MonitorView.cd_get (MonitorView.cooldown st') k = MonitorView.cd_get (MonitorView.cooldown st) k ->
  (fires st' k now <-> fires st k now).
Proof. intros Hs Hc. unfold fires. rewrite Hs, Hc. reflexivity. Qed.

(** One sample of the monitor view's loop. *)
Lemma process_row_spec (st : MonitorView.Stats) (r : MonitorView.Row) :
  let st0 := MonitorView.accumulate st r in
  let st' := fst (MonitorView.process_row st r) in
  let log := snd (MonitorView.process_row st r) in
  log_inv st st' log
  /\ (forall k t, In (k, t) log <-> t = MonitorView.ts_ms r /\ fires st0 k (MonitorView.ts_ms r)).
Proof.
  unfold MonitorView.process_row.
  set (st0 := MonitorView.accumulate st r). set (now := MonitorView.ts_ms r).
  destruct (maybe_alert_spec MonitorView.thor now st0) as (Hi1 & Hf1 & Hn1 & Hs1 & Hc1).
  destruct (MonitorView.maybe_alert MonitorView.thor now st0) as [st1 e1]. cbn [fst snd] in *.
  destruct (maybe_alert_spec MonitorView.lum now st1) as (Hi2 & Hf2 & Hn2 & Hs2 & Hc2).
  destruct (MonitorView.maybe_alert MonitorView.lum now st1) as [st2 e2]. cbn [fst snd] in *.
  destruct (maybe_alert_spec MonitorView.comp now st2) as (Hi3 & Hf3 & Hn3 & Hs3 & Hc3).
  destruct (MonitorView.maybe_alert MonitorView.comp now st2) as [st3 e3]. cbn [fst snd] in *.
  cbv zeta. cbn [fst snd]. split.
  - assert (H0 : log_inv st st0 []) by (unfold log_inv; cbn; repeat split; lia).
    apply (log_inv_trans st st0 st3 [] (e1 ++ e2 ++ e3) H0).
    apply (log_inv_trans st0 st1 st3 e1 (e2 ++ e3) Hi1).
    apply (log_inv_trans st1 st2 st3 e2 e3 Hi2 Hi3).
  - assert (F2 : fires st1 MonitorView.lum now <-> fires st0 MonitorView.lum now).
    { apply fires_transfer; [apply Hs1 | apply Hc1; discriminate]. }
    assert (F3 : fires st2 MonitorView.comp now <-> fires st0 MonitorView.comp now).
    { apply fires_transfer.
      - rewrite Hs2. apply Hs1.
      - rewrite Hc2 by discriminate. apply Hc1. discriminate. }
    assert (M : forall (k0 : MonitorView.AlertKey) (s : MonitorView.Stats)
                  (e : list (MonitorView.AlertKey * Z)),
               (fires s k0 now -> e = [(k0, now)]) ->
               (~ fires s k0 now -> e = [] /\ True) ->
               (fires s k0 now \/ ~ fires s k0 now) ->
               forall k t, In (k, t) e <-> k = k0 /\ t = now /\ fires s k0 now).
    { intros k0 s e Hf Hn [Hy | Hno] k t.
      - rewrite (Hf Hy). cbn [In]. split.
        + intros [E | []]. injection E as E1 E2.
          split; [symmetry; exact E1 | split; [symmetry; exact E2 | exact Hy]].
        + intros (-> & -> & _). left; reflexivity.
      - destruct (Hn Hno) as [-> _]. cbn [In]. split; [intros [] | intros (_ & _ & H); contradiction]. }
    assert (D : forall s k0, fires s k0 now \/ ~ fires s k0 now).
    { intros s k0. unfold fires.
      case_leb (MonitorView.streak_threshold k0) (MonitorView.streak_of s k0).
      - destruct (Z_le_gt_dec (MonitorView.cd_get (MonitorView.cooldown s) k0
                               + MonitorView.cooldown_ms) now) as [Hle | Hgt].
        + left. split; assumption.
        + right. intros [_ H]. lia.
      - right. intros [H _]. lra. }
    intros k t. rewrite !in_app_iff.
    rewrite (M MonitorView.thor st0 e1 Hf1 (fun H => conj (proj1 (Hn1 H)) I) (D _ _)).
    rewrite (M MonitorView.lum st1 e2 Hf2 (fun H => conj (proj1 (Hn2 H)) I) (D _ _)).
    rewrite (M MonitorView.comp st2 e3 Hf3 (fun H => conj (proj1 (Hn3 H)) I) (D _ _)).
    rewrite F2, F3. split.
    + intros [(-> & -> & H) | [(-> & -> & H) | (-> & -> & H)]]; split; auto.
    + intros [-> H]. destruct k; [left | right; left | right; right]; auto.
Qed.

(** After a sample the cooldown entry of a kind is the sample's timestamp
    if the kind fired, and is unchanged otherwise. *)
Lemma process_row_cooldown (st : MonitorView.Stats) (r : MonitorView.Row)
    (k : MonitorView.AlertKey) :
  let st' := fst (MonitorView.process_row st r) in
  (fires (MonitorView.accumulate st r) k (MonitorView.ts_ms r) ->
   MonitorView.cd_get (MonitorView.cooldown st') k = MonitorView.ts_ms r)
  /\ (~ fires (MonitorView.accumulate st r) k (MonitorView.ts_ms r) ->
      MonitorView.cd_get (MonitorView.cooldown st') k
      = MonitorView.cd_get (MonitorView.cooldown st) k).
Proof.
  unfold MonitorView.process_row.
  set (st0 := MonitorView.accumulate st r). set (now := MonitorView.ts_ms r).
  assert (C0 : MonitorView.cooldown st0 = MonitorView.cooldown st) by reflexivity.
  destruct (maybe_alert_spec MonitorView.thor now st0) as ((_ & Hk1 & _) & Hf1 & Hn1 & Hs1 & Hc1).
  destruct (MonitorView.maybe_alert MonitorView.thor now st0) as [st1 e1]. cbn [fst snd] in *.
  destruct (maybe_alert_spec MonitorView.lum now st1) as ((_ & Hk2 & _) & Hf2 & Hn2 & Hs2 & Hc2).
  destruct (MonitorView.maybe_alert MonitorView.lum now st1) as [st2 e2]. cbn [fst snd] in *.
  destruct (maybe_alert_spec MonitorView.comp now st2) as ((_ & Hk3 & _) & Hf3 & Hn3 & Hs3 & Hc3).
  destruct (MonitorView.maybe_alert MonitorView.comp now st2) as [st3 e3]. cbn [fst snd] in *.
  assert (F2 : fires st1 MonitorView.lum now <-> fires st0 MonitorView.lum now).
  { apply fires_transfer; [apply Hs1 | apply Hc1; discriminate]. }
  assert (F3 : fires st2 MonitorView.comp now <-> fires st0 MonitorView.comp now).
  { apply fires_transfer.
    - rewrite Hs2. apply Hs1.
    - rewrite Hc2 by discriminate. apply Hc1. discriminate. }
  rewrite <- C0.
  destruct k; split; intro H.
  - rewrite Hc3, Hc2 by discriminate. rewrite Hk1, (Hf1 H).
    cbn [apply_log fold_left fst snd]. apply cd_get_set_same.
  - rewrite Hc3, Hc2 by discriminate. destruct (Hn1 H) as [_ ->]. reflexivity.
  - rewrite Hc3 by discriminate. rewrite Hk2, (Hf2 (proj2 F2 H)).
    cbn [apply_log fold_left fst snd]. rewrite cd_get_set_same. reflexivity.
  - rewrite Hc3 by discriminate.
    destruct (Hn2 (fun X => H (proj1 F2 X))) as [_ ->]. apply Hc1. discriminate.
  - rewrite Hk3, (Hf3 (proj2 F3 H)).
    cbn [apply_log fold_left fst snd]. rewrite cd_get_set_same. reflexivity.
  - destruct (Hn3 (fun X => H (proj1 F3 X))) as [_ ->].
    rewrite Hc2 by discriminate. apply Hc1. discriminate.
Qed.

Lemma process_rows_inv (rows : list MonitorView.Row) (st : MonitorView.Stats) :
  log_inv st (fst (MonitorView.process_rows st rows)) (snd (MonitorView.process_rows st rows)).
Proof.
  revert st. induction rows as [|r rest IH]; intro st.
  - apply log_inv_refl.
  - cbn [MonitorView.process_rows].
    destruct (process_row_spec st r) as [H1 _].
    destruct (MonitorView.process_row st r) as [st1 e1]. cbn [fst snd] in H1.
    specialize (IH st1).
    destruct (MonitorView.process_rows st1 rest) as [st2 e2]. cbn [fst snd] in *.
    apply (log_inv_trans st st1 st2 e1 e2 H1 IH).
Qed.

(** C2, as amended: in the per-sample loop of the monitor view, for each
    of the three alert kinds (thoracic-red streak >= 3 s, lumbar-red
    streak >= 3 s, compensation-high streak >= 2 s) an alert is emitted
    and the alert count incremented exactly when that kind's streak has
    reached its threshold and at least cooldown_ms = 5000 ms separate the
    sample from the kind's last firing (time 0 before the first one);
    hence, for every input stream, two alerts of one kind are always at
    least 5000 ms apart and no kind fires per sample during a sustained
    streak.  The SessionRecorder class has no streak and no cooldown: it
    counts one alert each time a segment enters red from a non-red
    sample. *)
Theorem C2_alert_cooldown (st : MonitorView.Stats) (rows : list MonitorView.Row) :
  let st' := fst (MonitorView.process_rows st rows) in
  let log := snd (MonitorView.process_rows st rows) in
  MonitorView.alerts_count st'
    = (MonitorView.alerts_count st + Z.of_nat (List.length log))%Z
  /\ MonitorView.cooldown st' = apply_log (MonitorView.cooldown st) log
  /\ ForallOrdPairs apart log
  /\ (forall k t, In (k, t) log ->
        (MonitorView.cd_get (MonitorView.cooldown st) k + 5000 <= t)%Z)
  /\ (forall s r k t,
        In (k, t) (snd (MonitorView.process_row s r)) <->
        t = MonitorView.ts_ms r
        /\ MonitorView.streak_threshold k
           <= MonitorView.streak_of (MonitorView.accumulate s r) k
        /\ (MonitorView.cd_get (MonitorView.cooldown s) k + 5000 <= MonitorView.ts_ms r)%Z)
  /\ (forall s r,
        MonitorView.alerts_count (fst (MonitorView.process_row s r))
        = (MonitorView.alerts_count s
           + Z.of_nat (List.length (snd (MonitorView.process_row s r))))%Z)
  /\ (forall s r1 r2 k,
        In (k, MonitorView.ts_ms r1) (snd (MonitorView.process_row s r1)) ->
        (MonitorView.ts_ms r2 < MonitorView.ts_ms r1 + 5000)%Z ->
        ~ In (k, MonitorView.ts_ms r2)
             (snd (MonitorView.process_row (fst (MonitorView.process_row s r1)) r2)))
  /\ (forall sid now r s,
        SessionRecorder._alerts (SessionRecorder.record_sample sid now r s)
        = (SessionRecorder._alerts r
           + (if SessionRecorder.last_not_red (SessionRecorder._last_thor_zone r)
                 && thor_is_red (SessionRecorder.cfg r) s then 1 else 0)
           + (if SessionRecorder.last_not_red (SessionRecorder._last_lum_zone r)
                 && lum_is_red (SessionRecorder.cfg r) s then 1 else 0))%Z).
Proof.
  intros st' log. subst st' log.
  destruct (process_rows_inv rows st) as (Hw & Hc & Ha).
  split; [exact Ha|].
  split; [exact Hc|].
  split; [apply (well_spaced_pairs _ _ Hw)|].
  split; [apply (well_spaced_lower _ _ Hw)|].
  split; [|split; [|split]].
  - intros s r k t. apply (proj2 (process_row_spec s r) k t).
  - intros s r. destruct (process_row_spec s r) as [(_ & _ & Ha1) _]. exact Ha1.
  - intros s r1 r2 k H1 Hlt H2.
    apply (proj2 (process_row_spec s r1) k _) in H1. destruct H1 as [_ H1].
    apply (proj1 (process_row_cooldown s r1 k)) in H1.
    apply (proj2 (process_row_spec _ r2) k _) in H2.
    destruct H2 as (_ & _ & H2). cbn [MonitorView.accumulate MonitorView.cooldown] in H2.
    unfold MonitorView.cooldown_ms in H2. lia.
  - intros sid now r s. apply record_sample_counters.
Qed.

(** Twenty seconds of thoracic red at 50 Hz: the alert fires when the
    streak reaches 3 s and then every 5000 ms, four times in all. *)
Example red_stream_twenty_seconds :
  snd (MonitorView.process_rows MonitorView.stats_init (red_stream 1700000000000 1000))
  = [(MonitorView.thor, 1700000002980%Z); (MonitorView.thor, 1700000007980%Z);
     (MonitorView.thor, 1700000012980%Z); (MonitorView.thor, 1700000017980%Z)].
Proof. vm_compute. reflexivity. Qed.

Lemma C2_alert_cooldown_witness :
  ForallOrdPairs apart
    (snd (MonitorView.process_rows MonitorView.stats_init (red_stream 1700000000000 200))).
Proof.
  apply (C2_alert_cooldown MonitorView.stats_init (red_stream 1700000000000 200)).
Defined.

(** C2 as stated fails for SessionRecorder.append_samples_batch: on a
    thoracic zone that flickers for 160 ms it counts four alerts, more
    than one per kind, although no streak ever reaches 3 s and all samples
    lie within one 5000 ms window; the monitor view's loop counts none on
    the same stream. *)
Lemma C2_counterexample :
  (exists r' w',
     SessionRecorder.append_samples_batch (fst demo_started) (snd demo_started) flicker
       = ok (r', w')
     /\ SessionRecorder._alerts (fst demo_started) = 0%Z
     /\ SessionRecorder._alerts r' = 4%Z
     /\ ~ (SessionRecorder._alerts r' <= 3)%Z)
  /\ (1700000000160 - 1700000000020 < MonitorView.cooldown_ms)%Z
  /\ MonitorView.alerts_count (fst (MonitorView.process_rows MonitorView.stats_init flicker_rows))
     = 0%Z.
Proof.
  split; [|split].
  - eexists _, _. split; [vm_compute; reflexivity|].
    split; [reflexivity|]. split; [reflexivity|].
    intro H. vm_compute in H. apply H. reflexivity.
  - reflexivity.
  - vm_compute. reflexivity.
Qed.

(* ===================================================================== *)
(** ** Posture engine: further properties *)
(* ===================================================================== *)

(** X1: the classifier is monotone in the magnitudes: if both abs(pitch)
    and abs(roll) do not decrease, the zone does not become less severe
    (green < yellow < red), for any thresholds. *)
Theorem X1_zone_monotone (p1 r1 p2 r2 : Q) (th : PostureEngine.Thresholds) :
  Qabs p1 <= Qabs p2 -> Qabs r1 <= Qabs r2 ->
  (zone_rank (PostureEngine._zone_from_abs p1 r1 th)
   <= zone_rank (PostureEngine._zone_from_abs p2 r2 th))%Z.
Proof.
  intros Hp Hr. unfold PostureEngine._zone_from_abs.
  case_leb (Qabs p2) (PostureEngine.pitch_g th);
    case_leb (Qabs r2) (PostureEngine.roll_g th); cbn [andb].
  - assert (H1 : Py.leb (Qabs p1) (PostureEngine.pitch_g th) = true) by (apply leb_true; lra).
    assert (H2 : Py.leb (Qabs r1) (PostureEngine.roll_g th) = true) by (apply leb_true; lra).
    rewrite H1, H2. cbn. lia.
  - case_leb (Qabs p2) (PostureEngine.pitch_y th);
      case_leb (Qabs r2) (PostureEngine.roll_y th); cbn [andb].
    + assert (H1 : Py.leb (Qabs p1) (PostureEngine.pitch_y th) = true) by (apply leb_true; lra).
      assert (H2 : Py.leb (Qabs r1) (PostureEngine.roll_y th) = true) by (apply leb_true; lra).
      rewrite H1, H2.
      destruct (Py.leb (Qabs p1) (PostureEngine.pitch_g th) && Py.leb (Qabs r1) (PostureEngine.roll_g th));
        cbn; lia.
    + repeat match goal with |- context [if ?b then _ else _] => destruct b end; cbn; lia.
    + repeat match goal with |- context [if ?b then _ else _] => destruct b end; cbn; lia.
    + repeat match goal with |- context [if ?b then _ else _] => destruct b end; cbn; lia.
  - case_leb (Qabs p2) (PostureEngine.pitch_y th);
      case_leb (Qabs r2) (PostureEngine.roll_y th); cbn [andb].
    + assert (H1 : Py.leb (Qabs p1) (PostureEngine.pitch_y th) = true) by (apply leb_true; lra).
      assert (H2 : Py.leb (Qabs r1) (PostureEngine.roll_y th) = true) by (apply leb_true; lra).
      rewrite H1, H2.
      destruct (Py.leb (Qabs p1) (PostureEngine.pitch_g th) && Py.leb (Qabs r1) (PostureEngine.roll_g th));
        cbn; lia.
    + repeat match goal with |- context [if ?b then _ else _] => destruct b end; cbn; lia.
    + repeat match goal with |- context [if ?b then _ else _] => destruct b end; cbn; lia.
    + repeat match goal with |- context [if ?b then _ else _] => destruct b end; cbn; lia.
  - case_leb (Qabs p2) (PostureEngine.pitch_y th);
      case_leb (Qabs r2) (PostureEngine.roll_y th); cbn [andb].
    + assert (H1 : Py.leb (Qabs p1) (PostureEngine.pitch_y th) = true) by (apply leb_true; lra).
      assert (H2 : Py.leb (Qabs r1) (PostureEngine.roll_y th) = true) by (apply leb_true; lra).
      rewrite H1, H2.
      destruct (Py.leb (Qabs p1) (PostureEngine.pitch_g th) && Py.leb (Qabs r1) (PostureEngine.roll_g th));
        cbn; lia.
    + repeat match goal with |- context [if ?b then _ else _] => destruct b end; cbn; lia.
    + repeat match goal with |- context [if ?b then _ else _] => destruct b end; cbn; lia.
    + repeat match goal with |- context [if ?b then _ else _] => destruct b end; cbn; lia.
Qed.

(** Leaning further forward at a fixed roll, on the desk thresholds. *)
Lemma X1_zone_monotone_witness :
  (zone_rank (PostureEngine._zone_from_abs 9 0 (PostureEngine.thor PostureEngine.desk_thresholds))
   <= zone_rank (PostureEngine._zone_from_abs (-16) 0
                   (PostureEngine.thor PostureEngine.desk_thresholds)))%Z.
Proof.
  apply (X1_zone_monotone 9 0 (-16) 0 (PostureEngine.thor PostureEngine.desk_thresholds)).
  - unfold Qle; simpl; lia.
  - unfold Qle; simpl; lia.
Defined.

Lemma thresholds_cases (mode : string) :
  PostureEngine.thresholds mode = PostureEngine.desk_thresholds
  \/ PostureEngine.thresholds mode = PostureEngine.train_thresholds.
Proof.
  unfold PostureEngine.thresholds, PostureEngine.DEFAULT_THRESHOLDS.
  destruct (String.eqb _ "desk"); [left; reflexivity|].
  destruct (String.eqb _ "train"); [right | left]; reflexivity.
Qed.

(** X2: whatever the mode string, the table that the engine selects is
    one of the two default tables, and both of its threshold sets have
    positive green bounds below the yellow bounds; so a sample at rest
    (all angles 0) is annotated green on both segments in every mode. *)
Theorem X2_engine_thresholds_valid (mode : string) :
  thresholds_valid (PostureEngine.thor (PostureEngine.thresholds mode))
  /\ thresholds_valid (PostureEngine.lum (PostureEngine.thresholds mode))
  /\ forall e ts yaw_t yaw_l,
       let s := snd (PostureEngine.annotate e ts (PostureEngine.mkSegmentAngles 0 0 yaw_t)
                       (PostureEngine.mkSegmentAngles 0 0 yaw_l) mode) in
       PostureEngine.thor_zone s = "green"%string
       /\ PostureEngine.lum_zone s = "green"%string.
Proof.
  destruct (thresholds_cases mode) as [E | E].
  - split; [|split].
    + rewrite E. unfold thresholds_valid; cbn. repeat split; unfold Qle, Qlt; simpl; lia.
    + rewrite E. unfold thresholds_valid; cbn. repeat split; unfold Qle, Qlt; simpl; lia.
    + intros e ts yt yl. unfold PostureEngine.annotate. cbn [snd PostureEngine.thor_zone
        PostureEngine.lum_zone PostureEngine.pitch PostureEngine.roll]. rewrite E.
      split; reflexivity.
  - split; [|split].
    + rewrite E. unfold thresholds_valid; cbn. repeat split; unfold Qle, Qlt; simpl; lia.
    + rewrite E. unfold thresholds_valid; cbn. repeat split; unfold Qle, Qlt; simpl; lia.
    + intros e ts yt yl. unfold PostureEngine.annotate. cbn [snd PostureEngine.thor_zone
        PostureEngine.lum_zone PostureEngine.pitch PostureEngine.roll]. rewrite E.
      split; reflexivity.
Qed.

Lemma last_n_snoc {A} (m : nat) (l : list A) (x : A) :
  Py.deque_append m (last_n m l) x = last_n m (l ++ [x]).
Proof.
  unfold Py.deque_append, last_n.
  rewrite !length_app, length_skipn. cbn [List.length].
  set (n := List.length l).
  destruct (Nat.le_gt_cases n m) as [Hle | Hgt].
  - replace (n - m)%nat with 0%nat by lia. cbn [skipn].
    f_equal. lia.
  - destruct m as [|m].
    + rewrite !skipn_all2; [reflexivity | |].
      * rewrite length_app. cbn [List.length]. fold n. lia.
      * rewrite length_app, length_skipn. cbn [List.length]. fold n. lia.
    + rewrite (skipn_app (n + 1 - S m)).
      replace (n + 1 - S m - List.length l)%nat with 0%nat by (fold n; lia).
      cbn [skipn].
      rewrite skipn_app, length_skipn, skipn_skipn. fold n.
      replace (n - (n - S m) + 1 - S m + (n - S m))%nat with (n + 1 - S m)%nat by lia.
      replace (n - (n - S m) + 1 - S m - (n - (n - S m)))%nat with 0%nat by lia.
      reflexivity.
Qed.

Lemma last_n_length {A} (m : nat) (l : list A) :
  List.length (last_n m l) = Nat.min m (List.length l).
Proof. unfold last_n. rewrite length_skipn. lia. Qed.

Lemma annotate_settings (e : PostureEngine.t) (ts : Z)
    (ta la : PostureEngine.SegmentAngles) (mode : string) :
  let e' := fst (PostureEngine.annotate e ts ta la mode) in
  PostureEngine.sample_rate_hz e' = PostureEngine.sample_rate_hz e
  /\ PostureEngine.comp_window_s e' = PostureEngine.comp_window_s e
  /\ PostureEngine.comp_scale_deg e' = PostureEngine.comp_scale_deg e
  /\ PostureEngine.comp_maxlen e' = PostureEngine.comp_maxlen e.
Proof. repeat split. Qed.

Lemma annotate_all_window (inputs : list (Z * PostureEngine.SegmentAngles * PostureEngine.SegmentAngles))
    (e : PostureEngine.t) (mode : string) (hist : list Q) :
  PostureEngine._comp_buf e = last_n (PostureEngine.comp_maxlen e) hist ->
  let e' := fst (PostureEngine.annotate_all e mode inputs) in
  PostureEngine._comp_buf e' = last_n (PostureEngine.comp_maxlen e) (hist ++ raw_values e inputs)
  /\ PostureEngine.comp_scale_deg e' = PostureEngine.comp_scale_deg e
  /\ PostureEngine.comp_maxlen e' = PostureEngine.comp_maxlen e.
Proof.
  revert e hist. induction inputs as [|[[ts ta] la] rest IH]; intros e hist Hbuf.
  - cbn. rewrite app_nil_r. repeat split. exact Hbuf.
  - cbn [PostureEngine.annotate_all].
    destruct (PostureEngine.annotate e ts ta la mode) as [e1 s] eqn:E1.
    assert (Hb1 : PostureEngine._comp_buf e1
                  = last_n (PostureEngine.comp_maxlen e1)
                      (hist ++ [PostureEngine.comp_raw e ta la])
                  /\ PostureEngine.comp_scale_deg e1 = PostureEngine.comp_scale_deg e
                  /\ PostureEngine.comp_maxlen e1 = PostureEngine.comp_maxlen e).
    { unfold PostureEngine.annotate in E1. injection E1 as <- _.
      cbn [PostureEngine._comp_buf PostureEngine.comp_scale_deg PostureEngine.comp_maxlen].
      rewrite Hbuf, last_n_snoc. repeat split. }
    destruct Hb1 as (Hb1 & Hs1 & Hm1).
    specialize (IH e1 _ Hb1).
    destruct (PostureEngine.annotate_all e1 mode rest) as [e2 ss]. cbn [fst] in *.
    destruct IH as (IHb & IHs & IHm).
    rewrite IHb, IHs, IHm, Hm1, Hs1. repeat split.
    unfold raw_values. cbn [map fst snd]. rewrite <- app_assoc. cbn [app].
    f_equal. f_equal. f_equal.
    apply map_ext. intros [[ts' ta'] la']. cbn [fst snd].
    unfold PostureEngine.comp_raw. rewrite Hs1. reflexivity.
Qed.

(** X3: the compensation window is a bounded FIFO: after any run of
    [annotate] on a new engine it holds exactly the last comp_maxlen raw
    values, oldest first (comp_maxlen = max(1, round(rate * window))), so
    it never grows beyond comp_maxlen; and the comp_index returned with a
    sample is the mean of the window that includes that sample. *)
Theorem X3_comp_window_fifo (rate window scale : Q) (mode : string)
    (inputs : list (Z * PostureEngine.SegmentAngles * PostureEngine.SegmentAngles)) :
  let e0 := PostureEngine.init rate window scale in
  let e := fst (PostureEngine.annotate_all e0 mode inputs) in
  PostureEngine._comp_buf e = last_n (PostureEngine.comp_maxlen e0) (raw_values e0 inputs)
  /\ List.length (PostureEngine._comp_buf e)
     = Nat.min (PostureEngine.comp_maxlen e0) (List.length inputs)
  /\ (1 <= PostureEngine.comp_maxlen e0)%nat
  /\ forall ts ta la,
       PostureEngine.comp_index (snd (PostureEngine.annotate e ts ta la mode))
       == Spec.mean (last_n (PostureEngine.comp_maxlen e0)
                       (raw_values e0 (inputs ++ [(ts, ta, la)]))).
Proof.
  intros e0 e.
  destruct (annotate_all_window inputs e0 mode [] eq_refl) as (Hb & Hs & Hm).
  cbn [app] in Hb. fold e in Hb, Hs, Hm.
  split; [exact Hb|]. split.
  { rewrite Hb, last_n_length. unfold raw_values. rewrite length_map. reflexivity. }
  split; [apply init_maxlen_pos|].
  intros ts ta la.
  unfold PostureEngine.annotate. cbn [snd PostureEngine.comp_index].
  rewrite Hb, Hm, last_n_snoc.
  assert (Hr : raw_values e0 inputs ++ [PostureEngine.comp_raw e ta la]
               = raw_values e0 (inputs ++ [(ts, ta, la)])).
  { unfold raw_values. rewrite map_app. cbn [map fst snd].
    unfold PostureEngine.comp_raw. rewrite Hs. reflexivity. }
  rewrite Hr.
  set (win := last_n _ _).
  assert (Hlen : (1 <= List.length win)%nat).
  { subst win. rewrite last_n_length. unfold raw_values. rewrite length_map, length_app.
    cbn [List.length]. pose proof (init_maxlen_pos rate window scale). fold e0 in H. lia. }
  unfold Spec.mean, Py.len, Py.float. rewrite Z.max_l by lia.
  rewrite py_sum_total. reflexivity.
Qed.

Lemma pe_clamp_mono (x y lo hi : Q) :
  lo <= hi -> x <= y -> PostureEngine._clamp x lo hi <= PostureEngine._clamp y lo hi.
Proof.
  intros H Hxy. unfold PostureEngine._clamp.
  case_ltb x lo; case_ltb y lo; try lra; case_ltb hi y; try lra; case_ltb hi x; lra.
Qed.

Lemma div_mono (x y d : Q) : 0 < d -> x <= y -> x / d <= y / d.
Proof.
  intros Hd Hxy. unfold Qdiv. apply Qmult_le_compat_r; [exact Hxy|].
  apply Qlt_le_weak. apply Qinv_lt_0_compat. exact Hd.
Qed.

Lemma clamp_fraction_low (x d : Q) :
  0 < d -> x <= 0 -> PostureEngine._clamp (x / d) 0 1 == 0.
Proof.
  intros Hd Hx. pose proof (div_mono x 0 d Hd Hx) as H.
  assert (H0 : 0 / d == 0) by (field; lra). rewrite H0 in H.
  unfold PostureEngine._clamp.
  case_ltb (x / d) 0; [reflexivity|]. case_ltb 1 (x / d); lra.
Qed.

Lemma clamp_fraction_high (x d : Q) :
  0 < d -> d <= x -> PostureEngine._clamp (x / d) 0 1 == 1.
Proof.
  intros Hd Hx. pose proof (div_mono d x d Hd Hx) as H.
  assert (H1 : d / d == 1) by (field; lra). rewrite H1 in H.
  unfold PostureEngine._clamp.
  case_ltb (x / d) 0; [lra|]. case_ltb 1 (x / d); [reflexivity | lra].
Qed.

(** X4: the risk index never decreases when the thoracic red time, the
    lumbar red time or the average compensation increases at a fixed
    duration; it is 0 when none of the three is positive and 100 when both
    red times reach the (floored) duration and the compensation reaches
    100. *)
Theorem X4_risk_index_monotone (d t1 t2 l1 l2 c1 c2 : Q) :
  t1 <= t2 -> l1 <= l2 -> c1 <= c2 ->
  PostureEngine.compute_risk_index d t1 l1 c1 <= PostureEngine.compute_risk_index d t2 l2 c2
  /\ (t2 <= 0 -> l2 <= 0 -> c2 <= 0 -> PostureEngine.compute_risk_index d t2 l2 c2 == 0)
  /\ (Py.max d (1 # 1000000) <= t1 -> Py.max d (1 # 1000000) <= l1 -> 100 <= c1 ->
      PostureEngine.compute_risk_index d t1 l1 c1 == 100).
Proof.
  intros Ht Hl Hc.
  unfold PostureEngine.compute_risk_index.
  set (dur := Py.max d (1 # 1000000)).
  assert (Hdur : 0 < dur) by apply py_max_pos.
  pose proof (pe_clamp_mono (t1 / dur) (t2 / dur) 0 1 ltac:(lra) (div_mono _ _ _ Hdur Ht)) as Mt.
  pose proof (pe_clamp_mono (l1 / dur) (l2 / dur) 0 1 ltac:(lra) (div_mono _ _ _ Hdur Hl)) as Ml.
  pose proof (pe_clamp_mono (c1 / 100) (c2 / 100) 0 1 ltac:(lra)
                (div_mono _ _ 100 ltac:(lra) Hc)) as Mc.
  split; [|split].
  - apply pe_clamp_mono; lra.
  - intros Ht0 Hl0 Hc0.
    pose proof (clamp_fraction_low t2 dur Hdur Ht0) as Et.
    pose proof (clamp_fraction_low l2 dur Hdur Hl0) as El.
    pose proof (clamp_fraction_low c2 100 ltac:(lra) Hc0) as Ec.
    set (tp := PostureEngine._clamp (t2 / dur) 0 1) in *.
    set (lp := PostureEngine._clamp (l2 / dur) 0 1) in *.
    set (cp := PostureEngine._clamp (c2 / 100) 0 1) in *.
    rewrite pe_clamp_id by lra. lra.
  - intros Ht1 Hl1 Hc1.
    pose proof (clamp_fraction_high t1 dur Hdur Ht1) as Et.
    pose proof (clamp_fraction_high l1 dur Hdur Hl1) as El.
    pose proof (clamp_fraction_high c1 100 ltac:(lra) Hc1) as Ec.
    set (tp := PostureEngine._clamp (t1 / dur) 0 1) in *.
    set (lp := PostureEngine._clamp (l1 / dur) 0 1) in *.
    set (cp := PostureEngine._clamp (c1 / 100) 0 1) in *.
    rewrite pe_clamp_id by lra. lra.
Qed.

(** More lumbar red at the same duration. *)
Lemma X4_risk_index_monotone_witness :
  PostureEngine.compute_risk_index 10 2 1 30 <= PostureEngine.compute_risk_index 10 2 4 30.
Proof.
  apply (X4_risk_index_monotone 10 2 2 1 4 30 30); unfold Qle; simpl; lia.
Defined.

(* ===================================================================== *)
(** ** Clock sync and aligner: further properties *)
(* ===================================================================== *)

Lemma update_window (s s' : ClockSync.LinearClockSync) (imu host : Q) (p : ClockSync.SyncParams) :
  ClockSync.update s imu host = ok (s', p) ->
  ClockSync._pts s' = Py.deque_append (ClockSync.max_points s) (ClockSync._pts s) (imu, host)
  /\ ClockSync.max_points s' = ClockSync.max_points s
  /\ ClockSync._min_points s' = ClockSync._min_points s.
Proof.
  unfold ClockSync.update.
  set (pts := Py.deque_append (ClockSync.max_points s) (ClockSync._pts s) (imu, host)).
  destruct (Py.len pts <? ClockSync._min_points s)%Z.
  - destruct (Py.last_item pts) as [[li lh]|]; [|discriminate].
    intro H. injection H as <- _. repeat split.
  - destruct (Py.len pts =? 0)%Z; [discriminate|].
    destruct (ClockSync.degenerate pts); intro H; injection H as <- _; repeat split.
Qed.

Lemma update_all_window (pairs : list (Q * Q)) (s s' : ClockSync.LinearClockSync)
    (ps : list ClockSync.SyncParams) (hist : list (Q * Q)) :
  ClockSync._pts s = last_n (ClockSync.max_points s) hist ->
  ClockSync.update_all s pairs = ok (s', ps) ->
  ClockSync._pts s' = last_n (ClockSync.max_points s) (hist ++ pairs)
  /\ ClockSync.max_points s' = ClockSync.max_points s
  /\ List.length ps = List.length pairs.
Proof.
  revert s hist ps. induction pairs as [|[i h] rest IH]; intros s hist ps Hh.
  - cbn. intro H. injection H as <- <-. rewrite app_nil_r. repeat split. exact Hh.
  - cbn [ClockSync.update_all].
    destruct (ClockSync.update s i h) as [e | [s1 p]] eqn:Hu; [discriminate|].
    cbn [bind].
    destruct (ClockSync.update_all s1 rest) as [e | [s2 ps2]] eqn:Hall; [discriminate|].
    cbn [bind ok]. intro H. injection H as <- <-.
    destruct (update_window _ _ _ _ _ Hu) as (Hp1 & Hm1 & _).
    rewrite Hh, last_n_snoc, <- Hm1 in Hp1.
    destruct (IH s1 _ ps2 Hp1 Hall) as (Hp2 & Hm2 & Hl2).
    rewrite <- app_assoc in Hp2. cbn [app] in Hp2.
    rewrite Hm1 in Hp2, Hm2. cbn [List.length]. repeat split; congruence.
Qed.

(** X5: the estimator's window is a bounded FIFO: after any successful
    sequence of [update] calls on a new estimator it holds exactly the
    last max_points pairs, oldest first, and one parameter set was
    returned per call. *)
Theorem X5_sync_window_fifo (max_pts : nat) (min_pts : Z) (pairs : list (Q * Q))
    (s : ClockSync.LinearClockSync) (ps : list ClockSync.SyncParams) :
  ClockSync.update_all (ClockSync.init max_pts min_pts) pairs = ok (s, ps) ->
  ClockSync._pts s = last_n max_pts pairs
  /\ (List.length (ClockSync._pts s) <= max_pts)%nat
  /\ List.length ps = List.length pairs.
Proof.
  intro H.
  destruct (update_all_window pairs (ClockSync.init max_pts min_pts) s ps [] eq_refl H)
    as (Hp & _ & Hl).
  cbn [app ClockSync.init ClockSync.max_points] in Hp.
  split; [exact Hp|]. split; [|exact Hl].
  rewrite Hp, last_n_length. lia.
Qed.

(** A window of capacity 2 keeps the last two of three pairs. *)
Lemma X5_sync_window_fifo_witness :
  exists s ps,
    ClockSync.update_all (ClockSync.init 2 1) [(0, 5); (10, 15); (20, 26)] = ok (s, ps)
    /\ ClockSync._pts s = [(10, 15); (20, 26)].
Proof.
  destruct (ClockSync.update_all (ClockSync.init 2 1) [(0, 5); (10, 15); (20, 26)])
    as [e | [s ps]] eqn:E; [vm_compute in E; discriminate E|].
  exists s, ps. split; [reflexivity|].
  apply (X5_sync_window_fifo 2 1 [(0, 5); (10, 15); (20, 26)] s ps E).
Defined.













Lemma pick_later {T} (max_age : Z) (t t' : Q) (last : option (Q * Q * T)) :
  t <= t' ->
  ClockSync._pick max_age t last = None -> ClockSync._pick max_age t' last = None.
Proof.
  intros Ht. unfold ClockSync._pick. destruct last as [[[ht it] pl]|]; [|reflexivity].
  case_ltb (Py.float max_age) (t - ht); [|discriminate].
  intros _. case_ltb (Py.float max_age) (t' - ht); [reflexivity | lra].
Qed.

Lemma pick_earlier {T} (max_age : Z) (t t' : Q) (last : option (Q * Q * T)) (r : T * Q) :
  t' <= t ->
  ClockSync._pick max_age t last = Some r -> ClockSync._pick max_age t' last = Some r.
Proof.
  intros Ht. unfold ClockSync._pick. destruct last as [[[ht it] pl]|]; [|discriminate].
  case_ltb (Py.float max_age) (t - ht); [discriminate|].
  intro H. case_ltb (Py.float max_age) (t' - ht); [lra | exact H].
Qed.

(** X9: staleness only grows with the query time.  If [fused_at] returns
    None at time t it returns None at every later time (until a new push),
    and a fusion obtained at t is obtained unchanged at every earlier
    query time, even one before the samples' host timestamps. *)
Theorem X9_fused_at_time_monotone {T : Type} (al : ClockSync.DualStreamAligner T) (t t' : Q) :
  t <= t' ->
  (ClockSync.fused_at al t = None -> ClockSync.fused_at al t' = None)
  /\ (forall r, ClockSync.fused_at al t' = Some r -> ClockSync.fused_at al t = Some r).
Proof.
  intro Ht. unfold ClockSync.fused_at. split.
  - destruct (ClockSync._pick (ClockSync.max_age_ms al) t (ClockSync._last_A al)) as [pa|] eqn:EA.
    + destruct (ClockSync._pick (ClockSync.max_age_ms al) t (ClockSync._last_B al)) as [pb|] eqn:EB;
        [discriminate|].
      intros _. rewrite (pick_later _ t t' _ Ht EB).
      destruct (ClockSync._pick (ClockSync.max_age_ms al) t' (ClockSync._last_A al)); reflexivity.
    + intros _. rewrite (pick_later _ t t' _ Ht EA). reflexivity.
  - intro r.
    destruct (ClockSync._pick (ClockSync.max_age_ms al) t' (ClockSync._last_A al)) as [pa|] eqn:EA;
      [|discriminate].
    destruct (ClockSync._pick (ClockSync.max_age_ms al) t' (ClockSync._last_B al)) as [pb|] eqn:EB;
      [|discriminate].
    rewrite (pick_earlier _ t' t _ pa Ht EA), (pick_earlier _ t' t _ pb Ht EB).
    intro H. exact H.
Qed.

(** A pair fused at 1250 is fused the same at 900, before both pushes. *)
Lemma X9_fused_at_time_monotone_witness :
  ClockSync.fused_at
    (ClockSync.push_B (ClockSync.push_A (ClockSync.aligner_init 250) 1000 900 "a"%string)
                      1200 1100 "b"%string)
    900
  = Some ("a"%string, "b"%string, 900%Z, 1100%Z).
Proof.
  apply (proj2 (X9_fused_at_time_monotone
                  (ClockSync.push_B (ClockSync.push_A (ClockSync.aligner_init 250) 1000 900 "a"%string)
                                    1200 1100 "b"%string) 900 1250
                  ltac:(unfold Qle; simpl; lia))).
  reflexivity.
Defined.

Lemma push_all_snoc {T} (al : ClockSync.DualStreamAligner T) (pushes : list (Push T)) (p : Push T) :
  push_all al (pushes ++ [p])
  = match p with
    | (dev_A, (h, i, pl)) => ClockSync.push_A (push_all al pushes) h i pl
    | (dev_B, (h, i, pl)) => ClockSync.push_B (push_all al pushes) h i pl
    end.
Proof. unfold push_all. rewrite fold_left_app. reflexivity. Qed.

Lemma last_push_snoc {T} (d : Device) (pushes : list (Push T)) (p : Push T) :
  last_push d (pushes ++ [p])
  = if is_dev d p then Some (snd p) else last_push d pushes.
Proof.
  unfold last_push. rewrite filter_app. cbn [filter].
  destruct (is_dev d p).
  - rewrite rev_app_distr. reflexivity.
  - rewrite app_nil_r. reflexivity.
Qed.

(** X10: the aligner is a sample-and-hold and not a queue: after any
    sequence of pushes each device holds exactly its most recent push (or
    what it held before, if it was not pushed), the age bound is
    unchanged, and so [fused_at] depends only on the last push of each
    device. *)
Theorem X10_aligner_holds_last_push {T : Type} (al : ClockSync.DualStreamAligner T)
    (pushes : list (Push T)) :
  let al' := push_all al pushes in
  ClockSync.max_age_ms al' = ClockSync.max_age_ms al
  /\ ClockSync._last_A al'
     = match last_push dev_A pushes with Some p => Some p | None => ClockSync._last_A al end
  /\ ClockSync._last_B al'
     = match last_push dev_B pushes with Some p => Some p | None => ClockSync._last_B al end
  /\ forall hA iA pA hB iB pB t,
       last_push dev_A pushes = Some (hA, iA, pA) ->
       last_push dev_B pushes = Some (hB, iB, pB) ->
       ClockSync.fused_at al' t
       = ClockSync.fused_at
           (ClockSync.push_B (ClockSync.push_A al hA iA pA) hB iB pB) t.
Proof.
  assert (H : ClockSync.max_age_ms (push_all al pushes) = ClockSync.max_age_ms al
    /\ ClockSync._last_A (push_all al pushes)
       = match last_push dev_A pushes with Some p => Some p | None => ClockSync._last_A al end
    /\ ClockSync._last_B (push_all al pushes)
       = match last_push dev_B pushes with Some p => Some p | None => ClockSync._last_B al end).
  { induction pushes as [|p pushes IH] using rev_ind.
    - repeat split.
    - destruct IH as (Hm & HA & HB).
      rewrite push_all_snoc, !last_push_snoc.
      destruct p as [[|] [[h i] pl]]; cbn [is_dev fst snd ClockSync.push_A ClockSync.push_B
        ClockSync.max_age_ms ClockSync._last_A ClockSync._last_B];
        repeat split; assumption. }
  destruct H as (Hm & HA & HB). cbv zeta.
  split; [exact Hm|]. split; [exact HA|]. split; [exact HB|].
  intros hA iA pA hB iB pB t EA EB.
  unfold ClockSync.fused_at. rewrite Hm, HA, HB, EA, EB. reflexivity.
Qed.

(** Three pushes: the second push on A replaces the first. *)
Lemma X10_aligner_holds_last_push_witness :
  ClockSync.fused_at
    (push_all (ClockSync.aligner_init 250)
       [(dev_A, (1000, 900, "a1"%string)); (dev_B, (1100, 1000, "b1"%string));
        (dev_A, (1200, 1100, "a2"%string))])
    1250
  = Some ("a2"%string, "b1"%string, 1100%Z, 1000%Z).
Proof.
  rewrite (proj2 (proj2 (proj2 (X10_aligner_holds_last_push (ClockSync.aligner_init 250)
             [(dev_A, (1000, 900, "a1"%string)); (dev_B, (1100, 1000, "b1"%string));
              (dev_A, (1200, 1100, "a2"%string))])))
           1200 1100 "a2"%string 1100 1000 "b1"%string 1250 eq_refl eq_refl).
  reflexivity.
Defined.

(* ===================================================================== *)
(** ** Storage: further properties *)
(* ===================================================================== *)

Lemma upsert_summary_row_find (row : Db.SessionSummary) (rows : list Db.SessionSummary) (sid : Z) :
  find (fun r => (Db.session_id r =? sid)%Z) (Db.upsert_summary_row row rows)
  = if (Db.session_id row =? sid)%Z then Some row
    else find (fun r => (Db.session_id r =? sid)%Z) rows.
Proof.
  induction rows as [|r rest IH]; cbn [Db.upsert_summary_row find].
  - destruct (Db.session_id row =? sid)%Z; reflexivity.
  - destruct (Db.session_id r =? Db.session_id row)%Z eqn:E; cbn [find].
    + apply Z.eqb_eq in E. rewrite E.
      destruct (Db.session_id row =? sid)%Z; reflexivity.
    + rewrite IH.
      destruct (Db.session_id r =? sid)%Z eqn:E1; [|reflexivity].
      destruct (Db.session_id row =? sid)%Z eqn:E2; [|reflexivity].
      apply Z.eqb_eq in E1, E2. apply Z.eqb_neq in E. congruence.
Qed.

Lemma upsert_summary_row_ids (row : Db.SessionSummary) (rows : list Db.SessionSummary) :
  (In (Db.session_id row) (map Db.session_id rows) ->
   map Db.session_id (Db.upsert_summary_row row rows) = map Db.session_id rows)
  /\ (~ In (Db.session_id row) (map Db.session_id rows) ->
      Db.upsert_summary_row row rows = rows ++ [row]).
Proof.
  induction rows as [|r rest [IH1 IH2]]; cbn [Db.upsert_summary_row map In].
  - split; [intros [] | reflexivity].
  - destruct (Db.session_id r =? Db.session_id row)%Z eqn:E.
    + apply Z.eqb_eq in E. split.
      * intros _. cbn [map]. rewrite E. reflexivity.
      * intro H. exfalso. apply H. left. exact E.
    + apply Z.eqb_neq in E. split.
      * intros [H | H]; [congruence|]. cbn [map]. rewrite (IH1 H). reflexivity.
      * intro H. cbn [app]. rewrite IH2; [reflexivity|]. intro H'. apply H. right. exact H'.
Qed.

Lemma upsert_summary_row_idem (row : Db.SessionSummary) (rows : list Db.SessionSummary) :
  Db.upsert_summary_row row (Db.upsert_summary_row row rows) = Db.upsert_summary_row row rows.
Proof.
  induction rows as [|r rest IH]; cbn [Db.upsert_summary_row].
  - rewrite Z.eqb_refl. reflexivity.
  - destruct (Db.session_id r =? Db.session_id row)%Z eqn:E; cbn [Db.upsert_summary_row].
    + rewrite Z.eqb_refl. reflexivity.
    + rewrite E, IH. reflexivity.
Qed.

(** X11: [upsert_session_summary] is an insert-or-replace keyed by
    session_id: afterwards the row stored for that session is the new row,
    the rows of all other sessions are as before, session ids stay unique
    if they were, writing the same row twice changes nothing more, and no
    other table is touched. *)
Theorem X11_upsert_session_summary_lookup (db : Db.t) (row : Db.SessionSummary) :
  let db' := Db.upsert_session_summary db row in
  summary_of db' (Db.session_id row) = Some row
  /\ (forall sid, sid <> Db.session_id row -> summary_of db' sid = summary_of db sid)
  /\ (NoDup (map Db.session_id (Db.session_summary db)) ->
      NoDup (map Db.session_id (Db.session_summary db')))
  /\ Db.upsert_session_summary db' row = db'
  /\ Db.sensor_sessions db' = Db.sensor_sessions db
  /\ Db.sensor_samples_raw db' = Db.sensor_samples_raw db
  /\ Db.daily_summary db' = Db.daily_summary db.
Proof.
  cbv zeta. unfold summary_of, Db.upsert_session_summary.
  cbn [Db.session_summary Db.sensor_sessions Db.sensor_samples_raw Db.daily_summary
       Db.next_session_id Db.sensor_samples_agg].
  split; [|split; [|split; [|split]]].
  - rewrite upsert_summary_row_find, Z.eqb_refl. reflexivity.
  - intros sid Hne. rewrite upsert_summary_row_find.
    destruct (Db.session_id row =? sid)%Z eqn:E; [|reflexivity].
    apply Z.eqb_eq in E. congruence.
  - intro Hnd.
    destruct (in_dec Z.eq_dec (Db.session_id row) (map Db.session_id (Db.session_summary db)))
      as [Hin | Hnin].
    + rewrite (proj1 (upsert_summary_row_ids row _) Hin). exact Hnd.
    + rewrite (proj2 (upsert_summary_row_ids row _) Hnin), map_app. cbn [map].
      apply NoDup_app; [exact Hnd | constructor; [intros [] | constructor] |].
      intros x Hx [<- | []]. contradiction.
  - rewrite upsert_summary_row_idem. reflexivity.
  - repeat split.
Qed.

Lemma upsert_daily_row_find (row : Db.DailySummary) (rows : list Db.DailySummary) (uid d : Z) :
  find (fun r => (Db.d_user_id r =? uid)%Z && (Db.d_day r =? d)%Z) (Db.upsert_daily_row row rows)
  = if (Db.d_user_id row =? uid)%Z && (Db.d_day row =? d)%Z then Some row
    else find (fun r => (Db.d_user_id r =? uid)%Z && (Db.d_day r =? d)%Z) rows.
Proof.
  induction rows as [|r rest IH]; cbn [Db.upsert_daily_row find].
  - destruct ((Db.d_user_id row =? uid)%Z && (Db.d_day row =? d)%Z); reflexivity.
  - destruct ((Db.d_user_id r =? Db.d_user_id row)%Z && (Db.d_day r =? Db.d_day row)%Z) eqn:E;
      cbn [find].
    + apply andb_true_iff in E. destruct E as [E1 E2].
      apply Z.eqb_eq in E1, E2. rewrite E1, E2.
      destruct ((Db.d_user_id row =? uid)%Z && (Db.d_day row =? d)%Z); reflexivity.
    + rewrite IH.
      destruct ((Db.d_user_id r =? uid)%Z && (Db.d_day r =? d)%Z) eqn:E1; [|reflexivity].
      destruct ((Db.d_user_id row =? uid)%Z && (Db.d_day row =? d)%Z) eqn:E2; [|reflexivity].
      apply andb_true_iff in E1, E2. destruct E1 as [A1 A2]. destruct E2 as [B1 B2].
      apply Z.eqb_eq in A1, A2, B1, B2.
      rewrite A1, A2, B1, B2, !Z.eqb_refl in E. discriminate E.
Qed.


Lemma recompute_then_get (db : Db.t) (uid : Z) (d : Db.Day) (now now' : Db.Datetime) :
  DbQueries.get_daily_summary (fst (Db.recompute_daily_summary db uid (Some d) now))
    uid (Some d) now'
  = Some (snd (Db.recompute_daily_summary db uid (Some d) now)).
Proof.
  unfold Db.recompute_daily_summary, DbQueries.get_daily_summary.
  cbn [fst snd Db.daily_summary].
  rewrite upsert_daily_row_find. cbn [Db.daily_payload Db.d_user_id Db.d_day].
  rewrite !Z.eqb_refl. reflexivity.
Qed.


(** X13: a day on which the user has no ended session with a summary
    still gets a rollup row, with sessions_count 0 and every figure 0. *)
Theorem X13_recompute_empty_day (db : Db.t) (uid : Z) (d : Db.Day) (now : Db.Datetime) :
  Db.joined_rows db uid d = [] ->
  snd (Db.recompute_daily_summary db uid (Some d) now) = zero_payload uid d
  /\ DbQueries.get_daily_summary (fst (Db.recompute_daily_summary db uid (Some d) now))
       uid (Some d) now
     = Some (zero_payload uid d).
Proof.
  intro H.
  rewrite (recompute_then_get db uid d now now).
  assert (E : snd (Db.recompute_daily_summary db uid (Some d) now) = zero_payload uid d).
  { unfold Db.recompute_daily_summary. cbn [snd]. rewrite H. reflexivity. }
  rewrite E. split; reflexivity.
Qed.

(** A user without sessions. *)
Lemma X13_recompute_empty_day_witness :
  snd (Db.recompute_daily_summary two_sessions_db 8 (Some (Db.day_of 1700000000%Z)) 1700003600%Z)
  = zero_payload 8 (Db.day_of 1700000000%Z).
Proof.
  apply (X13_recompute_empty_day two_sessions_db 8 (Db.day_of 1700000000%Z) 1700003600%Z).
  reflexivity.
Defined.

Lemma start_sensor_session_ok (db db' : Db.t) (uid : Z) (knd md sp : string)
    (t : Db.Datetime) (sid : Z) :
  Db.start_sensor_session db uid knd md sp t = ok (db', sid) ->
  sid = Db.next_session_id db
  /\ Db.next_session_id db' = (sid + 1)%Z
  /\ Db.sensor_sessions db'
     = Db.sensor_sessions db ++ [Db.mkSensorSession sid uid (Py.strip knd) md sp t None]
  /\ Db.session_summary db' = Db.session_summary db
  /\ Db.sensor_samples_raw db' = Db.sensor_samples_raw db
  /\ Db.sensor_samples_agg db' = Db.sensor_samples_agg db
  /\ Db.daily_summary db' = Db.daily_summary db
  /\ Db.valid_kind (Py.strip knd) = true.
Proof.
  unfold Db.start_sensor_session.
  destruct (Db.valid_kind (Py.strip knd)) eqn:E; cbn [negb]; [|discriminate].
  intro H. injection H as <- <-. repeat split.
Qed.

Lemma set_ended_id (sid : Z) (t : Db.Datetime) (s : Db.SensorSession) :
  Db.id (Db.set_ended sid t s) = Db.id s.
Proof. unfold Db.set_ended. destruct (Db.id s =? sid)%Z; reflexivity. Qed.

(** X14: session ids are never reused.  On a storage whose session ids
    are all below the next id, a successful [start_sensor_session] returns
    an id that no existing session has, adds one session that is not
    ended, keeps the ids unique and below the new next id; an invalid kind
    raises ValueError; and ending a session changes no id. *)
Theorem X14_session_ids_fresh (db : Db.t) (uid : Z) (knd md sp : string) (t : Db.Datetime) :
  ids_below db ->
  (Db.valid_kind (Py.strip knd) = false ->
   Db.start_sensor_session db uid knd md sp t
   = raise (ValueError "kind invalido (monitor|routine|baseline)"))
  /\ (Db.valid_kind (Py.strip knd) = true ->
      exists db' sid,
        Db.start_sensor_session db uid knd md sp t = ok (db', sid)
        /\ ~ In sid (map Db.id (Db.sensor_sessions db))
        /\ Db.sensor_sessions db'
           = Db.sensor_sessions db ++ [Db.mkSensorSession sid uid (Py.strip knd) md sp t None]
        /\ ids_below db'
        /\ (NoDup (map Db.id (Db.sensor_sessions db)) ->
            NoDup (map Db.id (Db.sensor_sessions db'))))
  /\ (forall sid' t',
        map Db.id (Db.sensor_sessions (Db.end_sensor_session db sid' t'))
        = map Db.id (Db.sensor_sessions db)
        /\ ids_below (Db.end_sensor_session db sid' t')).
Proof.
  intro Hb. split; [|split].
  - intro Hk. unfold Db.start_sensor_session. rewrite Hk. reflexivity.
  - intro Hk.
    assert (Hfresh : ~ In (Db.next_session_id db) (map Db.id (Db.sensor_sessions db))).
    { intro Hin. apply in_map_iff in Hin. destruct Hin as (s & Hs & Hin).
      unfold ids_below in Hb. rewrite Forall_forall in Hb. specialize (Hb s Hin). lia. }
    unfold Db.start_sensor_session. rewrite Hk. cbn [negb].
    eexists _, _. split; [reflexivity|]. split; [exact Hfresh|]. split; [reflexivity|].
    split.
    + unfold ids_below in *. cbn [Db.sensor_sessions Db.next_session_id].
      apply Forall_app. split.
      * eapply Forall_impl; [|exact Hb]. cbn. intros s Hs. lia.
      * constructor; [cbn; lia | constructor].
    + intro Hnd. cbn [Db.sensor_sessions]. rewrite map_app. cbn [map Db.id].
      apply NoDup_app; [exact Hnd | constructor; [intros [] | constructor] |].
      intros x Hx [<- | []]. contradiction.
  - intros sid' t'. unfold Db.end_sensor_session, ids_below.
    cbn [Db.sensor_sessions Db.next_session_id].
    split.
    + rewrite map_map. apply map_ext. intro s. apply set_ended_id.
    + apply Forall_map. eapply Forall_impl; [|exact Hb].
      cbn. intros s Hs. rewrite set_ended_id. exact Hs.
Qed.

Lemma X14_session_ids_fresh_witness :
  exists db' sid,
    Db.start_sensor_session two_sessions_db 7%Z " routine " "desk" "gym" 1700009999%Z = ok (db', sid)
    /\ ~ In sid (map Db.id (Db.sensor_sessions two_sessions_db)).
Proof.
  assert (Hb : ids_below two_sessions_db).
  { unfold ids_below. repeat constructor. }
  destruct (X14_session_ids_fresh two_sessions_db 7%Z " routine " "desk" "gym" 1700009999%Z Hb)
    as (_ & Hok & _).
  destruct (Hok eq_refl) as (db' & sid & H1 & H2 & _).
  exists db', sid. split; assumption.
Defined.

Lemma joined_rows_congr (db db' : Db.t) (uid : Z) (d : Db.Day) :
  Db.sensor_sessions db' = Db.sensor_sessions db ->
  Db.session_summary db' = Db.session_summary db ->
  Db.joined_rows db' uid d = Db.joined_rows db uid d.
Proof. intros H1 H2. unfold Db.joined_rows. rewrite H1, H2. reflexivity. Qed.

Lemma flat_map_ext_on {A B} (f g : A -> list B) (l : list A) :
  (forall x, In x l -> f x = g x) -> flat_map f l = flat_map g l.
Proof.
  intro H. induction l as [|x l IH]; [reflexivity|].
  cbn [flat_map]. rewrite (H x (or_introl eq_refl)), IH; [reflexivity|].
  intros y Hy. apply H. right. exact Hy.
Qed.

Lemma upsert_summary_row_filter_other (row : Db.SessionSummary)
    (rows : list Db.SessionSummary) (k : Z) :
  Db.session_id row <> k ->
  filter (fun ss => (Db.session_id ss =? k)%Z) (Db.upsert_summary_row row rows)
  = filter (fun ss => (Db.session_id ss =? k)%Z) rows.
Proof.
  intro Hne.
  induction rows as [|r rest IH]; cbn [Db.upsert_summary_row filter].
  - destruct (Db.session_id row =? k)%Z eqn:E; [|reflexivity].
    apply Z.eqb_eq in E. congruence.
  - destruct (Db.session_id r =? Db.session_id row)%Z eqn:E; cbn [filter].
    + apply Z.eqb_eq in E.
      destruct (Db.session_id row =? k)%Z eqn:E1;
        [apply Z.eqb_eq in E1; congruence|].
      destruct (Db.session_id r =? k)%Z eqn:E2;
        [apply Z.eqb_eq in E2; congruence | reflexivity].
    + rewrite IH. reflexivity.
Qed.

(** X15: only ended sessions count in the rollup.  The rows that the
    rollup reads, and so the payload it returns, are unchanged by starting
    a session, by inserting raw or aggregated samples, and, when session
    ids are unique, by writing the summary of a session that has not
    ended. *)
Theorem X15_rollup_ignores_running_sessions (db : Db.t) (uid : Z) (d : Db.Day) :
  (forall u knd md sp t db' sid,
     Db.start_sensor_session db u knd md sp t = ok (db', sid) ->
     Db.joined_rows db' uid d = Db.joined_rows db uid d)
  /\ (forall sid rows,
        Db.joined_rows (Db.insert_sensor_samples_raw_batch db sid rows) uid d
        = Db.joined_rows db uid d)
  /\ (forall sid rows,
        Db.joined_rows (Db.insert_sensor_samples_agg_batch db sid rows) uid d
        = Db.joined_rows db uid d)
  /\ (forall s row,
        NoDup (map Db.id (Db.sensor_sessions db)) ->
        In s (Db.sensor_sessions db) -> Db.ended_at s = None ->
        Db.session_id row = Db.id s ->
        Db.joined_rows (Db.upsert_session_summary db row) uid d = Db.joined_rows db uid d).
Proof.
  split; [|split; [|split]].
  - intros u knd md sp t db' sid H.
    destruct (start_sensor_session_ok _ _ _ _ _ _ _ _ H) as (_ & _ & Hs & Hsum & _).
    unfold Db.joined_rows. rewrite Hs, Hsum, filter_app, flat_map_app.
    cbn [filter]. unfold Db.completed_session at 2. cbn [Db.ended_at].
    rewrite andb_false_r. cbn [flat_map]. rewrite app_nil_r. reflexivity.
  - intros sid rows. apply joined_rows_congr; destruct rows; reflexivity.
  - intros sid rows. apply joined_rows_congr; destruct rows; reflexivity.
  - intros s row Hnd Hin Hend Hid.
    unfold Db.joined_rows, Db.upsert_session_summary.
    cbn [Db.sensor_sessions Db.session_summary].
    apply flat_map_ext_on. intros s' Hs'.
    apply filter_In in Hs'. destruct Hs' as [Hs' Hc].
    assert (Hne : Db.id s' <> Db.id s).
    { intro E.
      assert (s' = s).
      { clear - Hnd Hin Hs' E. induction (Db.sensor_sessions db) as [|x l IH]; [destruct Hin|].
        cbn [map] in Hnd. inversion Hnd as [|? ? Hx Hl]; subst.
        destruct Hin as [-> | Hin]; destruct Hs' as [-> | Hs']; try reflexivity.
        - exfalso. apply Hx. rewrite <- E. apply in_map. exact Hs'.
        - exfalso. apply Hx. rewrite E. apply in_map. exact Hin.
        - apply IH; assumption. }
      subst s'. unfold Db.completed_session in Hc. rewrite Hend in Hc.
      rewrite andb_false_r in Hc. discriminate Hc. }
    apply upsert_summary_row_filter_other. congruence.
Qed.

(** Starting a fourth session leaves the two rollup rows of the day. *)
Lemma X15_rollup_ignores_running_sessions_witness :
  exists db' sid,
    Db.start_sensor_session two_sessions_db 7%Z "monitor" "desk" "gym" 1700001000%Z = ok (db', sid)
    /\ Db.joined_rows db' 7%Z (Db.day_of 1700000000%Z)
       = Db.joined_rows two_sessions_db 7%Z (Db.day_of 1700000000%Z).
Proof.
  eexists _, _. split; [reflexivity|].
  apply (proj1 (X15_rollup_ignores_running_sessions two_sessions_db 7%Z (Db.day_of 1700000000%Z))
           7%Z "monitor"%string "desk"%string "gym"%string 1700001000%Z _ _ eq_refl).
Defined.


(* ===================================================================== *)
(** ** Session recorder: buffers, counters and the whole recording *)
(* ===================================================================== *)

Lemma flush_logical (r : SessionRecorder.t) (w : SessionRecorder.World) :
  logical (fst (SessionRecorder.flush r w)) (snd (SessionRecorder.flush r w)) = logical r w
  /\ (SessionRecorder.session_id r <> None ->
      SessionRecorder._raw_rows (fst (SessionRecorder.flush r w)) = []
      /\ SessionRecorder._agg_rows (fst (SessionRecorder.flush r w)) = []).
Proof.
  unfold SessionRecorder.flush.
  destruct (SessionRecorder.session_id r) as [sid|] eqn:E; cbn [fst snd].
  - split; [|intros _; split; reflexivity].
    unfold logical, counters, raw_ledger, agg_ledger,
      Db.insert_sensor_samples_raw_batch, Db.insert_sensor_samples_agg_batch.
    destruct (SessionRecorder._raw_rows r); destruct (SessionRecorder._agg_rows r);
      cbn; rewrite ?app_nil_r, E; reflexivity.
  - split; [reflexivity | intro H; contradiction].
Qed.

Lemma set_buffers_logical (r : SessionRecorder.t) (w : SessionRecorder.World)
    (last_flush : option Z) :
  logical (SessionRecorder.set_buffers r (SessionRecorder._raw_rows r)
             (SessionRecorder._agg_rows r) last_flush) w
  = logical r w.
Proof. reflexivity. Qed.

Lemma maybe_flush_logical (r : SessionRecorder.t) (w : SessionRecorder.World) :
  logical (fst (SessionRecorder._maybe_flush r w)) (snd (SessionRecorder._maybe_flush r w))
  = logical r w.
Proof.
  unfold SessionRecorder._maybe_flush.
  destruct (SessionRecorder.session_id r) as [sid|] eqn:E; [|reflexivity].
  match goal with |- context [if ?b then _ else _] => destruct b end.
  - cbn [fst snd]. apply set_buffers_logical.
  - match goal with
    | |- context [SessionRecorder.flush ?r1 w] =>
        pose proof (flush_logical r1 w) as [Hl _];
        destruct (SessionRecorder.flush r1 w) as [r2 w2]
    end.
    cbn [fst snd] in *. rewrite set_buffers_logical, Hl. apply set_buffers_logical.
Qed.

Lemma record_sample_raw (sid now : Z) (r : SessionRecorder.t) (s : SessionRecorder.SampleDict) :
  let r' := SessionRecorder.record_sample sid now r s in
  exists row,
    SessionRecorder._raw_rows r' = SessionRecorder._raw_rows r ++ [row]
    /\ row_of_sample (SessionRecorder.cfg r) sid row s
    /\ Db.raw_ts_ms row = ts_of now s
    /\ SessionRecorder._comp_sum r' = SessionRecorder._comp_sum r + Db.raw_comp_index row
    /\ SessionRecorder._comp_peak r'
       = Py.max (SessionRecorder._comp_peak r) (Db.raw_comp_index row).
Proof.
  unfold SessionRecorder.record_sample, row_of_sample, zones_of, ts_of.
  destruct (SessionRecorder.s_thor_zone s) as [tz|];
    destruct (SessionRecorder.s_lum_zone s) as [lz|];
    destruct (SessionRecorder.s_comp_index s) as [ci|];
    unfold PostureEngine.annotate;
    cbn [fst snd PostureEngine.thor_zone PostureEngine.lum_zone PostureEngine.comp_index
         PostureEngine.pitch PostureEngine.roll PostureEngine.yaw
         SessionRecorder._raw_rows SessionRecorder._comp_sum SessionRecorder._comp_peak];
    (eexists; split; [reflexivity|];
     cbn [Db.raw_session_id Db.raw_thor_zone Db.raw_lum_zone Db.raw_T_pitch Db.raw_T_roll
          Db.raw_T_yaw Db.raw_L_pitch Db.raw_L_roll Db.raw_L_yaw Db.raw_T_imu_ts_ms
          Db.raw_L_imu_ts_ms Db.raw_ts_ms Db.raw_comp_index];
     split; [|split; [|split; reflexivity]];
     [ repeat (split; [reflexivity|]);
       intros ts Hts Hpos; rewrite Hts;
       destruct (ts <=? 0)%Z eqn:E; [apply Z.leb_le in E; lia | reflexivity]
     | destruct (SessionRecorder.s_ts_ms s) as [ts|]; reflexivity ]).
Qed.

Lemma record_sample_agg (sid now : Z) (r : SessionRecorder.t) (s : SessionRecorder.SampleDict) :
  let r' := SessionRecorder.record_sample sid now r s in
  let ts_s := (ts_of now s / 1000)%Z in
  (match SessionRecorder._last_agg_s r with None => True | Some l => (l < ts_s)%Z end ->
   exists a,
     SessionRecorder._agg_rows r' = SessionRecorder._agg_rows r ++ [a]
     /\ Db.agg_ts_s a = ts_s /\ Db.agg_session_id a = sid
     /\ SessionRecorder._last_agg_s r' = Some ts_s)
  /\ (forall l, SessionRecorder._last_agg_s r = Some l -> (ts_s <= l)%Z ->
      SessionRecorder._agg_rows r' = SessionRecorder._agg_rows r
      /\ SessionRecorder._last_agg_s r' = Some l).
Proof.
  assert (Hts : (if (match SessionRecorder.s_ts_ms s with Some v => v | None => 0 end <=? 0)%Z
                 then now
                 else match SessionRecorder.s_ts_ms s with Some v => v | None => 0%Z end)
                = ts_of now s).
  { unfold ts_of. destruct (SessionRecorder.s_ts_ms s); reflexivity. }
  unfold SessionRecorder.record_sample. rewrite Hts.
  destruct (SessionRecorder.s_thor_zone s) as [tz|];
    destruct (SessionRecorder.s_lum_zone s) as [lz|];
    destruct (SessionRecorder.s_comp_index s) as [ci|];
    unfold PostureEngine.annotate;
    cbn [fst snd SessionRecorder._agg_rows SessionRecorder._last_agg_s];
    (split;
     [ intro Hnew;
       destruct (SessionRecorder._last_agg_s r) as [l|];
       [ rewrite (proj2 (Z.ltb_lt _ _) Hnew) |];
       eexists; repeat split; reflexivity
     | intros l Hl Hle; rewrite Hl;
       rewrite (proj2 (Z.ltb_ge _ _) Hle); split; reflexivity ]).
Qed.

Lemma record_sample_engine (sid now : Z) (r : SessionRecorder.t) (s : SessionRecorder.SampleDict) :
  PostureEngine.reset (SessionRecorder._engine (SessionRecorder.record_sample sid now r s))
  = PostureEngine.reset (SessionRecorder._engine r).
Proof.
  unfold SessionRecorder.record_sample.
  destruct (SessionRecorder.s_thor_zone s) as [tz|];
    destruct (SessionRecorder.s_lum_zone s) as [lz|];
    destruct (SessionRecorder.s_comp_index s) as [ci|]; reflexivity.
Qed.

Lemma py_max_ge_l (x y : Q) : x <= Py.max x y.
Proof.
  unfold Py.max. case_ltb x y; lra.
Qed.

Lemma recorder_inv_init (c : SessionRecorder.RecorderConfig) :
  recorder_inv (SessionRecorder.init c).
Proof.
  unfold recorder_inv. cbn. repeat split; try lia; try discriminate; lra.
Qed.

Lemma recorder_inv_record_sample (sid now : Z) (r : SessionRecorder.t)
    (s : SessionRecorder.SampleDict) :
  recorder_inv r -> recorder_inv (SessionRecorder.record_sample sid now r s).
Proof.
  intros (Ht & Hl & Ha & Hpos & Hlt & Hll & Hp & Hs).
  destruct (record_sample_counters sid now r s)
    as (_ & _ & Hn' & Ht' & Hl' & Hzt & Hzl & Ha').
  destruct (record_sample_raw sid now r s) as (row & _ & _ & _ & Hs' & Hp').
  unfold recorder_inv. rewrite Hn', Ht', Hl', Ha', Hzt, Hzl, Hs', Hp'.
  unfold thor_is_red, lum_is_red in *. cbn [SessionRecorder.last_not_red].
  set (tr := SessionRecorder.is_red (fst (zones_of (SessionRecorder.cfg r) s))) in *.
  set (lr := SessionRecorder.is_red (snd (zones_of (SessionRecorder.cfg r) s))) in *.
  set (ci := Db.raw_comp_index row).
  assert (Hpk : SessionRecorder._comp_peak r <= Py.max (SessionRecorder._comp_peak r) ci)
    by apply py_max_ge_l.
  assert (Hci : ci <= Py.max (SessionRecorder._comp_peak r) ci) by apply py_max_ge_r.
  split; [|split; [|split; [|split; [|split; [|split; [|split]]]]]].
  - destruct tr; lia.
  - destruct lr; lia.
  - destruct (SessionRecorder.last_not_red (SessionRecorder._last_thor_zone r));
      destruct (SessionRecorder.last_not_red (SessionRecorder._last_lum_zone r));
      destruct tr; destruct lr; cbn [andb]; lia.
  - intro Hsum.
    assert (Hcase : (0 < SessionRecorder._thor_red r + SessionRecorder._lum_red r)%Z
                    \/ (SessionRecorder.last_not_red (SessionRecorder._last_thor_zone r)
                        && tr = true)
                    \/ (SessionRecorder.last_not_red (SessionRecorder._last_lum_zone r)
                        && lr = true)).
    { destruct (SessionRecorder.last_not_red (SessionRecorder._last_thor_zone r));
        [|specialize (Hlt eq_refl); left; lia].
      destruct (SessionRecorder.last_not_red (SessionRecorder._last_lum_zone r));
        [|specialize (Hll eq_refl); left; lia].
      destruct tr; [right; left; reflexivity|].
      destruct lr; [right; right; reflexivity|].
      left. lia. }
    destruct Hcase as [H | [H | H]].
    + specialize (Hpos H).
      repeat match goal with |- context [if ?b then _ else _] => destruct b end; lia.
    + rewrite H.
      repeat match goal with |- context [if ?b then _ else _] => destruct b end; lia.
    + rewrite H.
      repeat match goal with |- context [if ?b then _ else _] => destruct b end; lia.
  - destruct tr; cbn [negb]; [lia | discriminate].
  - destruct lr; cbn [negb]; [lia | discriminate].
  - eapply Qle_trans; [exact Hp | exact Hpk].
  - unfold Py.float in *. rewrite inject_Z_plus.
    set (n := inject_Z (SessionRecorder._n r)) in *.
    assert (Hn0 : 0 <= n).
    { subst n. change 0 with (inject_Z 0). rewrite <- Zle_Qle. lia. }
    set (pk := SessionRecorder._comp_peak r) in *.
    set (pk' := Py.max pk ci) in *.
    change (inject_Z 1) with 1.
    assert (n * pk <= n * pk') by (apply Qmult_le_l' || nra).
    nra.
Qed.

Lemma increasing_snoc (l : list Z) (x : Z) :
  increasing l -> Forall (fun y => (y < x)%Z) l -> increasing (l ++ [x]).
Proof.
  induction l as [|y l IH]; intros Hi Hf; cbn [app increasing].
  - split; constructor.
  - destruct Hi as [Hy Hi]. inversion Hf as [|? ? Hyx Hf']; subst.
    split; [|apply IH; assumption].
    apply Forall_app. split; [exact Hy | constructor; [exact Hyx | constructor]].
Qed.

Lemma agg_inv_record_sample (sid now : Z) (r : SessionRecorder.t)
    (s : SessionRecorder.SampleDict) (aggs : list Db.AggRow) :
  agg_inv sid r aggs ->
  exists new,
    SessionRecorder._agg_rows (SessionRecorder.record_sample sid now r s)
    = SessionRecorder._agg_rows r ++ new
    /\ agg_inv sid (SessionRecorder.record_sample sid now r s) (aggs ++ new).
Proof.
  intros (Hinc & Hsid & Hlen & Hlast).
  destruct (record_sample_counters sid now r s) as (_ & _ & Hn' & _).
  destruct (record_sample_agg sid now r s) as [Hnew Hold].
  cbv zeta in Hnew, Hold, Hn'.
  set (ts_s := (ts_of now s / 1000)%Z) in *.
  assert (Hcase : match SessionRecorder._last_agg_s r with
                  | None => True | Some l => (l < ts_s)%Z end
                  \/ exists l, SessionRecorder._last_agg_s r = Some l /\ (ts_s <= l)%Z).
  { destruct (SessionRecorder._last_agg_s r) as [l|]; [|left; exact I].
    destruct (Z_lt_le_dec l ts_s); [left; assumption | right; exists l; split; [reflexivity|lia]]. }
  destruct Hcase as [Hc | (l & Hl & Hle)].
  - destruct (Hnew Hc) as (a & Hrows & Hts & Ha & Hlast').
    exists [a]. split; [exact Hrows|].
    unfold agg_inv. rewrite Hn', Hlast', map_app, length_app. cbn [map List.length].
    assert (Hbelow : Forall (fun y => (y < ts_s)%Z) (map Db.agg_ts_s aggs)).
    { destruct (SessionRecorder._last_agg_s r) as [l|].
      - apply Forall_map. eapply Forall_impl; [|exact (proj1 Hlast)]. cbn. intros x Hx. lia.
      - destruct Hlast as [-> _]. constructor. }
    split; [rewrite Hts; apply increasing_snoc; assumption|].
    split; [apply Forall_app; split; [exact Hsid | constructor; [exact Ha | constructor]]|].
    split; [lia|].
    split; [|intro H; destruct aggs; discriminate H].
    apply Forall_app. split.
    + rewrite Forall_map in Hbelow. eapply Forall_impl; [|exact Hbelow]. cbn. intros x Hx. lia.
    + constructor; [lia | constructor].
  - destruct (Hold l Hl Hle) as [Hrows Hlast'].
    exists []. split; [rewrite app_nil_r; exact Hrows|].
    rewrite app_nil_r. unfold agg_inv. rewrite Hn', Hlast'. rewrite Hl in Hlast.
    split; [exact Hinc|]. split; [exact Hsid|]. split; [lia | exact Hlast].
Qed.

Lemma session_inv_logical (c : SessionRecorder.RecorderConfig) (sid : Z) (base : Db.t)
    (samples : list SessionRecorder.SampleDict)
    (r r' : SessionRecorder.t) (w w' : SessionRecorder.World) :
  logical r' w' = logical r w ->
  session_inv c sid base samples r w -> session_inv c sid base samples r' w'.
Proof.
  unfold logical, counters. intro H.
  injection H as Hc Hs Hn Ht Hl Ha He Hcs Hcp Hzt Hzl Hag Hraw Hagg Hid Hss Hsum Hd.
  unfold session_inv, recorder_inv, agg_inv.
  rewrite Hc, Hs, Hn, Ht, Hl, Ha, He, Hcs, Hcp, Hzt, Hzl, Hag, Hraw, Hagg, Hid, Hss, Hsum, Hd.
  exact (fun x => x).
Qed.

Lemma session_inv_record_sample (c : SessionRecorder.RecorderConfig) (sid : Z) (base : Db.t)
    (samples : list SessionRecorder.SampleDict) (now : Z)
    (r : SessionRecorder.t) (w : SessionRecorder.World) (s : SessionRecorder.SampleDict) :
  session_inv c sid base samples r w ->
  session_inv c sid base (samples ++ [s]) (SessionRecorder.record_sample sid now r s) w.
Proof.
  intros (Hs & Hc & Hn & Ht & Hl & Hinv & He & (rows & Hraw & Hrows) & (aggs & Hagg & Haggs)
          & Hid & Hss & Hsum & Hd).
  destruct (record_sample_counters sid now r s) as (Hc' & Hs' & Hn' & Ht' & Hl' & _).
  destruct (record_sample_raw sid now r s) as (row & Hrow & Hros & _).
  destruct (agg_inv_record_sample sid now r s aggs Haggs) as (new & Hnew & Hainv).
  unfold session_inv.
  split; [congruence|]. split; [congruence|].
  split; [rewrite Hn', Hn, length_app; cbn [List.length]; lia|].
  split; [rewrite Ht', Ht, Hc, count_app, count_cons; unfold count; cbn; lia|].
  split; [rewrite Hl', Hl, Hc, count_app, count_cons; unfold count; cbn; lia|].
  split; [apply recorder_inv_record_sample; exact Hinv|].
  split; [unfold engine_of in *; rewrite record_sample_engine; exact He|].
  split; [|split; [|repeat split; assumption]].
  - exists (rows ++ [row]). unfold raw_ledger in *. rewrite Hrow, app_assoc, Hraw, <- app_assoc.
    split; [reflexivity|].
    apply Forall2_app; [exact Hrows|]. constructor; [|constructor].
    rewrite <- Hc. exact Hros.
  - exists (aggs ++ new). unfold agg_ledger in *. rewrite Hnew, app_assoc, Hagg, <- app_assoc.
    split; [reflexivity | exact Hainv].
Qed.

Lemma session_inv_record_samples (c : SessionRecorder.RecorderConfig) (sid : Z) (base : Db.t)
    (now : Z) (w : SessionRecorder.World) (batch : list SessionRecorder.SampleDict) :
  forall (samples : list SessionRecorder.SampleDict) (r : SessionRecorder.t),
  session_inv c sid base samples r w ->
  session_inv c sid base (samples ++ batch)
    (fold_left (SessionRecorder.record_sample sid now) batch r) w.
Proof.
  induction batch as [|s rest IH]; intros samples r H; cbn [fold_left].
  - rewrite app_nil_r. exact H.
  - replace (samples ++ s :: rest) with ((samples ++ [s]) ++ rest)
      by (rewrite <- app_assoc; reflexivity).
    apply IH. apply session_inv_record_sample. exact H.
Qed.

Lemma session_inv_clock (c : SessionRecorder.RecorderConfig) (sid : Z) (base : Db.t)
    (samples : list SessionRecorder.SampleDict)
    (r : SessionRecorder.t) (w : SessionRecorder.World) (clk : Z) :
  session_inv c sid base samples r w ->
  session_inv c sid base samples r (SessionRecorder.mkWorld (SessionRecorder.db w) clk).
Proof. apply session_inv_logical. reflexivity. Qed.

Lemma session_inv_append (c : SessionRecorder.RecorderConfig) (sid : Z) (base : Db.t)
    (samples batch : list SessionRecorder.SampleDict)
    (r : SessionRecorder.t) (w : SessionRecorder.World) :
  session_inv c sid base samples r w ->
  exists r' w',
    SessionRecorder.append_samples_batch r w batch = ok (r', w')
    /\ session_inv c sid base (samples ++ batch) r' w'.
Proof.
  intro H. destruct batch as [|s rest].
  - exists r, w. split; [reflexivity|]. rewrite app_nil_r. exact H.
  - unfold SessionRecorder.append_samples_batch.
    rewrite (start_session_active r w sid (proj1 H)). cbn [bind ok].
    set (r2 := fold_left _ (s :: rest) r).
    exists (fst (SessionRecorder._maybe_flush r2 w)), (snd (SessionRecorder._maybe_flush r2 w)).
    split; [destruct (SessionRecorder._maybe_flush r2 w); reflexivity|].
    apply (session_inv_logical c sid base _ r2 _ w _ (maybe_flush_logical r2 w)).
    apply session_inv_record_samples. exact H.
Qed.

Lemma session_inv_append_all (c : SessionRecorder.RecorderConfig) (sid : Z) (base : Db.t)
    (calls : list (Z * list SessionRecorder.SampleDict)) :
  forall (samples : list SessionRecorder.SampleDict)
         (r : SessionRecorder.t) (w : SessionRecorder.World),
  session_inv c sid base samples r w ->
  exists r' w',
    append_all r w calls = ok (r', w')
    /\ session_inv c sid base (samples ++ all_samples calls) r' w'.
Proof.
  induction calls as [|[clk batch] rest IH]; intros samples r w H.
  - exists r, w. split; [reflexivity|]. unfold all_samples. cbn. rewrite app_nil_r. exact H.
  - destruct (session_inv_append c sid base samples batch r _ (session_inv_clock _ _ _ _ _ _ clk H))
      as (r1 & w1 & Ha & H1).
    destruct (IH _ r1 w1 H1) as (r2 & w2 & Hall & H2).
    exists r2, w2. cbn [append_all]. rewrite Ha. cbn [bind ok].
    split; [exact Hall|].
    unfold all_samples in *. cbn [map List.concat snd]. rewrite app_assoc. exact H2.
Qed.

Lemma session_inv_start (c : SessionRecorder.RecorderConfig) (w : SessionRecorder.World) :
  Db.valid_kind (Py.strip (SessionRecorder.kind c)) = true ->
  exists r1 w1,
    SessionRecorder.start_session (SessionRecorder.init c) w
    = ok (Db.next_session_id (SessionRecorder.db w), r1, w1)
    /\ session_inv c (Db.next_session_id (SessionRecorder.db w)) (SessionRecorder.db w1) [] r1 w1
    /\ Db.start_sensor_session (SessionRecorder.db w) (SessionRecorder.user_id c)
         (SessionRecorder.kind c) (SessionRecorder.mode c) (SessionRecorder.sport c)
         (SessionRecorder.datetime_now w)
       = ok (SessionRecorder.db w1, Db.next_session_id (SessionRecorder.db w))
    /\ SessionRecorder.clock_ms w1 = SessionRecorder.clock_ms w.
Proof.
  intro Hk.
  unfold SessionRecorder.start_session, Db.start_sensor_session.
  cbn [SessionRecorder.init SessionRecorder.session_id SessionRecorder.cfg].
  rewrite Hk. cbn [negb bind ok].
  eexists _, _. split; [reflexivity|].
  split; [|split; reflexivity].
  unfold session_inv.
  cbn [SessionRecorder.session_id SessionRecorder.cfg SessionRecorder._n SessionRecorder._engine
       SessionRecorder.with_db SessionRecorder.db List.length].
  split; [reflexivity|]. split; [reflexivity|]. split; [reflexivity|].
  split; [reflexivity|]. split; [reflexivity|].
  split; [apply (recorder_inv_init c)|].
  split; [reflexivity|].
  split; [exists []; unfold raw_ledger; cbn; split; [reflexivity | constructor]|].
  split; [|repeat split; reflexivity].
  exists []. unfold agg_ledger, agg_inv. cbn.
  repeat split; try constructor; lia.
Qed.

Lemma stop_result (r : SessionRecorder.t) (w : SessionRecorder.World) (sid : Z) :
  SessionRecorder.session_id r = Some sid ->
  let rate := Py.max (SessionRecorder.sample_rate_hz (SessionRecorder.cfg r)) (1 # 1000000) in
  let now := SessionRecorder.datetime_now w in
  let uid := SessionRecorder.user_id (SessionRecorder.cfg r) in
  exists summ w',
    SessionRecorder.stop_session_and_compute_summary r w
    = ok (summ,
          SessionRecorder.mkRecorder (SessionRecorder.cfg r) None
            (PostureEngine.reset (SessionRecorder._engine r))
            [] None 0 0 0 0 0 0 None None [] None,
          w')
    /\ SessionRecorder.sum_session_id summ = sid
    /\ SessionRecorder.duration_s summ = Py.float (SessionRecorder._n r) / rate
    /\ SessionRecorder.thor_red_s summ = Py.float (SessionRecorder._thor_red r) / rate
    /\ SessionRecorder.lum_red_s summ = Py.float (SessionRecorder._lum_red r) / rate
    /\ SessionRecorder.alerts_count summ = SessionRecorder._alerts r
    /\ SessionRecorder.comp_avg summ
       = SessionRecorder._comp_sum r / Py.max (Py.float (SessionRecorder._n r)) 1
    /\ SessionRecorder.comp_peak summ = SessionRecorder._comp_peak r
    /\ SessionRecorder.risk_index summ
       = PostureEngine.compute_risk_index (SessionRecorder.duration_s summ)
           (SessionRecorder.thor_red_s summ) (SessionRecorder.lum_red_s summ)
           (SessionRecorder.comp_avg summ)
    /\ Db.sensor_samples_raw (SessionRecorder.db w') = raw_ledger r w
    /\ Db.sensor_samples_agg (SessionRecorder.db w') = agg_ledger r w
    /\ Db.next_session_id (SessionRecorder.db w') = Db.next_session_id (SessionRecorder.db w)
    /\ Db.sensor_sessions (SessionRecorder.db w')
       = map (Db.set_ended sid now) (Db.sensor_sessions (SessionRecorder.db w))
    /\ Db.session_summary (SessionRecorder.db w')
       = Db.upsert_summary_row
           (Db.mkSessionSummary sid (SessionRecorder.duration_s summ)
              (SessionRecorder.thor_red_s summ) (SessionRecorder.lum_red_s summ)
              (SessionRecorder.alerts_count summ) (SessionRecorder.comp_avg summ)
              (SessionRecorder.comp_peak summ) (SessionRecorder.risk_index summ))
           (Db.session_summary (SessionRecorder.db w))
    /\ SessionRecorder.daily summ
       = Db.daily_payload uid (Db.day_of now)
           (Db.joined_rows (SessionRecorder.db w') uid (Db.day_of now))
    /\ Db.daily_summary (SessionRecorder.db w')
       = Db.upsert_daily_row (SessionRecorder.daily summ)
           (Db.daily_summary (SessionRecorder.db w)).
Proof.
  intros Hs rate now uid.
  unfold SessionRecorder.stop_session_and_compute_summary. rewrite Hs.
  destruct (flush_logical r w) as [Hl Hbuf].
  assert (Hclk : SessionRecorder.clock_ms (snd (SessionRecorder.flush r w))
                 = SessionRecorder.clock_ms w).
  { unfold SessionRecorder.flush. rewrite Hs. reflexivity. }
  destruct (SessionRecorder.flush r w) as [r1 w1]. cbn [fst snd] in Hl, Hclk.
  unfold logical, counters in Hl.
  injection Hl as Hc _ Hn Ht Hll Ha He Hcs Hcp _ _ _ Hraw Hagg Hid Hss Hsum Hd.
  assert (Hne : SessionRecorder.session_id r <> None) by (rewrite Hs; discriminate).
  destruct (Hbuf Hne) as [Hb1 Hb2]. cbn [fst] in Hb1, Hb2.
  unfold raw_ledger in Hraw at 1. unfold agg_ledger in Hagg at 1.
  rewrite Hb1, app_nil_r in Hraw. rewrite Hb2, app_nil_r in Hagg.
  unfold Db.recompute_daily_summary.
  subst rate now uid. unfold SessionRecorder.datetime_now.
  rewrite Hclk, Hc, Hn, Ht, Hll, Ha, He, Hcs, Hcp.
  eexists _, _. split; [reflexivity|].
  cbn [SessionRecorder.sum_session_id SessionRecorder.duration_s SessionRecorder.thor_red_s
       SessionRecorder.lum_red_s SessionRecorder.alerts_count SessionRecorder.comp_avg
       SessionRecorder.comp_peak SessionRecorder.risk_index SessionRecorder.daily
       SessionRecorder.with_db SessionRecorder.db
       Db.sensor_samples_raw Db.sensor_samples_agg Db.next_session_id Db.sensor_sessions
       Db.session_summary Db.daily_summary Db.upsert_session_summary Db.end_sensor_session].
  rewrite Hss, Hsum, Hd.
  repeat split; try reflexivity; try assumption.
  unfold Db.joined_rows, Db.upsert_session_summary, Db.end_sensor_session.
  cbn [Db.sensor_sessions Db.session_summary]. rewrite Hss, Hsum. reflexivity.
Qed.

Lemma record_session_run (c : SessionRecorder.RecorderConfig) (w : SessionRecorder.World)
    (calls : list (Z * list SessionRecorder.SampleDict)) (clock_stop : Z) :
  Db.valid_kind (Py.strip (SessionRecorder.kind c)) = true ->
  let sid := Db.next_session_id (SessionRecorder.db w) in
  exists base r2 w2,
    Db.start_sensor_session (SessionRecorder.db w) (SessionRecorder.user_id c)
      (SessionRecorder.kind c) (SessionRecorder.mode c) (SessionRecorder.sport c)
      (SessionRecorder.datetime_now w)
    = ok (base, sid)
    /\ session_inv c sid base (all_samples calls) r2
         (SessionRecorder.mkWorld (SessionRecorder.db w2) clock_stop)
    /\ record_session c w calls clock_stop
       = SessionRecorder.stop_session_and_compute_summary r2
           (SessionRecorder.mkWorld (SessionRecorder.db w2) clock_stop).
Proof.
  intros Hk sid.
  destruct (session_inv_start c w Hk) as (r1 & w1 & Hstart & Hinv & Hdb & _).
  destruct (session_inv_append_all c sid _ calls [] r1 w1 Hinv) as (r2 & w2 & Hall & Hinv2).
  exists (SessionRecorder.db w1), r2, w2.
  split; [exact Hdb|].
  split; [apply session_inv_clock; exact Hinv2|].
  unfold record_session. fold sid in Hstart. rewrite Hstart. unfold ok at 1.
  rewrite Hall. reflexivity.
Qed.

(** X16: no sample is lost or written twice.  Whatever the batches and
    whenever the buffer was flushed, after a recording the raw table holds
    what it held before followed by exactly one row per appended sample,
    in arrival order, each under the session's id with the sample's
    angles, zones and sensor timestamps (and its host timestamp when it
    carries a positive one); the recorder's buffers are empty. *)
Theorem X16_every_sample_persisted (c : SessionRecorder.RecorderConfig)
    (w : SessionRecorder.World) (calls : list (Z * list SessionRecorder.SampleDict))
    (clock_stop : Z) :
  Db.valid_kind (Py.strip (SessionRecorder.kind c)) = true ->
  exists summ r3 w3 rows,
    record_session c w calls clock_stop = ok (summ, r3, w3)
    /\ SessionRecorder.sum_session_id summ = Db.next_session_id (SessionRecorder.db w)
    /\ Db.sensor_samples_raw (SessionRecorder.db w3)
       = Db.sensor_samples_raw (SessionRecorder.db w) ++ rows
    /\ Forall2 (row_of_sample c (SessionRecorder.sum_session_id summ)) rows (all_samples calls)
    /\ SessionRecorder._raw_rows r3 = []
    /\ SessionRecorder._agg_rows r3 = [].
Proof.
  intro Hk.
  destruct (record_session_run c w calls clock_stop Hk) as (base & r2 & w2 & Hdb & Hinv & Hrun).
  destruct Hinv as (Hs & _ & _ & _ & _ & _ & _ & (rows & Hraw & Hrows) & _).
  destruct (stop_result r2 (SessionRecorder.mkWorld (SessionRecorder.db w2) clock_stop) _ Hs)
    as (summ & w3 & Hstop & Hsid & _ & _ & _ & _ & _ & _ & _ & Hraw3 & _).
  destruct (start_sensor_session_ok _ _ _ _ _ _ _ _ Hdb) as (_ & _ & _ & _ & Hbase & _).
  eexists summ, _, w3, rows. split; [rewrite Hrun; exact Hstop|].
  rewrite Hsid, Hraw3, Hraw, Hbase. repeat split; try reflexivity. exact Hrows.
Qed.

Lemma X16_every_sample_persisted_witness :
  exists summ r3 w3 rows,
    record_session demo_cfg demo_world demo_calls 1700000000080 = ok (summ, r3, w3)
    /\ Db.sensor_samples_raw (SessionRecorder.db w3) = rows
    /\ Forall2 (row_of_sample demo_cfg 1) rows (all_samples demo_calls).
Proof.
  destruct (X16_every_sample_persisted demo_cfg demo_world demo_calls 1700000000080 eq_refl)
    as (summ & r3 & w3 & rows & H1 & H2 & H3 & H4 & _).
  exists summ, r3, w3, rows. rewrite H2 in H4.
  split; [exact H1|]. split; [exact H3 | exact H4].
Defined.

(** X17: the 1 Hz aggregate keeps one row per second.  After a recording
    the aggregate table holds what it held before followed by rows of the
    session whose seconds are strictly increasing, so no second appears
    twice; there are at most as many as samples, and at least one as soon
    as one sample was appended. *)
Theorem X17_aggregate_one_row_per_second (c : SessionRecorder.RecorderConfig)
    (w : SessionRecorder.World) (calls : list (Z * list SessionRecorder.SampleDict))
    (clock_stop : Z) :
  Db.valid_kind (Py.strip (SessionRecorder.kind c)) = true ->
  exists summ r3 w3 aggs,
    record_session c w calls clock_stop = ok (summ, r3, w3)
    /\ Db.sensor_samples_agg (SessionRecorder.db w3)
       = Db.sensor_samples_agg (SessionRecorder.db w) ++ aggs
    /\ increasing (map Db.agg_ts_s aggs)
    /\ NoDup (map Db.agg_ts_s aggs)
    /\ Forall (fun a => Db.agg_session_id a = SessionRecorder.sum_session_id summ) aggs
    /\ (List.length aggs <= List.length (all_samples calls))%nat
    /\ (all_samples calls <> [] -> aggs <> []).
Proof.
  intro Hk.
  destruct (record_session_run c w calls clock_stop Hk) as (base & r2 & w2 & Hdb & Hinv & Hrun).
  destruct Hinv as (Hs & _ & Hn & _ & _ & _ & _ & _ & (aggs & Hagg & Hainv) & _).
  destruct Hainv as (Hinc & Hsid & Hlen & Hlast).
  destruct (stop_result r2 (SessionRecorder.mkWorld (SessionRecorder.db w2) clock_stop) _ Hs)
    as (summ & w3 & Hstop & Hsid3 & _ & _ & _ & _ & _ & _ & _ & _ & Hagg3 & _).
  destruct (start_sensor_session_ok _ _ _ _ _ _ _ _ Hdb) as (_ & _ & _ & _ & _ & Hbase & _).
  eexists summ, _, w3, aggs. split; [rewrite Hrun; exact Hstop|].
  rewrite Hsid3, Hagg3, Hagg, Hbase.
  split; [reflexivity|]. split; [exact Hinc|].
  split; [|split; [exact Hsid|split; [lia|]]].
  - clear - Hinc. induction (map Db.agg_ts_s aggs) as [|x l IH]; [constructor|].
    destruct Hinc as [Hx Hl]. constructor; [|apply IH; exact Hl].
    intro Hin. rewrite Forall_forall in Hx. specialize (Hx x Hin). lia.
  - intros Hne Hnil. subst aggs.
    destruct (SessionRecorder._last_agg_s r2).
    + apply (proj2 Hlast). reflexivity.
    + destruct Hlast as [_ H0]. rewrite Hn in H0.
      destruct (all_samples calls); [contradiction | discriminate H0].
Qed.

Lemma X17_aggregate_one_row_per_second_witness :
  exists summ r3 w3 aggs,
    record_session demo_cfg demo_world demo_calls 1700000000080 = ok (summ, r3, w3)
    /\ Db.sensor_samples_agg (SessionRecorder.db w3) = aggs
    /\ NoDup (map Db.agg_ts_s aggs).
Proof.
  destruct (X17_aggregate_one_row_per_second demo_cfg demo_world demo_calls 1700000000080 eq_refl)
    as (summ & r3 & w3 & aggs & H1 & H2 & _ & H3 & _).
  exists summ, r3, w3, aggs. split; [exact H1|]. split; [exact H2 | exact H3].
Defined.






(** X19: stopping returns the recorder to its initial state.  After a
    recording the recorder is what [SessionRecorder.__init__] builds
    from the same configuration, so it can be used again as if new; a
    second stop raises RuntimeError; and the next session gets the next
    id of the storage. *)
Theorem X19_recorder_reusable_after_stop (c : SessionRecorder.RecorderConfig)
    (w : SessionRecorder.World) (calls : list (Z * list SessionRecorder.SampleDict))
    (clock_stop : Z) :
  Db.valid_kind (Py.strip (SessionRecorder.kind c)) = true ->
  exists summ r3 w3,
    record_session c w calls clock_stop = ok (summ, r3, w3)
    /\ r3 = SessionRecorder.init c
    /\ (forall w', SessionRecorder.stop_session_and_compute_summary r3 w'
                   = raise (RuntimeError "No hay sesion activa"))
    /\ Db.next_session_id (SessionRecorder.db w3)
       = (SessionRecorder.sum_session_id summ + 1)%Z
    /\ (forall clk, exists r4 w4,
          SessionRecorder.start_session r3 (SessionRecorder.mkWorld (SessionRecorder.db w3) clk)
          = ok ((SessionRecorder.sum_session_id summ + 1)%Z, r4, w4)).
Proof.
  intro Hk.
  destruct (record_session_run c w calls clock_stop Hk) as (base & r2 & w2 & Hdb & Hinv & Hrun).
  destruct Hinv as (Hs & Hc & _ & _ & _ & _ & He & _ & _ & Hid & _).
  destruct (stop_result r2 (SessionRecorder.mkWorld (SessionRecorder.db w2) clock_stop) _ Hs)
    as (summ & w3 & Hstop & Hsid & _ & _ & _ & _ & _ & _ & _ & _ & _ & Hid3 & _).
  destruct (start_sensor_session_ok _ _ _ _ _ _ _ _ Hdb) as (_ & Hnext & _).
  unfold engine_of in He. rewrite Hc, He in Hstop.
  cbn [SessionRecorder.db] in Hid, Hid3.
  assert (Hnext3 : Db.next_session_id (SessionRecorder.db w3)
                   = (SessionRecorder.sum_session_id summ + 1)%Z) by congruence.
  eexists summ, _, w3. split; [rewrite Hrun; exact Hstop|].
  split; [reflexivity|]. split; [reflexivity|]. split; [exact Hnext3|].
  intro clk.
  destruct (start_session_idle_ok (SessionRecorder.init c)
              (SessionRecorder.mkWorld (SessionRecorder.db w3) clk) eq_refl Hk)
    as (r4 & w4 & H4).
  exists r4, w4. cbn [SessionRecorder.db] in H4. rewrite Hnext3 in H4. exact H4.
Qed.

Lemma X19_recorder_reusable_after_stop_witness :
  exists summ r3 w3,
    record_session demo_cfg demo_world demo_calls 1700000000080 = ok (summ, r3, w3)
    /\ r3 = SessionRecorder.init demo_cfg.
Proof.
  destruct (X19_recorder_reusable_after_stop demo_cfg demo_world demo_calls 1700000000080 eq_refl)
    as (summ & r3 & w3 & H1 & H2 & _).
  exists summ, r3, w3. split; [exact H1 | exact H2].
Defined.

Lemma upsert_summary_row_in (row : Db.SessionSummary) (rows : list Db.SessionSummary) :
  In row (Db.upsert_summary_row row rows).
Proof.
  induction rows as [|r rest IH]; cbn [Db.upsert_summary_row].
  - left. reflexivity.
  - destruct (Db.session_id r =? Db.session_id row)%Z; [left; reflexivity | right; exact IH].
Qed.

Lemma joined_rows_session_ids (db : Db.t) (uid : Z) (d : Db.Day) (row : Db.SessionSummary) :
  In row (Db.joined_rows db uid d) ->
  exists s, In s (Db.sensor_sessions db) /\ Db.id s = Db.session_id row.
Proof.
  unfold Db.joined_rows. intro H. apply in_flat_map in H. destruct H as (s & Hs & Hrow).
  apply filter_In in Hs. apply filter_In in Hrow.
  exists s. split; [exact (proj1 Hs)|]. symmetry. apply Z.eqb_eq. exact (proj2 Hrow).
Qed.

Lemma joined_rows_after_stop (db db' : Db.t) (uid uid' : Z) (k m sp : string)
    (started ended : Db.Datetime) (row : Db.SessionSummary) (d : Db.Day) :
  ids_below db ->
  Db.session_id row = Db.next_session_id db ->
  Db.sensor_sessions db'
  = map (Db.set_ended (Db.next_session_id db) ended)
      (Db.sensor_sessions db
       ++ [Db.mkSensorSession (Db.next_session_id db) uid k m sp started None]) ->
  Db.session_summary db' = Db.upsert_summary_row row (Db.session_summary db) ->
  Db.joined_rows db' uid' d
  = Db.joined_rows db uid' d
    ++ (if (uid =? uid')%Z && (Db.day_of started =? d)%Z
        then filter (fun ss => (Db.session_id ss =? Db.next_session_id db)%Z)
               (Db.upsert_summary_row row (Db.session_summary db))
        else []).
Proof.
  intros Hb Hrow Hss Hsum. unfold Db.joined_rows. rewrite Hss, Hsum, map_app.
  assert (Hold : map (Db.set_ended (Db.next_session_id db) ended) (Db.sensor_sessions db)
                 = Db.sensor_sessions db).
  { unfold ids_below in Hb. clear - Hb.
    induction (Db.sensor_sessions db) as [|s l IH]; [reflexivity|].
    inversion Hb as [|? ? Hs Hl]; subst. cbn [map]. rewrite (IH Hl).
    unfold Db.set_ended. destruct (Db.id s =? Db.next_session_id db)%Z eqn:E; [|reflexivity].
    apply Z.eqb_eq in E. lia. }
  rewrite Hold, filter_app, flat_map_app. f_equal.
  - apply flat_map_ext_on. intros s Hs. apply filter_In in Hs. destruct Hs as [Hs _].
    apply upsert_summary_row_filter_other.
    unfold ids_below in Hb. rewrite Forall_forall in Hb. specialize (Hb s Hs). lia.
  - cbn [map filter]. unfold Db.set_ended. cbn [Db.id]. rewrite Z.eqb_refl.
    unfold Db.completed_session.
    cbn [Db.user_id Db.started_at Db.ended_at Db.id]. rewrite andb_true_r.
    destruct ((uid =? uid')%Z && (Db.day_of started =? d)%Z); cbn [flat_map Db.id].
    + rewrite app_nil_r. reflexivity.
    + reflexivity.
Qed.

(** X20: the rollup returned by stop counts the session only if it began
    today.  On a storage whose session ids are below the next id, the
    daily rollup that [stop_session_and_compute_summary] returns, which is
    also what [get_daily_summary] reads afterwards, contains the summary
    row of the session exactly when the session was started on the day it
    is stopped; a session that began on an earlier day leaves the rollup
    of the stop day as if it had not existed. *)
Theorem X20_stop_rollup_counts_same_day_only (c : SessionRecorder.RecorderConfig)
    (w : SessionRecorder.World) (calls : list (Z * list SessionRecorder.SampleDict))
    (clock_stop : Z) :
  Db.valid_kind (Py.strip (SessionRecorder.kind c)) = true ->
  ids_below (SessionRecorder.db w) ->
  let uid := SessionRecorder.user_id c in
  let sid := Db.next_session_id (SessionRecorder.db w) in
  let start_day := Db.day_of (SessionRecorder.datetime_now w) in
  let today := Db.day_of (clock_stop / 1000)%Z in
  exists summ r3 w3 row,
    record_session c w calls clock_stop = ok (summ, r3, w3)
    /\ summary_of (SessionRecorder.db w3) sid = Some row
    /\ Db.risk_index row = SessionRecorder.risk_index summ
    /\ Db.duration_s row = SessionRecorder.duration_s summ
    /\ (forall now, DbQueries.get_daily_summary (SessionRecorder.db w3) uid (Some today) now
                    = Some (SessionRecorder.daily summ))
    /\ SessionRecorder.daily summ
       = Db.daily_payload uid today (Db.joined_rows (SessionRecorder.db w3) uid today)
    /\ (In row (Db.joined_rows (SessionRecorder.db w3) uid today) <-> start_day = today)
    /\ (start_day = today -> (1 <= Db.sessions_count (SessionRecorder.daily summ))%Z)
    /\ (start_day <> today ->
        SessionRecorder.daily summ
        = Db.daily_payload uid today (Db.joined_rows (SessionRecorder.db w) uid today)).
Proof.
  intros Hk Hb uid sid start_day today.
  destruct (record_session_run c w calls clock_stop Hk) as (base & r2 & w2 & Hdb & Hinv & Hrun).
  destruct Hinv as (Hs & Hc & _ & _ & _ & _ & _ & _ & _ & _ & Hss & Hsum & _).
  cbn [SessionRecorder.db] in Hss, Hsum.
  destruct (stop_result r2 (SessionRecorder.mkWorld (SessionRecorder.db w2) clock_stop) _ Hs)
    as (summ & w3 & Hstop & _ & _ & _ & _ & _ & _ & _ & _ & _ & _ & _ & Hss3 & Hsum3 & Hdaily & Hd3).
  cbv zeta in Hss3, Hdaily. cbn [SessionRecorder.db] in Hss3, Hsum3, Hd3.
  unfold SessionRecorder.datetime_now in Hss3, Hdaily. cbn [SessionRecorder.clock_ms] in Hss3, Hdaily.
  rewrite Hc in Hdaily. fold uid today in Hdaily.
  destruct (start_sensor_session_ok _ _ _ _ _ _ _ _ Hdb) as (_ & _ & Hbs & Hbsum & _).
  rewrite Hss, Hbs in Hss3. rewrite Hsum, Hbsum in Hsum3.
  set (row := Db.mkSessionSummary _ _ _ _ _ _ _ _) in Hsum3.
  assert (Hjoin := fun uid' d =>
            joined_rows_after_stop (SessionRecorder.db w) (SessionRecorder.db w3)
              uid uid' _ _ _ _ _ row d Hb eq_refl Hss3 Hsum3).
  specialize (Hjoin uid today). rewrite Z.eqb_refl in Hjoin. cbn [andb] in Hjoin.
  fold start_day in Hjoin.
  eexists summ, _, w3, row. split; [rewrite Hrun; exact Hstop|].
  split.
  { unfold summary_of. rewrite Hsum3, upsert_summary_row_find.
    cbn [Db.session_id row]. subst row. cbn [Db.session_id]. fold sid.
    rewrite Z.eqb_refl. reflexivity. }
  split; [reflexivity|]. split; [reflexivity|].
  split.
  { intro now. unfold DbQueries.get_daily_summary. rewrite Hd3.
    rewrite upsert_daily_row_find. rewrite Hdaily. cbn [Db.d_user_id Db.d_day Db.daily_payload].
    rewrite !Z.eqb_refl. reflexivity. }
  split; [exact Hdaily|].
  assert (Hin : In row (filter (fun ss => (Db.session_id ss =? sid)%Z)
                          (Db.upsert_summary_row row
                             (Db.session_summary (SessionRecorder.db w))))).
  { apply filter_In. split; [apply upsert_summary_row_in|]. apply Z.eqb_refl. }
  assert (Hnot : ~ In row (Db.joined_rows (SessionRecorder.db w) uid today)).
  { intro H. apply joined_rows_session_ids in H. destruct H as (s & Hs' & Hid).
    unfold ids_below in Hb. rewrite Forall_forall in Hb. specialize (Hb s Hs').
    subst row. cbn [Db.session_id] in Hid. lia. }
  destruct (Z.eqb_spec start_day today) as [E|E].
  - split; [split; [intros _; exact E | intros _; rewrite Hjoin; apply in_or_app; right; exact Hin]|].
    split; [|intro H; contradiction].
    intros _. rewrite Hdaily, Hjoin. cbn [Db.daily_payload Db.sessions_count].
    unfold Db.sql_count, Db.int_or_zero. rewrite length_app.
    destruct (filter _ (Db.upsert_summary_row row _)) as [|x l]; [destruct Hin|].
    cbn [List.length].
    destruct (Z.of_nat _ =? 0)%Z eqn:E0; [apply Z.eqb_eq in E0; lia | lia].
  - rewrite app_nil_r in Hjoin.
    split; [split; [intro H; rewrite Hjoin in H; contradiction | intro H; contradiction]|].
    split; [intro H; contradiction|].
    intros _. rewrite Hdaily, Hjoin. reflexivity.
Qed.

Lemma X20_stop_rollup_counts_same_day_only_witness :
  exists summ r3 w3,
    record_session demo_cfg demo_world demo_calls 1700000000080 = ok (summ, r3, w3)
    /\ (1 <= Db.sessions_count (SessionRecorder.daily summ))%Z.
Proof.
  assert (Hb : ids_below (SessionRecorder.db demo_world)) by (unfold ids_below; simpl; constructor).
  destruct (X20_stop_rollup_counts_same_day_only demo_cfg demo_world demo_calls 1700000000080
              eq_refl Hb)
    as (summ & r3 & w3 & row & H1 & _ & _ & _ & _ & _ & _ & H2 & _).
  exists summ, r3, w3. split; [exact H1 | apply H2; reflexivity].
Defined.

(** A session started 80 s before midnight and stopped after it: the
    rollup that stop returns has no session. *)
Example stop_after_midnight_rollup_empty :
  exists summ r3 w3,
    record_session demo_cfg (SessionRecorder.mkWorld Db.empty 1700006320000) demo_calls
      1700006400500 = ok (summ, r3, w3)
    /\ SessionRecorder.duration_s summ == 3 # 50
    /\ Db.sessions_count (SessionRecorder.daily summ) = 0%Z
    /\ Db.d_duration_s (SessionRecorder.daily summ) == 0.
Proof. eexists _, _, _. split; [vm_compute; reflexivity|]. repeat split. Qed.


(* ===================================================================== *)
(** ** Monitor view: the stats entry across rows and ticks *)
(* ===================================================================== *)

Lemma maybe_alert_frame (k : MonitorView.AlertKey) (now : Z) (st : MonitorView.Stats) :
  let st' := fst (MonitorView.maybe_alert k now st) in
  let log := snd (MonitorView.maybe_alert k now st) in
  measures st' = measures st
  /\ MonitorView.first_ts_ms st' = MonitorView.first_ts_ms st
  /\ MonitorView.last_ts_ms st' = MonitorView.last_ts_ms st
  /\ MonitorView.live_alerts st'
     = fold_left (fun la t => MonitorView.last5 (la ++ [t])) (texts_of log)
         (MonitorView.live_alerts st).
Proof.
  unfold MonitorView.maybe_alert, MonitorView.push_alert.
  destruct (Py.leb _ _); [|repeat split].
  destruct (_ <? _)%Z; repeat split.
Qed.

Lemma fold_left_app_texts (l1 l2 : list (MonitorView.AlertKey * Z)) (la : list string) :
  fold_left (fun la t => MonitorView.last5 (la ++ [t])) (texts_of (l1 ++ l2)) la
  = fold_left (fun la t => MonitorView.last5 (la ++ [t])) (texts_of l2)
      (fold_left (fun la t => MonitorView.last5 (la ++ [t])) (texts_of l1) la).
Proof. unfold texts_of. rewrite map_app, fold_left_app. reflexivity. Qed.

Lemma process_row_frame (st : MonitorView.Stats) (r : MonitorView.Row) :
  let st' := fst (MonitorView.process_row st r) in
  let log := snd (MonitorView.process_row st r) in
  measures st' = measures (MonitorView.accumulate st r)
  /\ MonitorView.first_ts_ms st' = MonitorView.first_ts_ms st
  /\ MonitorView.last_ts_ms st' = MonitorView.last_ts_ms st
  /\ MonitorView.live_alerts st'
     = fold_left (fun la t => MonitorView.last5 (la ++ [t])) (texts_of log)
         (MonitorView.live_alerts st).
Proof.
  unfold MonitorView.process_row.
  set (st0 := MonitorView.accumulate st r). set (now := MonitorView.ts_ms r).
  destruct (maybe_alert_frame MonitorView.thor now st0) as (Hm1 & Hf1 & Hl1 & Ha1).
  destruct (MonitorView.maybe_alert MonitorView.thor now st0) as [st1 e1]. cbn [fst snd] in *.
  destruct (maybe_alert_frame MonitorView.lum now st1) as (Hm2 & Hf2 & Hl2 & Ha2).
  destruct (MonitorView.maybe_alert MonitorView.lum now st1) as [st2 e2]. cbn [fst snd] in *.
  destruct (maybe_alert_frame MonitorView.comp now st2) as (Hm3 & Hf3 & Hl3 & Ha3).
  destruct (MonitorView.maybe_alert MonitorView.comp now st2) as [st3 e3]. cbn [fst snd] in *.
  cbv zeta. cbn [fst snd].
  split; [congruence|]. split; [rewrite Hf3, Hf2, Hf1; reflexivity|].
  split; [rewrite Hl3, Hl2, Hl1; reflexivity|].
  rewrite !fold_left_app_texts, Ha3, Ha2, Ha1. reflexivity.
Qed.

Lemma accumulate_measures (st1 st2 : MonitorView.Stats) (r : MonitorView.Row) :
  measures st1 = measures st2 ->
  measures (MonitorView.accumulate st1 r) = measures (MonitorView.accumulate st2 r).
Proof.
  unfold measures. intro H.
  injection H as H1 H2 H3 H4 H5 H6 H7 H8 H9 H10 H11 H12.
  cbn [MonitorView.accumulate MonitorView.prev_ts_ms MonitorView.thor_red_s
       MonitorView.lum_red_s MonitorView.comp_sum MonitorView.comp_peak MonitorView.samples
       MonitorView.thor_red_streak_s MonitorView.lum_red_streak_s
       MonitorView.comp_high_streak_s MonitorView.last_thor_zone MonitorView.last_lum_zone
       MonitorView.last_comp].
  rewrite H1, H2, H3, H4, H5, H6, H7, H8, H9. reflexivity.
Qed.

Lemma accumulate_all_measures (rows : list MonitorView.Row) (st1 st2 : MonitorView.Stats) :
  measures st1 = measures st2 ->
  measures (accumulate_all st1 rows) = measures (accumulate_all st2 rows).
Proof.
  revert st1 st2. induction rows as [|r rest IH]; intros st1 st2 H; [exact H|].
  apply (IH _ _ (accumulate_measures st1 st2 r H)).
Qed.

Lemma process_rows_frame (rows : list MonitorView.Row) (st : MonitorView.Stats) :
  let st' := fst (MonitorView.process_rows st rows) in
  let log := snd (MonitorView.process_rows st rows) in
  measures st' = measures (accumulate_all st rows)
  /\ MonitorView.first_ts_ms st' = MonitorView.first_ts_ms st
  /\ MonitorView.last_ts_ms st' = MonitorView.last_ts_ms st
  /\ MonitorView.live_alerts st'
     = fold_left (fun la t => MonitorView.last5 (la ++ [t])) (texts_of log)
         (MonitorView.live_alerts st).
Proof.
  revert st. induction rows as [|r rest IH]; intro st.
  - repeat split.
  - cbn [MonitorView.process_rows].
    destruct (process_row_frame st r) as (Hm1 & Hf1 & Hl1 & Ha1).
    destruct (MonitorView.process_row st r) as [st1 e1]. cbn [fst snd] in *.
    destruct (IH st1) as (Hm2 & Hf2 & Hl2 & Ha2).
    destruct (MonitorView.process_rows st1 rest) as [st2 e2]. cbn [fst snd] in *.
    split; [|split; [congruence | split; [congruence|]]].
    + rewrite Hm2. unfold accumulate_all at 2. cbn [fold_left].
      apply accumulate_all_measures. exact Hm1.
    + rewrite fold_left_app_texts, Ha2, Ha1. reflexivity.
Qed.

Lemma maybe_alert_set_cursor (k : MonitorView.AlertKey) (now : Z) (st : MonitorView.Stats)
    (first : option Z) (last : Z) :
  MonitorView.maybe_alert k now (MonitorView.set_cursor st first last)
  = (MonitorView.set_cursor (fst (MonitorView.maybe_alert k now st)) first last,
     snd (MonitorView.maybe_alert k now st)).
Proof.
  unfold MonitorView.maybe_alert, MonitorView.push_alert.
  cbn [MonitorView.set_cursor MonitorView.cooldown MonitorView.streak_of].
  replace (MonitorView.streak_of (MonitorView.set_cursor st first last) k)
    with (MonitorView.streak_of st k) by (destruct k; reflexivity).
  destruct (Py.leb _ _); [|reflexivity].
  destruct (_ <? _)%Z; reflexivity.
Qed.

Lemma process_row_set_cursor (st : MonitorView.Stats) (r : MonitorView.Row)
    (first : option Z) (last : Z) :
  MonitorView.process_row (MonitorView.set_cursor st first last) r
  = (MonitorView.set_cursor (fst (MonitorView.process_row st r)) first last,
     snd (MonitorView.process_row st r)).
Proof.
  unfold MonitorView.process_row.
  change (MonitorView.accumulate (MonitorView.set_cursor st first last) r)
    with (MonitorView.set_cursor (MonitorView.accumulate st r) first last).
  set (st0 := MonitorView.accumulate st r). set (now := MonitorView.ts_ms r).
  rewrite maybe_alert_set_cursor.
  destruct (MonitorView.maybe_alert MonitorView.thor now st0) as [st1 e1]. cbn [fst snd].
  rewrite maybe_alert_set_cursor.
  destruct (MonitorView.maybe_alert MonitorView.lum now st1) as [st2 e2]. cbn [fst snd].
  rewrite maybe_alert_set_cursor.
  destruct (MonitorView.maybe_alert MonitorView.comp now st2) as [st3 e3]. reflexivity.
Qed.

Lemma process_rows_set_cursor (rows : list MonitorView.Row) (st : MonitorView.Stats)
    (first : option Z) (last : Z) :
  MonitorView.process_rows (MonitorView.set_cursor st first last) rows
  = (MonitorView.set_cursor (fst (MonitorView.process_rows st rows)) first last,
     snd (MonitorView.process_rows st rows)).
Proof.
  revert st. induction rows as [|r rest IH]; intro st; [reflexivity|].
  cbn [MonitorView.process_rows]. rewrite process_row_set_cursor.
  destruct (MonitorView.process_row st r) as [st1 e1]. cbn [fst snd].
  rewrite IH. destruct (MonitorView.process_rows st1 rest) as [st2 e2]. reflexivity.
Qed.

Lemma process_rows_app (rows1 rows2 : list MonitorView.Row) (st : MonitorView.Stats) :
  MonitorView.process_rows st (rows1 ++ rows2)
  = (fst (MonitorView.process_rows (fst (MonitorView.process_rows st rows1)) rows2),
     snd (MonitorView.process_rows st rows1)
     ++ snd (MonitorView.process_rows (fst (MonitorView.process_rows st rows1)) rows2)).
Proof.
  revert st. induction rows1 as [|r rest IH]; intro st.
  - cbn. destruct (MonitorView.process_rows st rows2). reflexivity.
  - cbn [app MonitorView.process_rows].
    destruct (MonitorView.process_row st r) as [st1 e1].
    rewrite IH.
    destruct (MonitorView.process_rows st1 rest) as [st2 e2]. cbn [fst snd].
    rewrite app_assoc. reflexivity.
Qed.

(** The cursor that a tick sets: the first timestamp once, the last
    timestamp of the rows. *)
Lemma tick_eq (st : MonitorView.Stats) (r0 : MonitorView.Row) (rest : list MonitorView.Row) :
  MonitorView.tick st (r0 :: rest)
  = (MonitorView.set_cursor (fst (MonitorView.process_rows st (r0 :: rest)))
       (match MonitorView.first_ts_ms st with
        | None => Some (MonitorView.ts_ms r0)
        | Some f => Some f
        end)
       (match Py.last_item (r0 :: rest) with
        | Some r => MonitorView.ts_ms r
        | None => MonitorView.last_ts_ms st
        end),
     snd (MonitorView.process_rows st (r0 :: rest))).
Proof. unfold MonitorView.tick. apply process_rows_set_cursor. Qed.

Lemma last_item_app {A} (l1 l2 : list A) :
  Py.last_item (l1 ++ l2)
  = match Py.last_item l2 with Some x => Some x | None => Py.last_item l1 end.
Proof.
  unfold Py.last_item. rewrite rev_app_distr.
  destruct (rev l2); reflexivity.
Qed.

Lemma last_item_cons_some {A} (x : A) (l : list A) :
  exists y, Py.last_item (x :: l) = Some y.
Proof.
  unfold Py.last_item. cbn [rev].
  destruct (rev l) as [|y l']; [exists x | exists y]; reflexivity.
Qed.

Lemma tick_app (st : MonitorView.Stats) (rows1 rows2 : list MonitorView.Row) :
  MonitorView.tick st (rows1 ++ rows2)
  = (fst (MonitorView.tick (fst (MonitorView.tick st rows1)) rows2),
     snd (MonitorView.tick st rows1)
     ++ snd (MonitorView.tick (fst (MonitorView.tick st rows1)) rows2)).
Proof.
  destruct rows1 as [|a l1].
  - cbn [app MonitorView.tick fst snd]. destruct (MonitorView.tick st rows2). reflexivity.
  - destruct rows2 as [|b l2].
    + rewrite app_nil_r.
      generalize (MonitorView.tick st (a :: l1)). intros [st1 e1].
      cbn [MonitorView.tick fst snd]. rewrite app_nil_r. reflexivity.
    + change ((a :: l1) ++ b :: l2) with (a :: (l1 ++ b :: l2)).
      rewrite (tick_eq st a (l1 ++ b :: l2)), (tick_eq st a l1). cbn [fst snd].
      rewrite tick_eq, process_rows_set_cursor. cbn [fst snd].
      change (a :: (l1 ++ b :: l2)) with ((a :: l1) ++ b :: l2).
      rewrite process_rows_app, last_item_app. cbn [fst snd].
      destruct (last_item_cons_some b l2) as [y ->].
      destruct (process_rows_frame (a :: l1) st) as (_ & Hf & _).
      cbn [MonitorView.set_cursor MonitorView.first_ts_ms].
      f_equal.
      destruct (MonitorView.first_ts_ms st); reflexivity.
Qed.

Lemma run_ticks_concat (batches : list (list MonitorView.Row)) (st : MonitorView.Stats) :
  run_ticks st batches = MonitorView.tick st (List.concat batches).
Proof.
  revert st. induction batches as [|b rest IH]; intro st; [reflexivity|].
  cbn [run_ticks List.concat]. rewrite tick_app.
  destruct (MonitorView.tick st b) as [st1 e1]. cbn [fst snd].
  rewrite IH.
  destruct (MonitorView.tick st1 (List.concat rest)). reflexivity.
Qed.

Lemma tick_frame (st : MonitorView.Stats) (rows : list MonitorView.Row) :
  let st' := fst (MonitorView.tick st rows) in
  let log := snd (MonitorView.tick st rows) in
  measures st' = measures (accumulate_all st rows)
  /\ log = snd (MonitorView.process_rows st rows)
  /\ MonitorView.alerts_count st'
     = (MonitorView.alerts_count st + Z.of_nat (List.length log))%Z
  /\ MonitorView.live_alerts st'
     = fold_left (fun la t => MonitorView.last5 (la ++ [t])) (texts_of log)
         (MonitorView.live_alerts st)
  /\ MonitorView.last_ts_ms st' = last_ts_of (MonitorView.last_ts_ms st) rows
  /\ MonitorView.first_ts_ms st'
     = match MonitorView.first_ts_ms st, rows with
       | None, r0 :: _ => Some (MonitorView.ts_ms r0)
       | f, _ => f
       end.
Proof.
  destruct rows as [|r0 rest].
  - cbn [MonitorView.tick fst snd MonitorView.process_rows List.length].
    repeat split; try reflexivity; try lia.
    destruct (MonitorView.first_ts_ms st); reflexivity.
  - rewrite tick_eq. cbn [fst snd].
    destruct (process_rows_frame (r0 :: rest) st) as (Hm & _ & _ & Ha).
    destruct (process_rows_inv (r0 :: rest) st) as (_ & _ & Hc).
    cbv zeta in Hm, Ha. unfold last_ts_of.
    split; [exact Hm|]. split; [reflexivity|]. split; [exact Hc|].
    split; [exact Ha|]. split; [reflexivity|].
    cbn [MonitorView.set_cursor MonitorView.first_ts_ms].
    destruct (MonitorView.first_ts_ms st); reflexivity.
Qed.

Lemma last5_fold (texts hist : list string) :
  fold_left (fun la t => MonitorView.last5 (la ++ [t])) texts (MonitorView.last5 hist)
  = MonitorView.last5 (hist ++ texts).
Proof.
  revert hist. induction texts as [|t rest IH]; intro hist; cbn [fold_left].
  - rewrite app_nil_r. reflexivity.
  - replace (MonitorView.last5 (MonitorView.last5 hist ++ [t]))
      with (MonitorView.last5 (hist ++ [t])).
    + rewrite IH, <- app_assoc. reflexivity.
    + symmetry. exact (last_n_snoc 5 hist t).
Qed.

Lemma last5_length {A} (l : list A) : (List.length (MonitorView.last5 l) <= 5)%nat.
Proof. unfold MonitorView.last5. rewrite length_skipn. lia. Qed.

(** X21: how the rows are cut into timer ticks does not matter.  Running
    the ticks one after the other gives the stats entry and the alerts of
    a single tick over all the rows; so two ways of batching the same
    rows end in the same state with the same alerts. *)
Theorem X21_ticks_independent_of_batching (st : MonitorView.Stats)
    (batches : list (list MonitorView.Row)) :
  run_ticks st batches = MonitorView.tick st (List.concat batches)
  /\ (forall batches',
        List.concat batches' = List.concat batches ->
        run_ticks st batches' = run_ticks st batches)
  /\ (forall rows1 rows2,
        MonitorView.tick st (rows1 ++ rows2)
        = (fst (MonitorView.tick (fst (MonitorView.tick st rows1)) rows2),
           snd (MonitorView.tick st rows1)
           ++ snd (MonitorView.tick (fst (MonitorView.tick st rows1)) rows2))).
Proof.
  split; [apply run_ticks_concat|]. split.
  - intros batches' H. rewrite !run_ticks_concat, H. reflexivity.
  - intros rows1 rows2. apply tick_app.
Qed.

(** X22: [live_alerts] is the last five alert texts.  If the list held
    the last five of the texts [hist], then after any ticks it holds the
    last five of [hist] followed by the texts of the alerts emitted, in
    order; it never has more than five entries. *)
Theorem X22_live_alerts_last_five (st : MonitorView.Stats)
    (batches : list (list MonitorView.Row)) (hist : list string) :
  MonitorView.live_alerts st = MonitorView.last5 hist ->
  let st' := fst (run_ticks st batches) in
  let log := snd (run_ticks st batches) in
  MonitorView.live_alerts st' = MonitorView.last5 (hist ++ texts_of log)
  /\ (List.length (MonitorView.live_alerts st') <= 5)%nat
  /\ MonitorView.alerts_count st'
     = (MonitorView.alerts_count st + Z.of_nat (List.length log))%Z.
Proof.
  intros Hh st' log. subst st' log. rewrite run_ticks_concat.
  destruct (tick_frame st (List.concat batches)) as (_ & _ & Hc & Ha & _).
  cbv zeta in Ha, Hc. rewrite Ha, Hh, last5_fold.
  split; [reflexivity|]. split; [apply last5_length | exact Hc].
Qed.

Lemma X22_live_alerts_last_five_witness :
  (List.length (MonitorView.live_alerts
                  (fst (run_ticks MonitorView.stats_init
                          [red_stream 1700000000000 100; red_stream 1700000002000 100])))
   <= 5)%nat.
Proof.
  apply (X22_live_alerts_last_five MonitorView.stats_init
           [red_stream 1700000000000 100; red_stream 1700000002000 100] []).
  reflexivity.
Defined.















(* ===================================================================== *)
(** ** Monitor view: helpers *)
(* ===================================================================== *)



Lemma t_last_cons2 (x y : Q) (l : list Q) : t_last (x :: y :: l) = t_last (y :: l).
Proof.
  unfold t_last. change (x :: y :: l) with ([x] ++ y :: l). rewrite last_item_app.
  destruct (last_item_cons_some y l) as [e ->]. reflexivity.
Qed.

Lemma nondecreasing_le_last (l : list Q) (x : Q) :
  nondecreasing (x :: l) -> x <= t_last (x :: l).
Proof.
  revert x. induction l as [|y l IH]; intros x H.
  - unfold t_last. cbn. lra.
  - rewrite t_last_cons2. destruct H as [Hx Hl].
    inversion Hx as [|? ? Hxy _]; subst.
    specialize (IH y Hl). lra.
Qed.





Example segments_demo :
  MonitorHelpers._segments_from_mask [0; 1; 2; 3; 4] [false; true; true; false; true]
  = [(1, 3); (4, 4)]
  /\ MonitorHelpers._segments_from_mask [0; 1; 2] [true; true] = [].
Proof. split; reflexivity. Qed.

(** X26: the view's mappers yield only values that the storage and the
    engine know.  [_map_mode_ui_to_db] returns "desk" exactly for the
    input that normalises to "office" and "train" otherwise, always a key
    of DEFAULT_THRESHOLDS; applied to its own result it returns "train".
    [_map_sport_ui_to_db] returns "gym" or "crossfit" and maps its own
    result to itself. *)
Theorem X26_mappers_yield_known_values (mode_ui sport_ui : option string) :
  let m := MonitorHelpers._map_mode_ui_to_db mode_ui in
  let s := MonitorHelpers._map_sport_ui_to_db sport_ui in
  (m = "desk"%string \/ m = "train"%string)
  /\ (m = "desk"%string <-> MonitorHelpers.norm mode_ui = "office"%string)
  /\ PostureEngine.DEFAULT_THRESHOLDS m <> None
  /\ MonitorHelpers._map_mode_ui_to_db (Some m) = "train"%string
  /\ (s = "gym"%string \/ s = "crossfit"%string)
  /\ (s = "crossfit"%string <->
      MonitorHelpers.norm sport_ui = "crossfit"%string
      \/ MonitorHelpers.norm sport_ui = "strength"%string)
  /\ MonitorHelpers._map_sport_ui_to_db (Some s) = s.
Proof.
  cbv zeta. unfold MonitorHelpers._map_mode_ui_to_db, MonitorHelpers._map_sport_ui_to_db.
  set (nm := MonitorHelpers.norm mode_ui). set (ns := MonitorHelpers.norm sport_ui).
  split; [destruct (String.eqb nm "office"); [left | right]; reflexivity|].
  split.
  { destruct (String.eqb_spec nm "office") as [E|E].
    - split; intros _; [exact E | reflexivity].
    - split; [discriminate | intro H; contradiction]. }
  split; [destruct (String.eqb nm "office"); discriminate|].
  split; [destruct (String.eqb nm "office"); reflexivity|].
  destruct (String.eqb_spec ns "gym") as [Eg|Eg]; cbn [orb].
  - rewrite Eg. split; [left; reflexivity|].
    split; [|reflexivity].
    split; [discriminate | intros [H | H]; discriminate H].
  - destruct (String.eqb_spec ns "crossfit") as [Ec|Ec].
    + rewrite Ec. split; [right; reflexivity|].
      split; [|reflexivity].
      split; [intros _; left; reflexivity | reflexivity].
    + destruct (String.eqb_spec ns "strength") as [Es|Es].
      * split; [right; reflexivity|]. split; [|reflexivity].
        split; [intros _; right; exact Es | reflexivity].
      * split; [left; reflexivity|]. split; [|reflexivity].
        split; [discriminate | intros [H | H]; contradiction].
Qed.

Lemma filter_all_after (l x : Q) (rest : list Q) :
  l < x -> Forall (fun y => x <= y) rest -> filter (fun y => Py.ltb l y) rest = rest.
Proof.
  intros Hl H. induction H as [|y rest Hy _ IH]; [reflexivity|].
  cbn [filter]. rewrite (proj2 (ltb_true l y)) by lra. rewrite IH. reflexivity.
Qed.

Lemma first_after_sorted (l : Q) (t : list Q) :
  nondecreasing t ->
  skipn (MonitorHelpers.first_after l t) t = filter (fun y => Py.ltb l y) t.
Proof.
  induction t as [|x rest IH]; intro H; [reflexivity|].
  destruct H as [Hx Hrest]. cbn [MonitorHelpers.first_after filter].
  case_ltb l x.
  - cbn [skipn]. rewrite (filter_all_after l x rest E Hx). reflexivity.
  - cbn [skipn]. apply IH. exact Hrest.
Qed.

Lemma nondecreasing_below_last (t : list Q) (e : Q) :
  nondecreasing t -> Py.last_item t = Some e -> Forall (fun x => x <= e) t.
Proof.
  induction t as [|x rest IH]; intros H He; [constructor|].
  destruct H as [Hx Hrest].
  pose proof (nondecreasing_le_last rest x (conj Hx Hrest)) as Hle.
  unfold t_last in Hle. rewrite He in Hle.
  constructor; [exact Hle|].
  destruct rest as [|y rest']; [constructor|].
  apply IH; [exact Hrest|].
  change (x :: y :: rest') with ([x] ++ y :: rest') in He. rewrite last_item_app in He.
  destruct (last_item_cons_some y rest') as [z Hz].
  rewrite Hz in He |- *. exact He.
Qed.

Lemma first_after_all (e : Q) (t : list Q) :
  Forall (fun x => x <= e) t -> MonitorHelpers.first_after e t = List.length t.
Proof.
  intro H. induction H as [|x rest Hx _ IH]; [reflexivity|].
  cbn [MonitorHelpers.first_after List.length].
  rewrite (proj2 (ltb_false e x) Hx), IH. reflexivity.
Qed.

Lemma map_nth_seq {A B} (h : A -> B) (d : A) (t : list A) (s : nat) :
  map (fun i => h (nth i t d)) (seq s (List.length t - s)) = map h (skipn s t).
Proof.
  revert s. induction t as [|x rest IH]; intro s.
  - cbn. destruct s; reflexivity.
  - destruct s as [|s'].
    + cbn [List.length Nat.sub skipn seq map nth]. f_equal.
      rewrite <- seq_shift, map_map. cbn [nth].
      specialize (IH O). rewrite Nat.sub_0_r in IH. exact IH.
    + cbn [List.length Nat.sub skipn].
      rewrite <- seq_shift, map_map. cbn [nth]. apply IH.
Qed.

Lemma last_item_map {A B} (f : A -> B) (l : list A) :
  Py.last_item (map f l) = option_map f (Py.last_item l).
Proof.
  unfold Py.last_item. rewrite <- map_rev. destruct (rev l); reflexivity.
Qed.

Lemma window_rows_ts (win : MonitorHelpers.Window) (stats : MonitorHelpers.Cursor)
    (base : Z) (s : nat) :
  map MonitorView.ts_ms
    (map (MonitorHelpers.row_of_index win stats base)
         (seq s (List.length (MonitorHelpers.win_t win) - s)))
  = map (fun ti => (base + Py.int (ti * 1000))%Z) (skipn s (MonitorHelpers.win_t win)).
Proof.
  rewrite map_map. cbn [MonitorHelpers.row_of_index MonitorView.ts_ms].
  apply (map_nth_seq (fun ti => (base + Py.int (ti * 1000))%Z) 0).
Qed.

(** X27: the window wrapper never returns a sample twice.  On a window
    whose time axis never goes back, [_get_samples_since_from_window]
    returns one row for each time after the cursor [last_t_s] (for every
    time when there is no cursor yet), stamped base + int(t * 1000) with
    the base fixed at the first poll; it moves the cursor to the last
    time, so polling the same window again returns nothing and changes
    nothing.  With a new cursor the last row is stamped with the host
    time of the poll.  Every row has a compensation index in [0, 100]
    and carries its host timestamp as both sensor timestamps.  An empty
    window returns nothing and leaves the stats as they are. *)
Theorem X27_window_poll_no_duplicates (win : MonitorHelpers.Window)
    (stats : MonitorHelpers.Cursor) (now now' : Z) :
  nondecreasing (MonitorHelpers.win_t win) ->
  let t := MonitorHelpers.win_t win in
  let rows := fst (MonitorHelpers._get_samples_since_from_window win stats now) in
  let stats1 := snd (MonitorHelpers._get_samples_since_from_window win stats now) in
  (t = [] -> rows = [] /\ stats1 = stats)
  /\ (t <> [] ->
      exists base,
        MonitorHelpers.base_epoch_ms stats1 = Some base
        /\ (forall b, MonitorHelpers.base_epoch_ms stats = Some b -> base = b)
        /\ (MonitorHelpers.base_epoch_ms stats = None ->
            base = (now - Py.int (t_last t * 1000))%Z)
        /\ map MonitorView.ts_ms rows
           = map (fun ti => (base + Py.int (ti * 1000))%Z)
               (match MonitorHelpers.last_t_s stats with
                | None => t
                | Some l => filter (fun ti => Py.ltb l ti) t
                end)
        /\ MonitorHelpers.last_t_s stats1 = Some (t_last t)
        /\ MonitorHelpers._get_samples_since_from_window win stats1 now' = ([], stats1)
        /\ (MonitorHelpers.last_t_s stats = None ->
            MonitorHelpers.base_epoch_ms stats = None ->
            MonitorHelpers.cur_last_ts_ms stats1 = now))
  /\ Forall (fun r => 0 <= MonitorView.comp_index r <= 100
                      /\ MonitorView.T_imu_ts_ms r = MonitorView.ts_ms r
                      /\ MonitorView.L_imu_ts_ms r = MonitorView.ts_ms r
                      /\ MonitorView.L_pitch r == (85 # 100) * MonitorView.T_pitch r) rows.
Proof.
  intros Hnd t rows stats1. subst rows stats1.
  unfold MonitorHelpers._get_samples_since_from_window. fold t.
  split; [|split].
  - intro Ht. rewrite Ht. cbn. split; reflexivity.
  - intro Hne.
    assert (Hlast : exists e, Py.last_item t = Some e).
    { destruct t as [|x l]; [contradiction | apply last_item_cons_some]. }
    destruct Hlast as [e He]. rewrite He. cbn [fst snd].
    assert (Htl : t_last t = e) by (unfold t_last; rewrite He; reflexivity).
    set (base := match MonitorHelpers.base_epoch_ms stats with
                 | Some b => b
                 | None => (now - Py.int (e * 1000))%Z
                 end).
    set (start_i := match MonitorHelpers.last_t_s stats with
                    | Some l0 => MonitorHelpers.first_after l0 t
                    | None => O
                    end).
    set (rows := map (MonitorHelpers.row_of_index win stats base)
                     (seq start_i (List.length t - start_i))).
    assert (Hts : map MonitorView.ts_ms rows
                  = map (fun ti => (base + Py.int (ti * 1000))%Z) (skipn start_i t)).
    { subst rows t. apply window_rows_ts. }
    exists base. cbn [MonitorHelpers.base_epoch_ms MonitorHelpers.last_t_s
                      MonitorHelpers.cur_last_ts_ms].
    split; [reflexivity|].
    split; [intros b Hb; subst base; rewrite Hb; reflexivity|].
    split; [intro Hb; subst base; rewrite Hb, Htl; reflexivity|].
    split.
    { rewrite Hts. subst start_i.
      destruct (MonitorHelpers.last_t_s stats) as [l0|]; [|reflexivity].
      rewrite (first_after_sorted l0 t Hnd). reflexivity. }
    split; [rewrite Htl; reflexivity|].
    split.
    { cbn [MonitorHelpers.base_epoch_ms MonitorHelpers.last_t_s
           MonitorHelpers.cur_last_ts_ms MonitorHelpers.thr_active_thor
           MonitorHelpers.thr_active_lum].
      rewrite (first_after_all e t (nondecreasing_below_last t e Hnd He)).
      rewrite Nat.sub_diag. cbn [seq map]. unfold Py.last_item at 1. cbn [rev].
      reflexivity. }
    intros Hl Hb.
    pose proof (f_equal Py.last_item Hts) as Hlt.
    rewrite !last_item_map in Hlt.
    subst start_i. rewrite Hl in Hlt. cbn [skipn] in Hlt. rewrite He in Hlt.
    destruct (Py.last_item rows) as [r|]; [|discriminate Hlt].
    cbn [option_map] in Hlt. injection Hlt as ->.
    subst base. rewrite Hb. lia.
  - destruct (Py.last_item t) as [e|]; cbn [fst]; [|constructor].
    apply Forall_forall. intros r Hr. apply in_map_iff in Hr.
    destruct Hr as (i & <- & _).
    cbn [MonitorHelpers.row_of_index MonitorView.comp_index MonitorView.T_imu_ts_ms
         MonitorView.L_imu_ts_ms MonitorView.ts_ms MonitorView.L_pitch MonitorView.T_pitch].
    split; [apply comp_index_simple_range|].
    split; [reflexivity|]. split; [reflexivity|]. ring.
Qed.

Lemma X27_window_poll_no_duplicates_witness :
  let win := MonitorHelpers.mkWindow [0; 1 # 50; 2 # 50] [1; 20; 3] [0; 0; 0] [0; 0; 0] in
  let res := MonitorHelpers._get_samples_since_from_window win cursor_init 1700000000000 in
  MonitorHelpers._get_samples_since_from_window win (snd res) 1700000000040 = ([], snd res).
Proof.
  cbv zeta.
  destruct (X27_window_poll_no_duplicates
              (MonitorHelpers.mkWindow [0; 1 # 50; 2 # 50] [1; 20; 3] [0; 0; 0] [0; 0; 0])
              cursor_init 1700000000000 1700000000040) as (_ & H & _).
  - simpl. repeat split; repeat constructor; unfold Qle; simpl; lia.
  - destruct H as (base & _ & _ & _ & _ & _ & H & _); [discriminate | exact H].
Defined.

(** On an axis that goes back the wrapper can return a sample again: the
    cursor is the last time, not the largest. *)
Example window_unsorted_repeats :
  let win := MonitorHelpers.mkWindow [1; 3; 2] [0; 0; 0] [0; 0; 0] [0; 0; 0] in
  let res := MonitorHelpers._get_samples_since_from_window win cursor_init 1700000000000 in
  map MonitorView.ts_ms (fst res) = [1699999999000; 1700000001000; 1700000000000]%Z
  /\ map MonitorView.ts_ms
       (fst (MonitorHelpers._get_samples_since_from_window win (snd res) 1700000000040))
     = [1700000001000; 1700000000000]%Z.
Proof. split; reflexivity. Qed.


(* ===================================================================== *)
(** ** Storage: the summaries of a week *)
(* ===================================================================== *)

Lemma insert_by_day_in (r x : Db.DailySummary) (l : list Db.DailySummary) :
  In x (DbRange.insert_by_day r l) <-> x = r \/ In x l.
Proof.
  induction l as [|y rest IH]; cbn [DbRange.insert_by_day].
  - cbn. intuition.
  - destruct (Db.d_day r <? Db.d_day y)%Z; cbn [In]; [intuition|].
    rewrite IH. intuition.
Qed.

Lemma order_by_day_in (x : Db.DailySummary) (l : list Db.DailySummary) :
  In x (DbRange.order_by_day l) <-> In x l.
Proof.
  induction l as [|y rest IH]; [reflexivity|].
  unfold DbRange.order_by_day in *. cbn [fold_right In].
  rewrite insert_by_day_in, IH. intuition.
Qed.

Lemma insert_by_day_ascending (r : Db.DailySummary) (l : list Db.DailySummary) :
  ascending (map Db.d_day l) -> ascending (map Db.d_day (DbRange.insert_by_day r l)).
Proof.
  induction l as [|y rest IH]; intro H; cbn [DbRange.insert_by_day].
  - cbn. split; constructor.
  - cbn [map ascending] in H. destruct H as [Hy Hrest].
    destruct (Db.d_day r <? Db.d_day y)%Z eqn:E.
    + apply Z.ltb_lt in E. cbn [map ascending].
      split; [|split; assumption].
      constructor; [lia|]. eapply Forall_impl; [|exact Hy]. cbn. intros a Ha. lia.
    + apply Z.ltb_ge in E. cbn [map ascending]. split; [|apply IH; exact Hrest].
      apply Forall_forall. intros a Ha. apply in_map_iff in Ha.
      destruct Ha as (x & <- & Hx). apply insert_by_day_in in Hx.
      destruct Hx as [-> | Hx]; [exact E|].
      rewrite Forall_forall in Hy. apply Hy. apply in_map. exact Hx.
Qed.

Lemma order_by_day_ascending (l : list Db.DailySummary) :
  ascending (map Db.d_day (DbRange.order_by_day l)).
Proof.
  induction l as [|y rest IH]; [exact I|].
  unfold DbRange.order_by_day in *. cbn [fold_right].
  apply insert_by_day_ascending. exact IH.
Qed.

Lemma order_by_day_length (l : list Db.DailySummary) :
  List.length (DbRange.order_by_day l) = List.length l.
Proof.
  induction l as [|y rest IH]; [reflexivity|].
  unfold DbRange.order_by_day in *. cbn [fold_right List.length]. rewrite <- IH.
  generalize (fold_right DbRange.insert_by_day [] rest) as m. intro m.
  induction m as [|x m IHm]; cbn [DbRange.insert_by_day]; [reflexivity|].
  destruct (Db.d_day y <? Db.d_day x)%Z; cbn [List.length]; [reflexivity|].
  rewrite IHm. reflexivity.
Qed.

Lemma upsert_daily_row_in (row : Db.DailySummary) (rows : list Db.DailySummary) :
  In row (Db.upsert_daily_row row rows).
Proof.
  induction rows as [|r rest IH]; cbn [Db.upsert_daily_row].
  - left. reflexivity.
  - destruct ((Db.d_user_id r =? Db.d_user_id row)%Z && (Db.d_day r =? Db.d_day row)%Z);
      [left; reflexivity | right; exact IH].
Qed.

(** X28: the week of a day and its summaries.  The range returned by
    [get_week_range_monday_sunday] starts on a Monday, spans seven days,
    contains the day, and is the same for every day inside it.
    [get_daily_summaries_week] returns, in ascending order of day, one
    entry for each daily_summary row of the user that falls in that
    week; after [recompute_daily_summary] for a day the list of that
    day's week contains the day. *)
Theorem X28_week_summaries (db : Db.t) (uid : Z) (d : Db.Day) :
  let monday := fst (DbRange.get_week_range_monday_sunday d) in
  let sunday := snd (DbRange.get_week_range_monday_sunday d) in
  let week := DbRange.get_daily_summaries_week db uid d in
  (monday <= d <= sunday)%Z
  /\ sunday = (monday + 6)%Z
  /\ DbRange.weekday monday = 0%Z
  /\ (forall d', (monday <= d' <= sunday)%Z ->
        DbRange.get_week_range_monday_sunday d' = (monday, sunday))
  /\ ascending (map DbRange.rr_day week)
  /\ List.length week
     = List.length
         (filter (fun r => (Db.d_user_id r =? uid)%Z
                           && (monday <=? Db.d_day r)%Z && (Db.d_day r <=? sunday)%Z)
                 (Db.daily_summary db))
  /\ (forall d', In d' (map DbRange.rr_day week) <->
        (monday <= d' <= sunday)%Z
        /\ exists r, In r (Db.daily_summary db) /\ Db.d_user_id r = uid /\ Db.d_day r = d')
  /\ (forall now,
        In d (map DbRange.rr_day
                (DbRange.get_daily_summaries_week
                   (fst (Db.recompute_daily_summary db uid (Some d) now)) uid d))).
Proof.
  cbv zeta. unfold DbRange.get_daily_summaries_week, DbRange.get_week_range_monday_sunday.
  cbn [fst snd]. unfold DbRange.weekday.
  pose proof (Z.mod_pos_bound (d + 3) 7 ltac:(lia)) as Hm.
  set (wd := ((d + 3) mod 7)%Z) in *.
  assert (Hdiv : (d + 3 = 7 * ((d + 3) / 7) + wd)%Z) by (apply Z.div_mod; lia).
  split; [lia|]. split; [reflexivity|].
  split.
  { replace (d - wd + 3)%Z with (0 + ((d + 3) / 7) * 7)%Z by lia.
    rewrite Z.mod_add by lia. reflexivity. }
  split.
  { intros d' Hd'.
    assert (Hwd' : ((d' + 3) mod 7 = d' - (d - wd))%Z).
    { replace (d' + 3)%Z with ((d' - (d - wd)) + ((d + 3) / 7) * 7)%Z by lia.
      rewrite Z.mod_add by lia. apply Z.mod_small. lia. }
    rewrite Hwd'. f_equal; lia. }
  assert (Hdays : forall db0,
            map DbRange.rr_day (DbRange.get_daily_summaries_range db0 uid (d - wd)%Z (d - wd + 6)%Z)
            = map Db.d_day
                (DbRange.order_by_day
                   (filter (fun r => (Db.d_user_id r =? uid)%Z
                                     && (d - wd <=? Db.d_day r)%Z
                                     && (Db.d_day r <=? d - wd + 6)%Z)
                           (Db.daily_summary db0)))).
  { intro db0. unfold DbRange.get_daily_summaries_range. rewrite map_map. reflexivity. }
  assert (Hmem : forall db0 d',
            In d' (map DbRange.rr_day
                     (DbRange.get_daily_summaries_range db0 uid (d - wd)%Z (d - wd + 6)%Z)) <->
            (d - wd <= d' <= d - wd + 6)%Z
            /\ exists r, In r (Db.daily_summary db0) /\ Db.d_user_id r = uid /\ Db.d_day r = d').
  { intros db0 d'. rewrite Hdays, in_map_iff. split.
    - intros (r & Hr & Hin). apply order_by_day_in, filter_In in Hin.
      destruct Hin as [Hin Hf]. apply andb_prop in Hf. destruct Hf as [Hf H3].
      apply andb_prop in Hf. destruct Hf as [H1 H2].
      apply Z.eqb_eq in H1. apply Z.leb_le in H2, H3.
      split; [lia|]. exists r. repeat split; assumption.
    - intros (Hrange & r & Hin & Hu & Hd). exists r. split; [exact Hd|].
      apply order_by_day_in, filter_In. split; [exact Hin|].
      rewrite Hu, Hd, Z.eqb_refl.
      rewrite (proj2 (Z.leb_le _ _) (proj1 Hrange)), (proj2 (Z.leb_le _ _) (proj2 Hrange)).
      reflexivity. }
  split; [rewrite Hdays; apply order_by_day_ascending|].
  split.
  { unfold DbRange.get_daily_summaries_range. rewrite length_map.
    apply order_by_day_length. }
  split; [apply Hmem|].
  intro now. apply Hmem. split; [lia|].
  exists (snd (Db.recompute_daily_summary db uid (Some d) now)).
  unfold Db.recompute_daily_summary. cbn [fst snd Db.daily_summary].
  split; [apply upsert_daily_row_in | split; reflexivity].
Qed.
